(** * CodeXR: query grounding and response assembly

  A shallow embedding of the pipeline of the CodeXR assistant:
  the category classifier and the static knowledge selector
  ([app.py], [streamlit_app.py]), the response schema ([schemas.py]),
  the offline document index and the error debugger
  ([phase2_3_framework.py]) and the web search agent
  ([langchain_search.py]).

  Python strings are modelled as [string] and the text is taken to be
  ASCII: [str.lower] changes the letters A-Z only and [str.split] cuts
  at ASCII white space.  Python integers are [Z].  Dictionaries whose
  iteration order matters are association lists in insertion order.
  Calls that may raise return a [Py.result]. *)

From Stdlib Require Import ZArith QArith Lia List Ascii String Sorted.
From stdpp Require Import base list strings gmap.
Import ListNotations.
Open Scope string_scope.
Open Scope Z_scope.

(** ** Python primitives *)

Module Py.

(** Exceptions that the modelled code can meet. *)
Inductive exn : Type :=
| KeyError (key : string)
| OverflowError
| OperationalError (msg : string)
| ProviderError (msg : string).

(** The outcome of a call that may raise. *)
Inductive result (A : Type) : Type :=
| Ok (a : A)
| Raise (e : exn).
Arguments Ok {A} a.
Arguments Raise {A} e.

Definition bind {A B} (r : result A) (k : A -> result B) : result B :=
  match r with
  | Ok a => k a
  | Raise e => Raise e
  end.

Definition newline : ascii := ascii_of_nat 10.
Definition dquote : ascii := ascii_of_nat 34.
Definition grave : ascii := ascii_of_nat 96.

(** [lines] joins the lines of a multi-line literal with newlines. *)
Fixpoint lines (ls : list string) : string :=
  match ls with
  | [] => EmptyString
  | [l] => l
  | l :: rest => l ++ String newline (lines rest)
  end.

(** The sources' literals contain double quotes; they are written
    here with a grave accent (which no modelled literal contains)
    and [unq] puts the double quotes back. *)
Fixpoint unq (s : string) : string :=
  match s with
  | EmptyString => EmptyString
  | String c s' =>
      String (if Ascii.eqb c grave then dquote else c) (unq s')
  end.

(** [str.lower] on ASCII text. *)
Definition lower_char (c : ascii) : ascii :=
  let n := nat_of_ascii c in
  if ((65 <=? n) && (n <=? 90))%nat then ascii_of_nat (n + 32) else c.

Fixpoint lower (s : string) : string :=
  match s with
  | EmptyString => EmptyString
  | String c s' => String (lower_char c) (lower s')
  end.

(** [sub in s]: [sub] occurs in [s] as a contiguous substring. *)
Fixpoint contains (sub s : string) : bool :=
  String.prefix sub s ||
  match s with
  | EmptyString => false
  | String _ s' => contains sub s'
  end.

(** [s.startswith(p)] *)
Definition startswith (s p : string) : bool := String.prefix p s.

(** [s[:n]] *)
Definition slice_to (n : nat) (s : string) : string := substring 0 n s.

(** [len(s)] *)
Definition len (s : string) : Z := Z.of_nat (String.length s).

(** [sum(1 for w in ws if w in s)], also [sum(w in s for w in ws)]. *)
Definition count_in (ws : list string) (s : string) : Z :=
  Z.of_nat (List.length (List.filter (fun w => contains w s) ws)).

(** [any(w in s for w in ws)] *)
Definition any_in (ws : list string) (s : string) : bool :=
  existsb (fun w => contains w s) ws.

(** The characters [str.split()] treats as separators (ASCII). *)
Definition is_space (c : ascii) : bool :=
  let n := nat_of_ascii c in
  (((9 <=? n) && (n <=? 13)) || ((28 <=? n) && (n <=? 32)))%nat.

(** [s.split()]: maximal runs of non-blank characters. *)
Fixpoint split_from (s : string) (word : option string) : list string :=
  match s with
  | EmptyString =>
      match word with
      | Some w => [w]
      | None => []
      end
  | String c s' =>
      if is_space c then
        match word with
        | Some w => w :: split_from s' None
        | None => split_from s' None
        end
      else
        split_from s'
          (Some (match word with
                 | Some w => w ++ String c EmptyString
                 | None => String c EmptyString
                 end))
  end.

Definition split (s : string) : list string := split_from s None.

(** [d.get(k)] for a dictionary kept as an association list. *)
Fixpoint dict_get {V : Type} (d : list (string * V)) (k : string)
  : option V :=
  match d with
  | [] => None
  | (k', v) :: d' => if String.eqb k' k then Some v else dict_get d' k
  end.

(** [d[k]] *)
Definition dict_index {V : Type} (d : list (string * V)) (k : string)
  : result V :=
  match dict_get d k with
  | Some v => Ok v
  | None => Raise (KeyError k)
  end.

(** [max(d, key=d.get)] over a dictionary with first entry [e] and
    further entries [rest]: the first key, in iteration order, whose
    value is maximal. *)
Fixpoint max_by_value (best : string * Z) (rest : list (string * Z))
  : string * Z :=
  match rest with
  | [] => best
  | e :: rest' =>
      if snd best <? snd e then max_by_value e rest'
      else max_by_value best rest'
  end.

(** [l.sort(key=key, reverse=True)]: a stable sort by descending key,
    as insertion from the right.  It also serves for [ORDER BY ... DESC]. *)
Section SortDesc.
Context {A : Type} (key : A -> Z).

Fixpoint insert_desc (x : A) (l : list A) : list A :=
  match l with
  | [] => [x]
  | y :: l' =>
      if key x <? key y then y :: insert_desc x l' else x :: l
  end.

Fixpoint sort_desc (l : list A) : list A :=
  match l with
  | [] => []
  | x :: l' => insert_desc x (sort_desc l')
  end.

End SortDesc.

(** [s.split(sep)] for a one-character separator: the pieces between
    the separators, empty pieces included; [piece] is the piece being
    read. *)
Fixpoint split_on (sep : ascii) (s : string) (piece : string) : list string :=
  match s with
  | EmptyString => [piece]
  | String c s' =>
      if Ascii.eqb c sep then piece :: split_on sep s' EmptyString
      else split_on sep s' (piece ++ String c EmptyString)
  end.

(** [s.lstrip()], [s.rstrip()] and [s.strip()] on ASCII text. *)
Fixpoint lstrip (s : string) : string :=
  match s with
  | EmptyString => EmptyString
  | String c s' => if is_space c then lstrip s' else s
  end.

Fixpoint rstrip (s : string) : string :=
  match s with
  | EmptyString => EmptyString
  | String c s' =>
      match rstrip s' with
      | EmptyString => if is_space c then EmptyString else String c EmptyString
      | String d r => String c (String d r)
      end
  end.

Definition strip (s : string) : string := rstrip (lstrip s).

End Py.

(** ** The response records shared by [app.py] and [schemas.py] *)

Module SubTask.
Record t : Type := mk {
  description : string;
  code_snippet : option string;
  explanation : option string
}.
End SubTask.

Module CodeXRResponse.
Record t : Type := mk {
  query : string;
  category : string;
  subtasks : list SubTask.t;
  code_snippet : string;
  best_practices : list string;
  gotchas : list string;
  difficulty_rating : Z;
  documentation_links : list string;
  estimated_time : string
}.
End CodeXRResponse.

(** ** [app.py]: classifier and static knowledge selector *)

Module App.
Import Py.

(** One step of a knowledge-base entry: a dictionary with the key
    [description] and, possibly, [code_snippet]. *)
Record KbTask : Type := mkKbTask {
  task_description : string;
  task_code_snippet : option string
}.

Record KbEntry : Type := mkKbEntry {
  kb_subtasks : list KbTask;
  kb_main_code : string;
  kb_best_practices : list string;
  kb_gotchas : list string;
  kb_docs : list string
}.

Definition KnowledgeBase : Type := list (string * KbEntry).

Definition UNITY_TELEPORT_MAIN_CODE : string := unq (lines [
  "using UnityEngine;";
  "using UnityEngine.XR.Interaction.Toolkit;";
  EmptyString;
  "public class TeleportSetup : MonoBehaviour";
  "{";
  "    public TeleportationProvider teleportProvider;";
  "    public XRRayInteractor rayInteractor;";
  "    ";
  "    void Start()";
  "    {";
  "        if (teleportProvider == null)";
  "            teleportProvider = FindObjectOfType<TeleportationProvider>();";
  "            ";
  "        if (rayInteractor != null)";
  "        {";
  "            rayInteractor.enableUIInteraction = false;";
  "            rayInteractor.lineType = XRRayInteractor.LineType.ProjectileCurve;";
  "        }";
  "    }";
  "}"
]).

Definition UNREAL_MULTIPLAYER_MAIN_CODE : string := unq (lines [
  "// VRGameMode.h";
  "UCLASS()";
  "class VRGAME_API AVRGameMode : public AGameModeBase";
  "{";
  "    GENERATED_BODY()";
  "    ";
  "public:";
  "    AVRGameMode();";
  "    ";
  "protected:";
  "    virtual void PostLogin(APlayerController* NewPlayer) override;";
  "    virtual void Logout(AController* Exiting) override;";
  "    ";
  "    UPROPERTY(EditDefaultsOnly, BlueprintReadOnly)";
  "    int32 MaxPlayers = 4;";
  "};";
  EmptyString;
  "// VRGameMode.cpp";
  "AVRGameMode::AVRGameMode()";
  "{";
  "    DefaultPawnClass = AVRPawn::StaticClass();";
  "    PlayerControllerClass = AVRPlayerController::StaticClass();";
  "}";
  EmptyString;
  "void AVRGameMode::PostLogin(APlayerController* NewPlayer)";
  "{";
  "    Super::PostLogin(NewPlayer);";
  "    UE_LOG(LogTemp, Log, TEXT(`Player joined VR session`));";
  "}"
]).

Definition SHADER_OCCLUSION_MAIN_CODE : string := unq (lines [
  "Shader `AR/OcclusionShader`";
  "{";
  "    Properties";
  "    {";
  "        _MainTex (`Texture`, 2D) = `white` {}";
  "        _Alpha (`Alpha`, Range(0,1)) = 0.5";
  "    }";
  "    SubShader";
  "    {";
  "        Tags { `RenderType`=`Transparent` `Queue`=`Geometry-1` }";
  "        LOD 100";
  "        ";
  "        Pass";
  "        {";
  "            ZWrite On";
  "            ZTest LEqual";
  "            ColorMask 0";
  "            ";
  "            CGPROGRAM";
  "            #pragma vertex vert";
  "            #pragma fragment frag";
  "            ";
  "            #include `UnityCG.cginc`";
  "            ";
  "            struct appdata";
  "            {";
  "                float4 vertex : POSITION;";
  "            };";
  "            ";
  "            struct v2f";
  "            {";
  "                float4 vertex : SV_POSITION;";
  "            };";
  "            ";
  "            v2f vert (appdata v)";
  "            {";
  "                v2f o;";
  "                o.vertex = UnityObjectToClipPos(v.vertex);";
  "                return o;";
  "            }";
  "            ";
  "            fixed4 frag (v2f i) : SV_Target";
  "            {";
  "                return fixed4(0,0,0,0);";
  "            }";
  "            ENDCG";
  "        }";
  "    }";
  "}"
]).

Definition UNITY_KNOWLEDGE : KnowledgeBase :=
  [ ("teleport",
     {| kb_subtasks :=
          [ mkKbTask "Set up XR Interaction Toolkit"
              (Some "// Install XR Interaction Toolkit package via Package Manager");
            mkKbTask "Create XR Origin (Camera Rig)"
              (Some (unq "GameObject.Find(`XR Origin`)"));
            mkKbTask "Add Teleportation Provider"
              (Some "GetComponent<TeleportationProvider>()");
            mkKbTask "Configure Teleport Areas"
              (Some "// Add TeleportationArea components to valid surfaces") ];
        kb_main_code := UNITY_TELEPORT_MAIN_CODE;
        kb_best_practices :=
          [ "Use NavMesh for teleportation boundaries";
            "Provide visual feedback for valid teleport areas";
            "Consider comfort settings to reduce motion sickness";
            "Test on different VR headsets for compatibility" ];
        kb_gotchas :=
          [ "Ensure TeleportationProvider is assigned in the scene";
            "NavMesh must be baked for teleportation to work";
            "Ray interactor may conflict with UI interactions";
            "Performance impact on mobile VR platforms" ];
        kb_docs :=
          [ "https://docs.unity3d.com/Packages/com.unity.xr.interaction.toolkit@2.5/manual/teleportation.html";
            "https://docs.unity3d.com/Manual/nav-BuildingNavMesh.html" ] |}) ].

Definition UNREAL_KNOWLEDGE : KnowledgeBase :=
  [ ("multiplayer",
     {| kb_subtasks :=
          [ mkKbTask "Enable VR Template"
              (Some "// Create new VR project in Unreal Engine");
            mkKbTask "Configure Network Settings"
              (Some "// Enable multiplayer in Project Settings");
            mkKbTask "Setup Game Mode"
              (Some "// Create custom VRGameMode class");
            mkKbTask "Implement Player Replication"
              (Some "// Configure pawn replication") ];
        kb_main_code := UNREAL_MULTIPLAYER_MAIN_CODE;
        kb_best_practices :=
          [ "Use dedicated servers for stable multiplayer";
            "Implement proper VR controller replication";
            "Optimize network traffic for VR-specific data";
            "Handle VR-specific player disconnections gracefully" ];
        kb_gotchas :=
          [ "VR pawns require special network setup";
            "Hand tracking data needs careful replication";
            "Locomotion can cause network prediction issues";
            "Performance drops significantly with multiple VR players" ];
        kb_docs :=
          [ "https://docs.unrealengine.com/5.0/en-us/multiplayer-programming-quick-start-for-unreal-engine/";
            "https://docs.unrealengine.com/5.0/en-us/vr-development-in-unreal-engine/" ] |}) ].

Definition SHADER_KNOWLEDGE : KnowledgeBase :=
  [ ("occlusion",
     {| kb_subtasks :=
          [ mkKbTask "Create Occlusion Shader"
              (Some "// Create new Unlit shader in Unity");
            mkKbTask "Configure Depth Testing"
              (Some "// Setup depth buffer comparison");
            mkKbTask "Implement Alpha Blending"
              (Some "// Configure transparency for occlusion");
            mkKbTask "Optimize for Mobile AR"
              (Some "// Reduce shader complexity for mobile") ];
        kb_main_code := SHADER_OCCLUSION_MAIN_CODE;
        kb_best_practices :=
          [ "Use depth-only rendering for performance";
            "Implement proper depth buffer management";
            "Consider mobile GPU limitations";
            "Test with different AR tracking systems" ];
        kb_gotchas :=
          [ "Render queue order is critical for occlusion";
            "Mobile GPUs may have depth precision issues";
            "Alpha blending can cause sorting problems";
            "Performance impact on older devices" ];
        kb_docs :=
          [ "https://docs.unity3d.com/Manual/SL-ShaderReplacement.html";
            "https://developers.google.com/ar/develop/unity/occlusion" ] |}) ].

Definition unity_keywords : list string :=
  ["unity"; "c#"; "xr toolkit"; "teleport"; "vr"; "ar"; "interaction"].
Definition unreal_keywords : list string :=
  ["unreal"; "c++"; "ue4"; "ue5"; "blueprint"; "multiplayer"].
Definition shader_keywords : list string :=
  ["shader"; "hlsl"; "glsl"; "material"; "rendering"; "occlusion"].

(** The three values of the [scores] dictionary. *)
Definition unity_score (query : string) : Z :=
  count_in unity_keywords (lower query).
Definition unreal_score (query : string) : Z :=
  count_in unreal_keywords (lower query).
Definition shader_score (query : string) : Z :=
  count_in shader_keywords (lower query).

Definition categorize_query (query : string) : string :=
  let max_cat :=
    max_by_value ("Unity", unity_score query)
      [("Unreal", unreal_score query); ("Shader", shader_score query)] in
  if 0 <? snd max_cat then fst max_cat else "General".

(** The [for k in knowledge_base: if k in query.lower(): key = k; break]
    loop: the first key, in the mapping's order, that occurs in the
    lowercased query. *)
Fixpoint first_key_in (keys : list string) (query_lower : string)
  : option string :=
  match keys with
  | [] => None
  | k :: keys' =>
      if contains k query_lower then Some k
      else first_key_in keys' query_lower
  end.

(** [key or default]: [None] and the empty string are falsy. *)
Definition key_or (key : option string) (default : string) : string :=
  match key with
  | Some k => if String.eqb k EmptyString then default else k
  | None => default
  end.

(** The values of [knowledge_base] and [key] once the category has been
    dispatched; [None] stands for the [else] branch, which returns the
    General response at once. *)
Definition select_topic (query category : string)
  : option (KnowledgeBase * string) :=
  if String.eqb category "Unity" then
    Some (UNITY_KNOWLEDGE,
          key_or (first_key_in (map fst UNITY_KNOWLEDGE) (lower query))
            "teleport")
  else if String.eqb category "Unreal" then
    Some (UNREAL_KNOWLEDGE, "multiplayer")
  else if String.eqb category "Shader" then
    Some (SHADER_KNOWLEDGE, "occlusion")
  else None.

Definition general_response (query : string) : CodeXRResponse.t :=
  {| CodeXRResponse.query := query;
     CodeXRResponse.category := "General";
     CodeXRResponse.subtasks :=
       [ SubTask.mk "Choose your development platform (Unity/Unreal)" None
           (Some "Select based on your team's expertise and project requirements");
         SubTask.mk "Set up VR/AR SDK" None
           (Some "Install platform-specific SDKs and tools");
         SubTask.mk "Configure development environment" None
           (Some "Set up IDE, version control, and testing devices") ];
     CodeXRResponse.code_snippet :=
       "// Choose your platform and follow platform-specific setup guides";
     CodeXRResponse.best_practices :=
       [ "Start with simple interactions before complex features";
         "Test regularly on target devices";
         "Follow platform-specific design guidelines";
         "Optimize for performance from the beginning" ];
     CodeXRResponse.gotchas :=
       [ "Each platform has different performance characteristics";
         "SDK updates can break existing functionality";
         "Device compatibility varies significantly" ];
     CodeXRResponse.difficulty_rating := 3;
     CodeXRResponse.documentation_links :=
       [ "https://docs.unity3d.com/Manual/XR.html";
         "https://docs.unrealengine.com/5.0/en-us/vr-development-in-unreal-engine/" ];
     CodeXRResponse.estimated_time := "2-4 hours for basic setup" |}.

(** The response built from a static knowledge entry. *)
Definition entry_response (query category : string) (kb_entry : KbEntry)
  : CodeXRResponse.t :=
  {| CodeXRResponse.query := query;
     CodeXRResponse.category := category;
     CodeXRResponse.subtasks :=
       map (fun task =>
              SubTask.mk (task_description task) (task_code_snippet task)
                (Some ("This step is essential for "
                       ++ lower (task_description task))))
           (kb_subtasks kb_entry);
     CodeXRResponse.code_snippet := kb_main_code kb_entry;
     CodeXRResponse.best_practices := kb_best_practices kb_entry;
     CodeXRResponse.gotchas := kb_gotchas kb_entry;
     CodeXRResponse.difficulty_rating :=
       if String.eqb category "Shader" then 4 else 3;
     CodeXRResponse.documentation_links := kb_docs kb_entry;
     CodeXRResponse.estimated_time :=
       if String.eqb category "Unreal" then "3-6 hours" else "1-3 hours" |}.

(** The last [return] of [generate_response]. *)
Definition fallback_response (query category : string) : CodeXRResponse.t :=
  {| CodeXRResponse.query := query;
     CodeXRResponse.category := category;
     CodeXRResponse.subtasks :=
       [ SubTask.mk "Research specific implementation" None
           (Some "Look up official documentation") ];
     CodeXRResponse.code_snippet :=
       "// Implementation depends on specific requirements";
     CodeXRResponse.best_practices :=
       [ "Follow official guidelines"; "Test thoroughly" ];
     CodeXRResponse.gotchas :=
       [ "Implementation may vary by platform version" ];
     CodeXRResponse.difficulty_rating := 3;
     CodeXRResponse.documentation_links := [ "https://docs.example.com" ];
     CodeXRResponse.estimated_time := "2-4 hours" |}.

(** Which of the three [return] statements produced the response. *)
Inductive ReturnSite : Type :=
| GeneralReturn
| EntryReturn
| FallbackReturn.

(** [generate_response], together with the [return] it left through;
    [if knowledge_base and key in knowledge_base] holds when the
    mapping is not empty and has the key. *)
Definition generate_response_at (query category : string)
  : ReturnSite * CodeXRResponse.t :=
  match select_topic query category with
  | None => (GeneralReturn, general_response query)
  | Some (knowledge_base, key) =>
      match knowledge_base with
      | [] => (FallbackReturn, fallback_response query category)
      | _ :: _ =>
          match dict_get knowledge_base key with
          | Some kb_entry =>
              (EntryReturn, entry_response query category kb_entry)
          | None => (FallbackReturn, fallback_response query category)
          end
      end
  end.

Definition generate_response (query category : string) : CodeXRResponse.t :=
  snd (generate_response_at query category).

(** The request model of [app.py]. *)
Record QueryRequest : Type := mkQueryRequest {
  request_query : string;
  request_category : option string
}.

(** [process_query]: the category is [request.category or
    categorize_query(request.query)]; nothing in the body raises, so
    the handler that turns an exception into a status 500 is not
    entered. *)
Definition process_query (request : QueryRequest) : CodeXRResponse.t :=
  let category :=
    key_or (request_category request)
      (categorize_query (request_query request)) in
  generate_response (request_query request) category.

(** [process_query] when the request carries no category. *)
Definition pipeline (query : string) : CodeXRResponse.t :=
  generate_response query (categorize_query query).

End App.

(** ** [streamlit_app.py]: the classifier of the Streamlit front end *)

Module StreamlitApp.
Import Py.

Definition unity_keywords : list string :=
  ["unity"; "c#"; "xr toolkit"; "teleport"; "vr"; "ar"; "interaction";
   "gameobject"].
Definition unreal_keywords : list string :=
  ["unreal"; "c++"; "ue4"; "ue5"; "blueprint"; "multiplayer"; "uclass";
   "generated_body"].
Definition shader_keywords : list string :=
  ["shader"; "hlsl"; "glsl"; "material"; "rendering"; "occlusion"; "vertex";
   "fragment"].

Definition unity_score (query : string) : Z :=
  count_in unity_keywords (lower query).
Definition unreal_score (query : string) : Z :=
  count_in unreal_keywords (lower query).
Definition shader_score (query : string) : Z :=
  count_in shader_keywords (lower query).

Definition categorize_query (query : string) : string :=
  let max_category :=
    max_by_value ("Unity", unity_score query)
      [("Unreal", unreal_score query); ("Shader", shader_score query)] in
  if 0 <? snd max_category then fst max_category else "General".

(** An entry of [DEMO_KNOWLEDGE]; each of its subtasks holds the three
    keyword arguments from which the [SubTask] is built. *)
Record DemoEntry : Type := mkDemoEntry {
  demo_subtasks : list SubTask.t;
  demo_main_code : string;
  demo_best_practices : list string;
  demo_gotchas : list string;
  demo_docs : list string
}.

Definition UNITY_TELEPORT_MAIN_CODE : string :=
  unq (lines [
    "using UnityEngine;";
    "using UnityEngine.XR.Interaction.Toolkit;";
    EmptyString;
    "public class TeleportSetup : MonoBehaviour";
    "{";
    "    public TeleportationProvider teleportProvider;";
    "    public XRRayInteractor rayInteractor;";
    "    public LineRenderer teleportLine;";
    "    ";
    "    void Start()";
    "    {";
    "        // Configure teleportation provider";
    "        if (teleportProvider == null)";
    "            teleportProvider = FindObjectOfType<TeleportationProvider>();";
    "            ";
    "        // Setup ray interactor for teleportation";
    "        if (rayInteractor != null)";
    "        {";
    "            rayInteractor.enableUIInteraction = false;";
    "            rayInteractor.lineType = XRRayInteractor.LineType.ProjectileCurve;";
    "            rayInteractor.maxRaycastDistance = 10f;";
    "        }";
    "        ";
    "        // Configure visual feedback";
    "        if (teleportLine != null)";
    "        {";
    "            teleportLine.material.color = Color.cyan;";
    "            teleportLine.width = 0.02f;";
    "        }";
    "    }";
    "    ";
    "    // Optional: Custom teleport validation";
    "    public bool ValidateTeleportRequest(TeleportRequest request)";
    "    {";
    "        return request.destinationPosition.y >= -1f; // Prevent teleporting too low";
    "    }";
    "}" ]).

Definition UNREAL_MULTIPLAYER_MAIN_CODE : string :=
  unq (lines [
    "// VRGameMode.h";
    "#pragma once";
    EmptyString;
    "#include `CoreMinimal.h`";
    "#include `GameFramework/GameModeBase.h`";
    "#include `VRGameMode.generated.h`";
    EmptyString;
    "UCLASS()";
    "class VRGAME_API AVRGameMode : public AGameModeBase";
    "{";
    "    GENERATED_BODY()";
    "    ";
    "public:";
    "    AVRGameMode();";
    "    ";
    "protected:";
    "    virtual void PostLogin(APlayerController* NewPlayer) override;";
    "    virtual void Logout(AController* Exiting) override;";
    "    ";
    "    UPROPERTY(EditDefaultsOnly, BlueprintReadOnly, Category = `VR Settings`)";
    "    int32 MaxPlayers = 4;";
    "    ";
    "    UPROPERTY(EditDefaultsOnly, BlueprintReadOnly, Category = `VR Settings`)";
    "    bool bEnableHandTracking = true;";
    "};";
    EmptyString;
    "// VRGameMode.cpp";
    "#include `VRGameMode.h`";
    "#include `VRPlayerController.h`";
    "#include `VRPawn.h`";
    EmptyString;
    "AVRGameMode::AVRGameMode()";
    "{";
    "    DefaultPawnClass = AVRPawn::StaticClass();";
    "    PlayerControllerClass = AVRPlayerController::StaticClass();";
    "    ";
    "    // Enable replication";
    "    bReplicates = true;";
    "}";
    EmptyString;
    "void AVRGameMode::PostLogin(APlayerController* NewPlayer)";
    "{";
    "    Super::PostLogin(NewPlayer);";
    "    ";
    "    UE_LOG(LogTemp, Log, TEXT(`VR Player joined session: %s`), ";
    "           *NewPlayer->GetName());";
    "    ";
    "    // Setup VR-specific player initialization";
    "    if (AVRPlayerController* VRController = Cast<AVRPlayerController>(NewPlayer))";
    "    {";
    "        VRController->SetupVRPlayer();";
    "    }";
    "}" ]).

Definition SHADER_OCCLUSION_MAIN_CODE : string :=
  unq (lines [
    "Shader `AR/OcclusionShader`";
    "{";
    "    Properties";
    "    {";
    "        _MainTex (`Texture`, 2D) = `white` {}";
    "        _Alpha (`Alpha`, Range(0,1)) = 0.0";
    "        _OcclusionStrength (`Occlusion Strength`, Range(0,1)) = 1.0";
    "    }";
    "    ";
    "    SubShader";
    "    {";
    "        Tags { ";
    "            `RenderType`=`Transparent` ";
    "            `Queue`=`Geometry-1` ";
    "            `ForceNoShadowCasting`=`True`";
    "        }";
    "        ";
    "        LOD 100";
    "        ";
    "        // First pass: Write to depth buffer only";
    "        Pass";
    "        {";
    "            Name `OCCLUSION`";
    "            ZWrite On";
    "            ZTest LEqual";
    "            ColorMask 0";
    "            Cull Off";
    "            ";
    "            CGPROGRAM";
    "            #pragma vertex vert";
    "            #pragma fragment frag";
    "            #pragma target 2.0";
    "            ";
    "            #include `UnityCG.cginc`";
    "            ";
    "            struct appdata";
    "            {";
    "                float4 vertex : POSITION;";
    "                float2 uv : TEXCOORD0;";
    "            };";
    "            ";
    "            struct v2f";
    "            {";
    "                float4 vertex : SV_POSITION;";
    "                float2 uv : TEXCOORD0;";
    "            };";
    "            ";
    "            v2f vert (appdata v)";
    "            {";
    "                v2f o;";
    "                o.vertex = UnityObjectToClipPos(v.vertex);";
    "                o.uv = v.uv;";
    "                return o;";
    "            }";
    "            ";
    "            fixed4 frag (v2f i) : SV_Target";
    "            {";
    "                // Only write to depth, no color output";
    "                return fixed4(0,0,0,0);";
    "            }";
    "            ENDCG";
    "        }";
    "    }";
    "    ";
    "    FallBack `Mobile/Diffuse`";
    "}" ]).

(** [DEMO_KNOWLEDGE]: per category, the topics in the order of the source. *)
Definition DEMO_KNOWLEDGE : list (string * list (string * DemoEntry)) :=
  [
    ("Unity",
     [
      ("teleport",
       {| demo_subtasks :=
          [
            SubTask.mk "Install XR Interaction Toolkit"
              (Some "// Window > Package Manager > Unity Registry > XR Interaction Toolkit")
              (Some "The XR Interaction Toolkit provides the foundation for VR interactions including teleportation");
            SubTask.mk "Create XR Origin (Camera Rig)"
              (Some "// GameObject > XR > XR Origin (VR)")
              (Some "XR Origin manages the VR camera and tracking space for your player");
            SubTask.mk "Add Teleportation Provider"
              (Some "GetComponent<TeleportationProvider>()")
              (Some "The Teleportation Provider handles the actual teleportation logic and validation");
            SubTask.mk "Configure Teleport Areas"
              (Some "// Add Component > XR > Teleportation Area")
              (Some "Define which surfaces or locations players can teleport to") ];
          demo_main_code := UNITY_TELEPORT_MAIN_CODE;
          demo_best_practices :=
            [ "Use NavMesh for teleportation boundaries to prevent players from teleporting into walls";
            "Provide clear visual feedback with arc lines showing valid teleport destinations";
            "Consider comfort settings like fade transitions to reduce motion sickness";
            "Test teleportation on different VR headsets for compatibility and comfort";
            "Use Teleportation Anchors for precise positioning at important locations";
            "Implement audio feedback for successful teleportation" ];
          demo_gotchas :=
            [ "Ensure TeleportationProvider is assigned in the scene hierarchy";
            "NavMesh must be baked for ground-based teleportation to work properly";
            "Ray interactor may conflict with UI interactions - disable UI interaction when needed";
            "Performance impact on mobile VR platforms - optimize teleport arc calculations";
            "Teleport areas need proper colliders to be detected by the ray interactor";
            "Layer masks can prevent teleportation - check your layer settings" ];
          demo_docs :=
            [ "https://docs.unity3d.com/Packages/com.unity.xr.interaction.toolkit@2.5/manual/teleportation.html";
            "https://docs.unity3d.com/Manual/nav-BuildingNavMesh.html";
            "https://learn.unity.com/tutorial/vr-best-practices" ] |}) ]);
    ("Unreal",
     [
      ("multiplayer",
       {| demo_subtasks :=
          [
            SubTask.mk "Enable VR Template"
              (Some "// Create new project with VR Template")
              (Some "Start with VR-ready project setup including motion controller support");
            SubTask.mk "Configure Network Settings"
              (Some "// Project Settings > Engine > Network")
              (Some "Configure basic networking settings for multiplayer support");
            SubTask.mk "Setup Custom Game Mode"
              (Some "// Create custom VRGameMode class")
              (Some "Custom game mode handles player spawning and VR-specific multiplayer logic");
            SubTask.mk "Implement Player Replication"
              (Some "// Configure pawn replication")
              (Some "Ensure VR player movements and interactions are synchronized across clients") ];
          demo_main_code := UNREAL_MULTIPLAYER_MAIN_CODE;
          demo_best_practices :=
            [ "Use dedicated servers for stable multiplayer VR experiences";
            "Implement proper VR controller and hand tracking replication";
            "Optimize network traffic for VR-specific data (head position, hand poses)";
            "Handle VR-specific player disconnections gracefully with comfort transitions";
            "Use Unreal's built-in VR optimization features for multiplayer";
            "Implement spatial audio for better multiplayer immersion" ];
          demo_gotchas :=
            [ "VR pawns require special network setup - not all components replicate by default";
            "Hand tracking data needs careful replication to avoid network spam";
            "Locomotion systems can cause network prediction issues in multiplayer";
            "Performance drops significantly with multiple VR players - optimize rendering";
            "VR comfort settings may conflict with multiplayer synchronization";
            "Mobile VR platforms have additional networking limitations" ];
          demo_docs :=
            [ "https://docs.unrealengine.com/5.0/en-us/multiplayer-programming-quick-start-for-unreal-engine/";
            "https://docs.unrealengine.com/5.0/en-us/vr-development-in-unreal-engine/";
            "https://docs.unrealengine.com/5.0/en-us/networking-and-multiplayer-in-unreal-engine/" ] |}) ]);
    ("Shader",
     [
      ("occlusion",
       {| demo_subtasks :=
          [
            SubTask.mk "Create Occlusion Shader"
              (Some "// Shader > Create > Unlit Shader")
              (Some "Occlusion shaders need to write to depth buffer without rendering visible pixels");
            SubTask.mk "Configure Depth Testing"
              (Some "// ZWrite On, ZTest LEqual, ColorMask 0")
              (Some "Proper depth buffer configuration is critical for AR occlusion");
            SubTask.mk "Implement Alpha Blending"
              (Some "// Blend SrcAlpha OneMinusSrcAlpha")
              (Some "Alpha blending allows for soft occlusion effects");
            SubTask.mk "Optimize for Mobile AR"
              (Some "// Use simple vertex/fragment operations")
              (Some "Mobile AR platforms have limited GPU resources") ];
          demo_main_code := SHADER_OCCLUSION_MAIN_CODE;
          demo_best_practices :=
            [ "Use depth-only rendering for better performance - avoid unnecessary color calculations";
            "Implement proper depth buffer management with ZWrite On and ZTest LEqual";
            "Consider mobile GPU limitations when designing occlusion shaders";
            "Test with different AR tracking systems (ARCore, ARKit) for compatibility";
            "Use render queue 'Geometry-1' to ensure occlusion renders before other objects";
            "Implement LOD system for complex occlusion geometry" ];
          demo_gotchas :=
            [ "Render queue order is critical - wrong queue can break occlusion completely";
            "Mobile GPUs may have depth precision issues causing z-fighting";
            "Alpha blending can cause sorting problems with transparent objects";
            "Performance impact on older mobile devices - test thoroughly";
            "Some AR frameworks require specific shader tags or properties";
            "Depth buffer sharing between AR camera and Unity can cause conflicts" ];
          demo_docs :=
            [ "https://docs.unity3d.com/Manual/SL-ShaderReplacement.html";
            "https://developers.google.com/ar/develop/unity/occlusion";
            "https://developer.apple.com/documentation/arkit/environmental_analysis/occluding_virtual_content_with_people" ] |}) ]) ].

(** The response model of the front end: its nine typed fields, and
    [raw_json], a dictionary with the same nine keys. *)
Record Response : Type := mkResponse {
  body : CodeXRResponse.t;
  raw_json : CodeXRResponse.t
}.

(** [create_demo_response] *)
Definition create_demo_response (query category : string) (data : DemoEntry)
  : Response :=
  let subtasks := demo_subtasks data in
  {| body :=
       {| CodeXRResponse.query := query;
          CodeXRResponse.category := category;
          CodeXRResponse.subtasks := subtasks;
          CodeXRResponse.code_snippet := demo_main_code data;
          CodeXRResponse.best_practices := demo_best_practices data;
          CodeXRResponse.gotchas := demo_gotchas data;
          CodeXRResponse.difficulty_rating :=
            if String.eqb category "Shader" then 4 else 3;
          CodeXRResponse.documentation_links := demo_docs data;
          CodeXRResponse.estimated_time :=
            if String.eqb category "Unreal" then "3-6 hours"
            else "1-3 hours" |};
     raw_json :=
       {| CodeXRResponse.query := query;
          CodeXRResponse.category := category;
          CodeXRResponse.subtasks := subtasks;
          CodeXRResponse.code_snippet := demo_main_code data;
          CodeXRResponse.best_practices := demo_best_practices data;
          CodeXRResponse.gotchas := demo_gotchas data;
          CodeXRResponse.difficulty_rating :=
            if String.eqb category "Shader" then 4 else 3;
          CodeXRResponse.documentation_links := demo_docs data;
          CodeXRResponse.estimated_time :=
            if String.eqb category "Unreal" then "3-6 hours"
            else "1-3 hours" |} |}.

(** The loop of [get_demo_response] over the topics of a category:
    the data of the first topic whose key occurs in the lowercased
    query. *)
Fixpoint first_demo_topic (topics : list (string * DemoEntry))
  (query_lower : string) : option DemoEntry :=
  match topics with
  | [] => None
  | (key, data) :: topics' =>
      if contains key query_lower then Some data
      else first_demo_topic topics' query_lower
  end.

(** [get_demo_response] *)
Definition get_demo_response (query category : string) : option Response :=
  let query_lower := lower query in
  match dict_get DEMO_KNOWLEDGE category with
  | Some topics =>
      match first_demo_topic topics query_lower with
      | Some data => Some (create_demo_response query category data)
      | None => None
      end
  | None => None
  end.

(** [generate_fallback_response] *)
Definition generate_fallback_response (query category : string) : Response :=
  let subtasks :=
    [ SubTask.mk "Research the specific implementation"
        (Some "// Check platform-specific documentation")
        (Some "Look up official documentation and examples") ] in
  {| body :=
       {| CodeXRResponse.query := query;
          CodeXRResponse.category := category;
          CodeXRResponse.subtasks := subtasks;
          CodeXRResponse.code_snippet :=
            "// Implementation for " ++ category ++ " development"
            ++ String newline
                 "// Check official documentation for specific examples";
          CodeXRResponse.best_practices :=
            [ "Follow official platform guidelines";
              "Test on target devices";
              "Optimize for performance" ];
          CodeXRResponse.gotchas :=
            [ "Version compatibility issues";
              "Platform-specific limitations" ];
          CodeXRResponse.difficulty_rating := 3;
          CodeXRResponse.documentation_links :=
            [ "https://docs.unity3d.com"; "https://docs.unrealengine.com" ];
          CodeXRResponse.estimated_time := "2-4 hours" |};
     raw_json :=
       {| CodeXRResponse.query := query;
          CodeXRResponse.category := category;
          CodeXRResponse.subtasks := subtasks;
          CodeXRResponse.code_snippet :=
            "// Implementation for " ++ category ++ " development"
            ++ String newline
                 "// Check official documentation for specific examples";
          CodeXRResponse.best_practices :=
            [ "Follow official platform guidelines";
              "Test on target devices";
              "Optimize for performance" ];
          CodeXRResponse.gotchas :=
            [ "Version compatibility issues";
              "Platform-specific limitations" ];
          CodeXRResponse.difficulty_rating := 3;
          CodeXRResponse.documentation_links :=
            [ "https://docs.unity3d.com"; "https://docs.unrealengine.com" ];
          CodeXRResponse.estimated_time := "2-4 hours" |} |}.

(** The [search_engines] dictionary of [initialize_apis]: the [run]
    function of the wrapper under the key [serp], and under [bing]. *)
Record SearchEngines : Type := mkSearchEngines {
  serp : option (string -> result string);
  bing : option (string -> result string)
}.

(** [search_documentation]; the handler also shows a warning. *)
Definition search_documentation (query : string)
  (search_engines : SearchEngines) : list string :=
  let search_query :=
    "AR VR development " ++ query ++ " official documentation tutorial" in
  let unavailable :=
    [ "Web search temporarily unavailable - using cached knowledge" ] in
  match serp search_engines with
  | Some run =>
      match run search_query with
      | Ok serp_results => [ "Search Results: " ++ serp_results ]
      | Raise _ => unavailable
      end
  | None =>
      match bing search_engines with
      | Some run =>
          match run search_query with
          | Ok bing_results => [ "Search Results: " ++ bing_results ]
          | Raise _ => unavailable
          end
      | None => []
      end
  end.

(** The [context] text of [process_with_llm]. *)
Definition llm_context (query category : string) (search_results : list string)
  : string :=
  lines [ EmptyString;
          "    You are CodeXR, an AI coding assistant for AR/VR developers.";
          "    ";
          "    Query: " ++ query;
          "    Category: " ++ category;
          "    Search Context: " ++ String.concat " " search_results;
          "    ";
          "    Provide a structured response with:";
          "    1. Step-by-step subtasks";
          "    2. Production-ready code snippet";
          "    3. Best practices";
          "    4. Common gotchas/pitfalls";
          "    5. Difficulty rating (1-5)";
          "    6. Estimated time";
          "    7. Documentation links";
          "    " ].

(** The [prompt] text of [process_with_gemini]. *)
Definition gemini_prompt (context query category : string) : string :=
  lines [ EmptyString;
          "    " ++ context;
          "    ";
          "    Respond in this exact JSON format:";
          "    {";
          unq "        `query`: `" ++ query ++ unq "`,";
          unq "        `category`: `" ++ category ++ unq "`,";
          unq "        `subtasks`: [";
          unq "            {`description`: `...`, `code_snippet`: `...`, `explanation`: `...`}";
          "        ],";
          unq "        `code_snippet`: `...`,";
          unq "        `best_practices`: [`...`],";
          unq "        `gotchas`: [`...`],";
          unq "        `difficulty_rating`: 1-5,";
          unq "        `documentation_links`: [`...`],";
          unq "        `estimated_time`: `...`";
          "    }";
          "    " ].

(** The language models and the decoding of their answers are outside
    the code: [generate_content] and [chat_completion_create] are the
    calls to the two services, which return an answer or raise;
    [decode_gemini] and [decode_openai] stand for reading the text of
    an answer, [json.loads] and [create_codexr_response], any of which
    may raise. *)
Section Backends.
Context {GeminiAnswer OpenAIAnswer : Type}.
Context (GEMINI_API_KEY OPENAI_API_KEY : string).
Context (generate_content : string -> result GeminiAnswer).
Context (chat_completion_create : string -> result OpenAIAnswer).
Context (decode_gemini : GeminiAnswer -> result Response).
Context (decode_openai : OpenAIAnswer -> result Response).

(** [process_with_gemini]: the call is outside the [try], the decoding
    inside a [try] whose bare [except] returns the fallback. *)
Definition process_with_gemini (context query category : string)
  : result Response :=
  let prompt := gemini_prompt context query category in
  match generate_content prompt with
  | Raise e => Raise e
  | Ok response =>
      match decode_gemini response with
      | Ok decoded => Ok decoded
      | Raise _ => Ok (generate_fallback_response query category)
      end
  end.

(** [process_with_openai] *)
Definition process_with_openai (context query category : string)
  : result Response :=
  match chat_completion_create context with
  | Raise e => Raise e
  | Ok response =>
      match decode_openai response with
      | Ok decoded => Ok decoded
      | Raise _ => Ok (generate_fallback_response query category)
      end
  end.

(** [process_with_llm]; the handler also shows an error message. *)
Definition process_with_llm (query category : string)
  (search_results : list string) (llm_choice : string) : Response :=
  match get_demo_response query category with
  | Some demo_response => demo_response
  | None =>
      let context := llm_context query category search_results in
      let attempt :=
        if String.eqb llm_choice "Gemini 2.5"
           && negb (String.eqb GEMINI_API_KEY EmptyString)
        then process_with_gemini context query category
        else if String.eqb llm_choice "GPT-4o-mini"
                && negb (String.eqb OPENAI_API_KEY EmptyString)
        then process_with_openai context query category
        else Ok (generate_fallback_response query category) in
      match attempt with
      | Ok response => response
      | Raise _ => generate_fallback_response query category
      end
  end.

End Backends.

End StreamlitApp.

(** ** [schemas.py]: the response validator *)

Module Schemas.
Import Py.

Definition CategoryEnum : list string :=
  ["Unity"; "Unreal"; "Shader"; "General"].

Definition DifficultyLevel : list Z := [1; 2; 3; 4; 5].

(** One constraint of [SubTask] or [CodeXRResponse] that a candidate
    breaks; [i] is the index of the offending item. *)
Inductive Violation : Type :=
| CategoryNotInEnum
| SubtasksMinItems
| SubtasksMaxItems
| DescriptionMinLength (i : nat)
| DescriptionMaxLength (i : nat)
| DescriptionNotActionable (i : nat)
| CodeSnippetMinLength
| BestPracticesMinItems
| BestPracticesMaxItems
| BestPracticeTooShort (i : nat)
| GotchasMinItems
| GotchasMaxItems
| GotchaTooShort (i : nat)
| DifficultyNotInEnum
| DocumentationLinksMinItems
| DocumentationLinksMaxItems
| DocumentationLinkNotUrl (i : nat)
| EstimatedTimeWithoutUnit.

Definition actionable_verbs : list string :=
  ["create"; "add"; "configure"; "setup"; "implement"; "install"].

(** [SubTask.description_must_be_actionable] *)
Definition description_must_be_actionable (v : string) : bool :=
  any_in actionable_verbs (lower v).

(** [SubTask]: the length bounds of [description], then its validator. *)
Definition subtask_violations (i : nat) (t : SubTask.t) : list Violation :=
  let v := SubTask.description t in
  if len v <? 10 then [DescriptionMinLength i]
  else if 200 <? len v then [DescriptionMaxLength i]
  else if description_must_be_actionable v then []
  else [DescriptionNotActionable i].

(** [validate_best_practices] *)
Definition validate_best_practices (i : nat) (v : string) : list Violation :=
  if len v <? 10 then [BestPracticeTooShort i] else [].

(** [validate_gotchas] *)
Definition validate_gotchas (i : nat) (v : string) : list Violation :=
  if len v <? 15 then [GotchaTooShort i] else [].

(** [validate_documentation_links] *)
Definition validate_documentation_links (i : nat) (v : string)
  : list Violation :=
  if startswith v "http://" || startswith v "https://" then []
  else [DocumentationLinkNotUrl i].

Definition time_patterns : list string := ["hour"; "day"; "week"; "minute"].

(** [validate_estimated_time] *)
Definition validate_estimated_time (v : string) : list Violation :=
  if any_in time_patterns (lower v) then [] else [EstimatedTimeWithoutUnit].

(** A validator with [each_item=True], run on the items from index [i]. *)
Fixpoint each_item {A : Type} (check : nat -> A -> list Violation)
  (i : nat) (items : list A) : list Violation :=
  match items with
  | [] => []
  | x :: items' => check i x ++ each_item check (S i) items'
  end.

(** [min_items] / [max_items] of a list field. *)
Definition items_bounds {A : Type} (min_items max_items : Z)
  (too_few too_many : Violation) (items : list A) : list Violation :=
  let n := Z.of_nat (List.length items) in
  if n <? min_items then [too_few]
  else if max_items <? n then [too_many]
  else [].

(** Every constraint of [schemas.CodeXRResponse] that a candidate with
    the fields of [r] breaks, in field order.  (pydantic stops at the
    first failure inside one field; listing them all changes which
    violations are reported for that field, not whether there is one.) *)
Definition violations (r : CodeXRResponse.t) : list Violation :=
  (if existsb (String.eqb (CodeXRResponse.category r)) CategoryEnum
   then [] else [CategoryNotInEnum])
  ++ items_bounds 3 8 SubtasksMinItems SubtasksMaxItems
       (CodeXRResponse.subtasks r)
  ++ each_item subtask_violations 0 (CodeXRResponse.subtasks r)
  ++ (if len (CodeXRResponse.code_snippet r) <? 50
      then [CodeSnippetMinLength] else [])
  ++ items_bounds 3 10 BestPracticesMinItems BestPracticesMaxItems
       (CodeXRResponse.best_practices r)
  ++ each_item validate_best_practices 0 (CodeXRResponse.best_practices r)
  ++ items_bounds 2 8 GotchasMinItems GotchasMaxItems
       (CodeXRResponse.gotchas r)
  ++ each_item validate_gotchas 0 (CodeXRResponse.gotchas r)
  ++ (if existsb (Z.eqb (CodeXRResponse.difficulty_rating r)) DifficultyLevel
      then [] else [DifficultyNotInEnum])
  ++ items_bounds 2 6 DocumentationLinksMinItems DocumentationLinksMaxItems
       (CodeXRResponse.documentation_links r)
  ++ each_item validate_documentation_links 0
       (CodeXRResponse.documentation_links r)
  ++ validate_estimated_time (CodeXRResponse.estimated_time r).

(** Construction of a [schemas.CodeXRResponse] succeeds. *)
Definition passes (r : CodeXRResponse.t) : Prop := violations r = [].

Definition demo_queries : list string :=
  [ "How do I add teleport locomotion in Unity VR?";
    "How do I set up multiplayer in Unreal VR?";
    "Which shader works best for AR occlusion?" ].

(** [validate_demo_scenario] *)
Definition validate_demo_scenario (query : string) : bool :=
  existsb (String.eqb query) demo_queries.

(** [validate_success_criteria]; [difficulty_rating] is a required
    field, so [response.difficulty_rating is not None] is true. *)
Definition validate_success_criteria (response : CodeXRResponse.t)
  : list (string * bool) :=
  [ ("structured_subtasks_and_code",
     (3 <=? Z.of_nat (List.length (CodeXRResponse.subtasks response)))
     && (50 <=? len (CodeXRResponse.code_snippet response)));
    ("grounded_in_real_docs",
     2 <=? Z.of_nat (List.length (CodeXRResponse.documentation_links response)));
    ("best_practices_and_difficulty",
     (3 <=? Z.of_nat (List.length (CodeXRResponse.best_practices response)))
     && true);
    ("ready_for_demo",
     existsb (String.eqb (CodeXRResponse.category response)) CategoryEnum) ].

End Schemas.

(** ** [phase2_3_framework.py]: the offline document index *)

Module Rag.
Import Py.

(** A row of the [documents] table. *)
Record DocumentRow : Type := mkRow {
  id : Z;
  title : string;
  content : string;
  source : string;
  category : string;
  url : option string;
  created_at : string
}.

(** The SQLite file: the [documents] table in insertion order, and the
    [retrieval_cache] table as a map from [query_hash] to the pair of
    [results] and [created_at]. *)
Record Database : Type := mkDatabase {
  documents : list DocumentRow;
  retrieval_cache : gmap string (string * string)
}.

Definition empty_database : Database :=
  {| documents := []; retrieval_cache := ∅ |}.

(** [_initialize_database]: both tables are created only when they do
    not exist; [None] is a file without tables. *)
Definition _initialize_database (file : option Database) : Database :=
  match file with
  | Some db => db
  | None => empty_database
  end.

(** A document handed to [index_documentation]; [url] is optional. *)
Record Document : Type := mkDocument {
  doc_title : string;
  doc_content : string;
  doc_source : string;
  doc_category : string;
  doc_url : option string
}.

(** [INTEGER PRIMARY KEY AUTOINCREMENT]: no row is ever deleted, so the
    next identifier is one more than the largest in the table. *)
Definition next_id (rows : list DocumentRow) : Z :=
  1 + fold_right (fun row m => Z.max (id row) m) 0 rows.

Definition insert_document (now : string) (rows : list DocumentRow)
  (doc : Document) : list DocumentRow :=
  rows ++ [ {| id := next_id rows;
               title := doc_title doc;
               content := doc_content doc;
               source := doc_source doc;
               category := doc_category doc;
               url := Some (match doc_url doc with
                            | Some u => u
                            | None => EmptyString
                            end);
               created_at := now |} ].

(** [index_documentation]; [now] is [CURRENT_TIMESTAMP]. *)
Definition index_documentation (now : string) (db : Database)
  (docs : list Document) : Database :=
  {| documents := fold_left (insert_document now) docs (documents db);
     retrieval_cache := retrieval_cache db |}.

(** The identifiers of the table grow with insertion. *)
Definition ids_increasing (db : Database) : Prop :=
  StronglySorted (fun a b => id a < id b) (documents db).

(** The comparison of SQLite's [LIKE], on the pattern and the text as
    the operator reads them (see [sqlite_like]): [%] matches any run of
    characters, [_] any one character, every other character itself up
    to ASCII case; there is no escape character unless the statement
    declares one. *)
Fixpoint like (pattern : string) : string -> bool :=
  match pattern with
  | EmptyString =>
      fun s => match s with
               | EmptyString => true
               | String _ _ => false
               end
  | String c pattern' =>
      if Ascii.eqb c "%" then
        fix from (s : string) : bool :=
          like pattern' s ||
          match s with
          | EmptyString => false
          | String _ s' => from s'
          end
      else if Ascii.eqb c "_" then
        fun s => match s with
                 | EmptyString => false
                 | String _ s' => like pattern' s'
                 end
      else
        fun s => match s with
                 | EmptyString => false
                 | String d s' =>
                     Ascii.eqb (lower_char c) (lower_char d)
                     && like pattern' s'
                 end
  end.

(** A text without the two wildcard characters of [LIKE]. *)
Fixpoint wildcard_free (s : string) : bool :=
  match s with
  | EmptyString => true
  | String c s' =>
      negb (Ascii.eqb c "%") && negb (Ascii.eqb c "_") && wildcard_free s'
  end.

(** The value bound to both [LIKE] placeholders: [f"%{query}%"]. *)
Definition like_pattern (query : string) : string :=
  "%" ++ query ++ "%".

(** The character of code 0. *)
Definition NUL : ascii := ascii_of_nat 0.

(** SQLite's [LIKE] reads both of its operands as C strings: each one
    ends before its first [NUL]. *)
Fixpoint c_string (s : string) : string :=
  match s with
  | EmptyString => EmptyString
  | String c s' =>
      if Ascii.eqb c NUL then EmptyString else String c (c_string s')
  end.

(** A text without [NUL]. *)
Fixpoint nul_free (s : string) : bool :=
  match s with
  | EmptyString => true
  | String c s' => negb (Ascii.eqb c NUL) && nul_free s'
  end.

(** The value of [text LIKE pattern] when SQLite accepts the
    pattern. *)
Definition sqlite_like (pattern text : string) : bool :=
  like (c_string pattern) (c_string text).

(** The longest pattern [LIKE] accepts, in bytes, [NUL]s and what
    follows them included: [SQLITE_MAX_LIKE_PATTERN_LENGTH] as SQLite
    is built by default. *)
Definition MAX_LIKE_PATTERN_LENGTH : Z := 50000.

Definition pattern_too_complex (pattern : string) : bool :=
  MAX_LIKE_PATTERN_LENGTH <? len pattern.

(** [WHERE content LIKE ? OR title LIKE ?] *)
Definition text_matches (query : string) (row : DocumentRow) : bool :=
  sqlite_like (like_pattern query) (content row)
  || sqlite_like (like_pattern query) (title row).

(** [LIMIT ?]: a negative limit means no limit. *)
Definition limit {A : Type} (top_k : Z) (rows : list A) : list A :=
  if top_k <? 0 then rows else take (Z.to_nat top_k) rows.

(** [SELECT * FROM documents WHERE ... ORDER BY id DESC LIMIT ?] *)
Definition select_documents (where_ : DocumentRow -> bool) (top_k : Z)
  (db : Database) : list DocumentRow :=
  limit top_k (sort_desc id (List.filter where_ (documents db))).

(** A Python integer can be bound to a statement only when it fits a
    64-bit SQLite [INTEGER]. *)
Definition fits_int64 (n : Z) : bool :=
  (- 2 ^ 63 <=? n) && (n <? 2 ^ 63).

(** An item of the list [retrieve_relevant_docs] returns. *)
Record RetrievedDoc : Type := mkRetrieved {
  r_id : Z;
  r_title : string;
  r_content : string;
  r_source : string;
  r_category : string;
  r_url : string;
  r_similarity : Q
}.

(** The mock similarity score, [0.8]. *)
Definition MOCK_SIMILARITY : Q := (8 # 10)%Q.

Definition to_retrieved (row : DocumentRow) : RetrievedDoc :=
  {| r_id := id row;
     r_title := title row;
     r_content := content row;
     r_source := source row;
     r_category := category row;
     r_url := match url row with
              | Some u => u
              | None => EmptyString
              end;
     r_similarity := MOCK_SIMILARITY |}.

(** [if category:] — [None] and the empty string are falsy. *)
Definition category_filter (category : option string) : option string :=
  match category with
  | Some c => if String.eqb c EmptyString then None else Some c
  | None => None
  end.

(** The [category = ?] test of the statement with a category; the
    statement without one has no such test. *)
Definition category_passes (category : option string) (row : DocumentRow)
  : bool :=
  match category_filter category with
  | Some c => String.eqb (Rag.category row) c
  | None => true
  end.

(** Whether the statement evaluates a [LIKE] at all: with [LIMIT 0]
    SQLite visits no row, and at a row it evaluates the [LIKE]s only
    once the category test has passed. *)
Definition like_is_evaluated (category : option string) (top_k : Z)
  (db : Database) : bool :=
  negb (top_k =? 0) && existsb (category_passes category) (documents db).

(** [retrieve_relevant_docs]: the database after the call and what the
    call returns or raises.  Binding [top_k] raises [OverflowError]
    outside 64 bits; the first [LIKE] evaluated on a pattern that is
    too long raises [sqlite3.OperationalError]. *)
Definition retrieve_relevant_docs (db : Database) (query : string)
  (category : option string) (top_k : Z)
  : Database * result (list RetrievedDoc) :=
  if fits_int64 top_k then
    if pattern_too_complex (like_pattern query)
       && like_is_evaluated category top_k db
    then (db, Raise (OperationalError "LIKE or GLOB pattern too complex"))
    else
      let rows :=
        match category_filter category with
        | Some c =>
            select_documents
              (fun row => String.eqb (Rag.category row) c
                          && text_matches query row)
              top_k db
        | None => select_documents (text_matches query) top_k db
        end in
      (db, Ok (map to_retrieved rows))
  else (db, Raise OverflowError).

(** The [WHERE] clause of the statement [retrieve_relevant_docs] runs
    for a category argument and a query. *)
Definition row_selected (category : option string) (query : string)
  (row : DocumentRow) : bool :=
  match category_filter category with
  | Some c => String.eqb (Rag.category row) c && text_matches query row
  | None => text_matches query row
  end.

(** The sample documents of [setup_phase2_rag]. *)
Definition sample_docs : list Document :=
  [ {| doc_title := "Unity VR Teleportation Setup";
       doc_content := "To set up teleportation in Unity VR, install XR Interaction Toolkit, create XR Origin, add TeleportationProvider component, and configure teleport areas with NavMesh.";
       doc_source := "Unity Documentation";
       doc_category := "Unity";
       doc_url := Some "https://docs.unity3d.com/Packages/com.unity.xr.interaction.toolkit@2.5/manual/teleportation.html" |};
    {| doc_title := "Unreal VR Multiplayer Setup";
       doc_content := "Setting up VR multiplayer in Unreal Engine requires enabling VR template, configuring network settings, creating custom game mode, and implementing proper pawn replication.";
       doc_source := "Unreal Documentation";
       doc_category := "Unreal";
       doc_url := Some "https://docs.unrealengine.com/5.0/en-us/multiplayer-programming-quick-start-for-unreal-engine/" |};
    {| doc_title := "AR Occlusion Shaders";
       doc_content := "AR occlusion shaders write to depth buffer without visible output. Use ZWrite On, ZTest LEqual, ColorMask 0, and Queue Geometry-1 for proper rendering order.";
       doc_source := "Shader Documentation";
       doc_category := "Shader";
       doc_url := Some "https://docs.unity3d.com/Manual/SL-ShaderReplacement.html" |} ].

(** The index after [setup_phase2_rag] on a new file. *)
Definition sample_database (now : string) : Database :=
  index_documentation now (_initialize_database None) sample_docs.

End Rag.

(** ** [phase2_3_framework.py]: the error debugger *)

Module ErrorDebugger.
Import Py.

(** A pre-authored diagnosis of the signature table. *)
Record Pattern : Type := mkPattern {
  pat_analysis : string;
  pat_fix : string;
  pat_code_fix : string;
  pat_prevention : list string
}.

(** [self.error_patterns] *)
Definition error_patterns : list (string * list (string * Pattern)) :=
  [ ("NullReferenceException",
     [ ("teleportationprovider",
        {| pat_analysis := "TeleportationProvider component is not assigned";
           pat_fix := "Assign TeleportationProvider in the Inspector or via script";
           pat_code_fix := "teleportProvider = FindObjectOfType<TeleportationProvider>();";
           pat_prevention := [ "Always check for null references";
                               "Use [RequireComponent] attribute" ] |}) ]);
    ("MissingComponentException",
     [ ("general",
        {| pat_analysis := "Required component is missing from GameObject";
           pat_fix := "Add the missing component via Inspector or AddComponent<T>()";
           pat_code_fix := "gameObject.AddComponent<RequiredComponent>();";
           pat_prevention := [ "Use [RequireComponent] attribute";
                               "Validate components in OnValidate()" ] |}) ]) ].

Record Diagnosis : Type := mkDiagnosis {
  error_type : string;
  error_analysis : string;
  likely_fix : string;
  code_fix : string;
  prevention_tips : list string
}.

Definition generic_diagnosis : Diagnosis :=
  {| error_type := "Unknown";
     error_analysis := "Check Unity Console for detailed error information";
     likely_fix := "Review stack trace and add proper null checks";
     code_fix := "// Add appropriate error handling here";
     prevention_tips := [ "Enable detailed logging"; "Use try-catch blocks" ] |}.

(** [debug_error]; the two subscripts of [self.error_patterns] raise
    [KeyError] when the key is absent. *)
Definition debug_error (error_log : string) (context : option string)
  : result Diagnosis :=
  let error_log_lower := lower error_log in
  if contains "nullreferenceexception" error_log_lower then
    if contains "teleportationprovider" error_log_lower then
      bind (dict_index error_patterns "NullReferenceException") (fun by_token =>
      bind (dict_index by_token "teleportationprovider") (fun pattern =>
      Ok {| error_type := "NullReferenceException";
            error_analysis := pat_analysis pattern;
            likely_fix := pat_fix pattern;
            code_fix := pat_code_fix pattern;
            prevention_tips := pat_prevention pattern |}))
    else Ok generic_diagnosis
  else Ok generic_diagnosis.

End ErrorDebugger.

(** ** [langchain_search.py]: the web search agent *)

Module Search.
Import Py.

(** A record of a structured provider response: a dictionary read
    through [get] at the keys below, each a string when present.
    Records that hold another kind of value at a key are not
    modelled: on a parsed record whose url or content is not a string
    [_rank_and_filter_results], which runs outside every handler,
    raises [AttributeError] at [lower]. *)
Record ResultRecord : Type := mkRecord {
  rec_title : option string;
  rec_snippet : option string;
  rec_content : option string;
  rec_url : option string;
  rec_link : option string
}.

(** An element of a list response: a dictionary, or a value without
    [get], on which the parser's own handler stops. *)
Inductive ListItem : Type :=
| ItemRecord (r : ResultRecord)
| ItemOther.

(** What a provider returns: a string, a list, or anything else. *)
Inductive ToolOutput : Type :=
| OutStr (text : string)
| OutList (items : list ListItem)
| OutOther.

(** [langchain.tools.Tool]: a name and the wrapped [run] function,
    which returns or raises. *)
Record Tool : Type := mkTool {
  name : string;
  func : string -> result ToolOutput
}.

(** The three external wrappers. *)
Record Providers : Type := mkProviders {
  serp_run : string -> result ToolOutput;
  bing_run : string -> result ToolOutput;
  ddg_run : string -> result ToolOutput
}.

(** [_initialize_search_tools]: a paid provider joins the chain only
    when its key is set (a non-empty string). *)
Definition _initialize_search_tools (serp_api_key bing_api_key : option string)
  (p : Providers) : list Tool :=
  let truthy k := match k with
                  | Some s => negb (String.eqb s EmptyString)
                  | None => false
                  end in
  (if truthy serp_api_key then [mkTool "SERP_Search" (serp_run p)] else [])
  ++ (if truthy bing_api_key then [mkTool "Bing_Search" (bing_run p)] else [])
  ++ [mkTool "DuckDuckGo_Search" (ddg_run p)].

Record SearchResult : Type := mkResult {
  title : string;
  content : string;
  url : string;
  source : string;
  timestamp : string;
  relevance_score : option Z
}.

Definition base_terms : list (string * list string) :=
  [ ("Unity", ["Unity3D"; "XR Interaction Toolkit"; "Unity VR"; "Unity AR"]);
    ("Unreal", ["Unreal Engine"; "UE4"; "UE5"; "Unreal VR"; "Unreal AR"]);
    ("Shader", ["Unity Shader"; "HLSL"; "Shader Graph"; "URP Shader"]);
    ("General", ["AR development"; "VR development"; "Mixed Reality"]) ].

Definition doc_sites : list string :=
  [ "site:docs.unity3d.com";
    "site:docs.unrealengine.com";
    "site:learn.unity.com";
    "site:developer.oculus.com";
    "site:developers.google.com/ar" ].

(** [_build_search_queries] *)
Definition _build_search_queries (query category : string) : list string :=
  (match dict_get base_terms category with
   | Some terms =>
       map (fun term => query ++ " " ++ term ++ " tutorial documentation")
           (take 2 terms)
   | None => []
   end)
  ++ map (fun site => query ++ " " ++ site) (take 3 doc_sites)
  ++ [ "AR VR development " ++ query ++ " official documentation" ].

Definition get_default (field : option string) (default : string) : string :=
  match field with
  | Some v => v
  | None => default
  end.

(** The loop over [results[:3]]: an element without [get] raises
    inside the parser's [try], which keeps what was parsed so far. *)
Fixpoint parse_items (now : string) (items : list ListItem)
  : list SearchResult :=
  match items with
  | [] => []
  | ItemOther :: _ => []
  | ItemRecord r :: items' =>
      {| title := get_default (rec_title r) "No Title";
         content :=
           slice_to 500
             (get_default (rec_snippet r)
                (get_default (rec_content r) EmptyString));
         url := get_default (rec_url r) (get_default (rec_link r) "N/A");
         source := "Web Search";
         timestamp := now;
         relevance_score := None |}
      :: parse_items now items'
  end.

(** [_parse_search_results]; [now] is [datetime.now().isoformat()]. *)
Definition _parse_search_results (now : string) (results : ToolOutput)
  (query : string) : list SearchResult :=
  match results with
  | OutStr text =>
      [ {| title := "Search Results for: " ++ query;
           content := slice_to 500 text;
           url := "N/A";
           source := "Web Search";
           timestamp := now;
           relevance_score := None |} ]
  | OutList items => parse_items now (take 3 items)
  | OutOther => []
  end.

Definition priority_domains : list (string * list string) :=
  [ ("Unity", ["docs.unity3d.com"; "learn.unity.com"]);
    ("Unreal", ["docs.unrealengine.com"; "unrealengine.com"]);
    ("Shader", ["docs.unity3d.com"; "catlikecoding.com"]);
    ("General", ["developer.oculus.com"; "developers.google.com"]) ].

Definition ar_vr_terms : list string :=
  ["ar"; "vr"; "virtual reality"; "augmented reality"; "mixed reality"].

(** The score [_rank_and_filter_results] gives one result. *)
Definition score_of (query category : string) (result : SearchResult) : Z :=
  let url := lower (url result) in
  let content := lower (content result) in
  (match dict_get priority_domains category with
   | Some domains => 10 * count_in domains url
   | None => 0
   end)
  + count_in (split (lower query)) content
  + 2 * count_in ar_vr_terms content.

Definition set_score (query category : string) (result : SearchResult)
  : SearchResult :=
  {| title := title result;
     content := content result;
     url := url result;
     source := source result;
     timestamp := timestamp result;
     relevance_score := Some (score_of query category result) |}.

Definition score_key (result : SearchResult) : Z :=
  match relevance_score result with
  | Some score => score
  | None => 0
  end.

(** [_rank_and_filter_results] *)
Definition _rank_and_filter_results (results : list SearchResult)
  (query category : string) : list SearchResult :=
  let scored_results := map (set_score query category) results in
  take 5 (sort_desc score_key scored_results).

(** What [search_ar_vr_docs] does to the outside: it invokes a
    provider on a query, or reports that a provider failed. *)
Inductive Event : Type :=
| Invoked (tool_name search_query : string)
| Failed (tool_name : string) (e : exn).

(** The state of [search_ar_vr_docs]: [all_results] and the events so
    far, oldest first. *)
Record State : Type := mkState {
  all_results : list SearchResult;
  events : list Event
}.

(** The inner [for tool in self.search_tools] loop on one enhanced
    query.  It ends normally (provider chain exhausted, or [break]
    after a non-empty parse), or a provider raises, which leaves the
    loop and reaches the handler around it. *)
Fixpoint run_tools (now : string) (tools : list Tool) (search_query : string)
  (st : State) : State * result unit :=
  match tools with
  | [] => (st, Ok tt)
  | tool :: tools' =>
      let invoked := (events st ++ [Invoked (name tool) search_query])%list in
      match func tool search_query with
      | Raise e =>
          ({| all_results := all_results st;
              events := (invoked ++ [Failed (name tool) e])%list |},
           Raise e)
      | Ok results =>
          let parsed_results :=
            _parse_search_results now results search_query in
          let st' := {| all_results :=
                          (all_results st ++ parsed_results)%list;
                        events := invoked |} in
          match parsed_results with
          | _ :: _ => (st', Ok tt)
          | [] => run_tools now tools' search_query st'
          end
      end
  end.

(** The outer loop: [try: <inner loop> except Exception: ...; continue]. *)
Fixpoint run_queries (now : string) (tools : list Tool)
  (search_queries : list string) (st : State) : State :=
  match search_queries with
  | [] => st
  | search_query :: rest =>
      run_queries now tools rest (fst (run_tools now tools search_query st))
  end.

(** [search_ar_vr_docs], with the events it caused. *)
Definition search_ar_vr_docs_traced (now : string) (search_tools : list Tool)
  (query category : string) : list SearchResult * list Event :=
  let enhanced_queries := _build_search_queries query category in
  let st := run_queries now search_tools (take 2 enhanced_queries)
              {| all_results := []; events := [] |} in
  (_rank_and_filter_results (all_results st) query category, events st).

Definition search_ar_vr_docs (now : string) (search_tools : list Tool)
  (query category : string) : list SearchResult :=
  fst (search_ar_vr_docs_traced now search_tools query category).

(** The sentence scan shared by [search_for_best_practices] and
    [search_for_gotchas]: the inner loop appends the stripped sentences
    that hold a keyword and breaks once [cap] of them are collected. *)
Fixpoint scan_sentences (keywords : list string) (cap : nat)
  (sentences : list string) (found : list string) : list string :=
  match sentences with
  | [] => found
  | sentence :: sentences' =>
      if any_in keywords (lower sentence) then
        let found' := (found ++ [strip sentence])%list in
        if (cap <=? List.length found')%nat then found'
        else scan_sentences keywords cap sentences' found'
      else scan_sentences keywords cap sentences' found
  end.

(** The outer loop over the results, with its own [break]. *)
Fixpoint scan_results (keywords : list string) (cap : nat)
  (results : list SearchResult) (found : list string) : list string :=
  match results with
  | [] => found
  | result :: results' =>
      let found' :=
        scan_sentences keywords cap (split_on "." (content result) EmptyString)
          found in
      if (cap <=? List.length found')%nat then found'
      else scan_results keywords cap results' found'
  end.

Definition best_practice_keywords : list string :=
  ["should"; "must"; "best"; "recommended"; "always"; "never"].

Definition gotcha_keywords : list string :=
  ["error"; "problem"; "issue"; "avoid"; "careful"; "watch out";
   "common mistake"].

(** [search_for_best_practices] *)
Definition search_for_best_practices (now : string) (search_tools : list Tool)
  (category topic : string) : list string :=
  let query :=
    category ++ " " ++ topic ++ " best practices guidelines recommendations" in
  let results := search_ar_vr_docs now search_tools query category in
  take 6 (scan_results best_practice_keywords 6 (take 3 results) []).

(** [search_for_gotchas] *)
Definition search_for_gotchas (now : string) (search_tools : list Tool)
  (category topic : string) : list string :=
  let query :=
    category ++ " " ++ topic
    ++ " common problems issues gotchas pitfalls mistakes" in
  let results := search_ar_vr_docs now search_tools query category in
  take 5 (scan_results gotcha_keywords 5 (take 3 results) []).

Definition official_docs : list (string * list string) :=
  [ ("Unity",
     [ "https://docs.unity3d.com/Manual/";
       "https://docs.unity3d.com/Packages/com.unity.xr.interaction.toolkit@2.5/manual/";
       "https://learn.unity.com/" ]);
    ("Unreal",
     [ "https://docs.unrealengine.com/5.0/en-us/";
       "https://docs.unrealengine.com/5.0/en-us/vr-development-in-unreal-engine/";
       "https://docs.unrealengine.com/5.0/en-us/multiplayer-programming-quick-start-for-unreal-engine/" ]);
    ("Shader",
     [ "https://docs.unity3d.com/Manual/SL-Reference.html";
       "https://docs.unity3d.com/Manual/shader-tutorials.html" ]);
    ("General",
     [ "https://developers.google.com/ar/";
       "https://developer.oculus.com/documentation/" ]) ].

(** [get_official_documentation_links]; the subscript [official_docs["General"]]
    raises [KeyError] when the key is absent. *)
Definition get_official_documentation_links (query category : string)
  : result (list string) :=
  match dict_get official_docs category with
  | Some links => Ok links
  | None => dict_index official_docs "General"
  end.

(** The dictionary [search_and_ground_query] returns; the quotient
    [len(doc_results) / 5.0] is kept as a fraction. *)
Record Grounding : Type := mkGrounding {
  search_results : list SearchResult;
  best_practices : list string;
  gotchas : list string;
  documentation_links : list string;
  grounding_confidence : Q
}.

(** [search_and_ground_query] *)
Definition search_and_ground_query (now : string) (search_tools : list Tool)
  (query category : string) : result Grounding :=
  let doc_results := search_ar_vr_docs now search_tools query category in
  let best_practices :=
    search_for_best_practices now search_tools category query in
  let gotchas := search_for_gotchas now search_tools category query in
  bind (get_official_documentation_links query category) (fun doc_links =>
  Ok {| search_results := doc_results;
        best_practices := best_practices;
        gotchas := gotchas;
        documentation_links := doc_links;
        grounding_confidence :=
          (Z.of_nat (List.length doc_results) # 5)%Q |}).

(** The [Invoked] events of a trace: which provider was called on
    which query, in order. *)
Fixpoint invocations (events : list Event) : list (string * string) :=
  match events with
  | [] => []
  | Invoked tool_name search_query :: events' =>
      (tool_name, search_query) :: invocations events'
  | Failed _ _ :: events' => invocations events'
  end.

(** An invocation that ends the provider loop of a query: the provider
    raises, or something is parsed from what it returns. *)
Definition ends_chain (now : string) (search_query : string) (tool : Tool)
  : bool :=
  match func tool search_query with
  | Raise _ => true
  | Ok results =>
      match _parse_search_results now results search_query with
      | [] => false
      | _ :: _ => true
      end
  end.

(** The providers of a chain up to, and with, the first that
    satisfies [stop]. *)
Fixpoint until_first (stop : Tool -> bool) (tools : list Tool) : list Tool :=
  match tools with
  | [] => []
  | tool :: tools' =>
      if stop tool then [tool] else tool :: until_first stop tools'
  end.

(** An invocation that fails: the provider raises, or nothing can be
    parsed from what it returns. *)
Definition provider_fails (now : string) (tool : Tool) (search_query : string)
  : Prop :=
  match func tool search_query with
  | Raise _ => True
  | Ok results => _parse_search_results now results search_query = []
  end.

(** Providers of which the paid ones are down (they raise on every
    query) and the free fallback answers. *)
Definition degraded_providers : Providers :=
  {| serp_run := fun _ => Raise (ProviderError "HTTP 429");
     bing_run := fun _ => Raise (ProviderError "HTTP 401");
     ddg_run := fun _ => Ok (OutStr "Unity VR teleport documentation") |}.

(** The chain of an agent that was given a SERP key: the paid provider
    first, then the fallback. *)
Definition degraded_chain : list Tool :=
  _initialize_search_tools (Some "serp-key") None degraded_providers.

(** The chain of an agent without keys: the fallback alone. *)
Definition fallback_chain : list Tool :=
  _initialize_search_tools None None degraded_providers.

(** Providers that are all down. *)
Definition dead_providers : Providers :=
  {| serp_run := fun _ => Raise (ProviderError "HTTP 429");
     bing_run := fun _ => Raise (ProviderError "HTTP 401");
     ddg_run := fun _ => Raise (ProviderError "rate limited") |}.

Definition dead_chain : list Tool :=
  _initialize_search_tools (Some "serp-key") (Some "bing-key") dead_providers.

End Search.

(** * Properties *)

(** ** Python primitives *)

Section PyFacts.
Import Py.

Lemma contains_unfold (sub s : string) :
  contains sub s =
  String.prefix sub s ||
  match s with
  | EmptyString => false
  | String _ s' => contains sub s'
  end.
Proof. destruct s; reflexivity. Qed.

Lemma max_by_value_three (a b c : string) (u r s : Z) :
  max_by_value (a, u) [(b, r); (c, s)] =
  if u <? r then (if r <? s then (c, s) else (b, r))
  else (if u <? s then (c, s) else (a, u)).
Proof. simpl. destruct (u <? r); reflexivity. Qed.

Lemma length_insert_desc {A : Type} (key : A -> Z) (x : A) (l : list A) :
  List.length (insert_desc key x l) = S (List.length l).
Proof.
  induction l as [|y l IH]; simpl; [reflexivity|].
  destruct (key x <? key y); simpl; [rewrite IH|]; reflexivity.
Qed.

Lemma length_sort_desc {A : Type} (key : A -> Z) (l : list A) :
  List.length (sort_desc key l) = List.length l.
Proof.
  induction l as [|x l IH]; simpl; [reflexivity|].
  rewrite length_insert_desc, IH. reflexivity.
Qed.

Lemma In_insert_desc {A : Type} (key : A -> Z) (x y : A) (l : list A) :
  In y (insert_desc key x l) <-> y = x \/ In y l.
Proof.
  induction l as [|z l IH]; simpl.
  - intuition.
  - destruct (key x <? key z); simpl; rewrite ?IH; intuition.
Qed.

Lemma In_sort_desc {A : Type} (key : A -> Z) (y : A) (l : list A) :
  In y (sort_desc key l) <-> In y l.
Proof.
  induction l as [|x l IH]; simpl; [reflexivity|].
  rewrite In_insert_desc, IH. intuition.
Qed.

Lemma insert_desc_sorted {A : Type} (key : A -> Z) (x : A) (l : list A) :
  StronglySorted (fun a b => key b <= key a) l ->
  StronglySorted (fun a b => key b <= key a) (insert_desc key x l).
Proof.
  induction 1 as [|y l Hl IH Hy]; simpl.
  - repeat constructor.
  - destruct (Z.ltb_spec (key x) (key y)) as [Hlt|Hge].
    + constructor; [exact IH|].
      apply List.Forall_forall. intros z Hz.
      apply In_insert_desc in Hz as [->|Hz]; [lia|].
      rewrite List.Forall_forall in Hy. auto.
    + constructor; [constructor; assumption|].
      constructor; [exact Hge|].
      rewrite List.Forall_forall in Hy |- *.
      intros z Hz. specialize (Hy z Hz). lia.
Qed.

Lemma sort_desc_sorted {A : Type} (key : A -> Z) (l : list A) :
  StronglySorted (fun a b => key b <= key a) (sort_desc key l).
Proof.
  induction l as [|x l IH]; simpl; [constructor|].
  apply insert_desc_sorted, IH.
Qed.

Lemma In_take {A : Type} (n : nat) (x : A) (l : list A) :
  In x (take n l) -> In x l.
Proof.
  revert l. induction n as [|n IH]; intros [|y l]; simpl; try tauto.
  intros [->|Hx]; [left; reflexivity | right; auto].
Qed.

Lemma StronglySorted_take {A : Type} (R : A -> A -> Prop) (n : nat)
  (l : list A) :
  StronglySorted R l -> StronglySorted R (take n l).
Proof.
  intros Hl. revert n.
  induction Hl as [|x l Hl IH Hx]; intros [|n]; simpl; try constructor.
  - apply IH.
  - rewrite List.Forall_forall in Hx |- *.
    intros y Hy. apply Hx. eapply In_take, Hy.
Qed.

Lemma StronglySorted_map {A B : Type} (R : A -> A -> Prop)
  (R' : B -> B -> Prop) (f : A -> B) (l : list A) :
  (forall a b, R a b -> R' (f a) (f b)) ->
  StronglySorted R l -> StronglySorted R' (map f l).
Proof.
  intros Hf. induction 1 as [|x l Hl IH Hx]; simpl; constructor.
  - exact IH.
  - rewrite List.Forall_forall in Hx |- *.
    intros y Hy. apply List.in_map_iff in Hy as (a & <- & Ha). auto.
Qed.

Lemma filter_all {A : Type} (f : A -> bool) (l : list A) :
  (forall x, f x = true) -> List.filter f l = l.
Proof.
  intros Hf. induction l as [|x l IH]; simpl; [reflexivity|].
  rewrite Hf, IH. reflexivity.
Qed.

End PyFacts.

(** ** The category classifier *)

Section Classifier.
Import Py.

(** The decision of both classifiers, in terms of the three scores. *)
Lemma classify_by_scores (u r s : Z) :
  let max_cat := max_by_value ("Unity", u) [("Unreal", r); ("Shader", s)] in
  (if 0 <? snd max_cat then fst max_cat else "General") =
  if (r <=? u) && (s <=? u) then (if 0 <? u then "Unity" else "General")
  else if (s <=? r) then (if 0 <? r then "Unreal" else "General")
  else (if 0 <? s then "Shader" else "General").
Proof.
  cbv zeta. rewrite max_by_value_three.
  destruct (Z.ltb_spec u r), (Z.ltb_spec r s), (Z.ltb_spec u s); simpl;
    repeat match goal with
           | |- context [?a <? ?b] => destruct (Z.ltb_spec a b)
           | |- context [?a <=? ?b] => destruct (Z.leb_spec a b)
           end;
    simpl; solve [reflexivity | lia].
Qed.

Lemma count_in_nonneg (ws : list string) (s : string) : 0 <= count_in ws s.
Proof. unfold count_in. lia. Qed.

Lemma app_categorize_query_by_scores (query : string) :
  App.categorize_query query =
  let u := App.unity_score query in
  let r := App.unreal_score query in
  let s := App.shader_score query in
  if (r <=? u) && (s <=? u) then (if 0 <? u then "Unity" else "General")
  else if (s <=? r) then (if 0 <? r then "Unreal" else "General")
  else (if 0 <? s then "Shader" else "General").
Proof. unfold App.categorize_query. apply classify_by_scores. Qed.

Lemma streamlit_categorize_query_by_scores (query : string) :
  StreamlitApp.categorize_query query =
  let u := StreamlitApp.unity_score query in
  let r := StreamlitApp.unreal_score query in
  let s := StreamlitApp.shader_score query in
  if (r <=? u) && (s <=? u) then (if 0 <? u then "Unity" else "General")
  else if (s <=? r) then (if 0 <? r then "Unreal" else "General")
  else (if 0 <? s then "Shader" else "General").
Proof. unfold StreamlitApp.categorize_query. apply classify_by_scores. Qed.

(** Settles a goal about the classifier from facts on the scores. *)
Ltac by_scores :=
  cbv zeta;
  repeat match goal with
         | |- context [?a <? ?b] => destruct (Z.ltb_spec a b)
         | |- context [?a <=? ?b] => destruct (Z.leb_spec a b)
         end;
  simpl; solve [reflexivity | lia].

(** C5.  A query whose Unity and Unreal keyword-hit counts are equal,
    maximal and positive is classified Unity, by the classifier of
    [app.py] and by that of [streamlit_app.py]; in general the
    classifier returns the earliest category, in the order Unity,
    Unreal, Shader, whose score is maximal: Unity when no score
    exceeds it, Unreal when it beats Unity and Shader does not exceed
    it, Shader only when it beats both.  The query "unity unreal" is
    an instance. *)
Theorem categorize_query_tie_break :
  (forall query : string,
      App.unity_score query = App.unreal_score query ->
      App.shader_score query <= App.unity_score query ->
      0 < App.unity_score query ->
      App.categorize_query query = "Unity")
  /\ (forall query : string,
      StreamlitApp.unity_score query = StreamlitApp.unreal_score query ->
      StreamlitApp.shader_score query <= StreamlitApp.unity_score query ->
      0 < StreamlitApp.unity_score query ->
      StreamlitApp.categorize_query query = "Unity")
  /\ (forall query : string,
      (App.unreal_score query <= App.unity_score query ->
       App.shader_score query <= App.unity_score query ->
       0 < App.unity_score query ->
       App.categorize_query query = "Unity")
      /\ (App.unity_score query < App.unreal_score query ->
          App.shader_score query <= App.unreal_score query ->
          App.categorize_query query = "Unreal")
      /\ (App.unity_score query < App.shader_score query ->
          App.unreal_score query < App.shader_score query ->
          App.categorize_query query = "Shader"))
  /\ (forall query : string,
      (StreamlitApp.unreal_score query <= StreamlitApp.unity_score query ->
       StreamlitApp.shader_score query <= StreamlitApp.unity_score query ->
       0 < StreamlitApp.unity_score query ->
       StreamlitApp.categorize_query query = "Unity")
      /\ (StreamlitApp.unity_score query < StreamlitApp.unreal_score query ->
          StreamlitApp.shader_score query <= StreamlitApp.unreal_score query ->
          StreamlitApp.categorize_query query = "Unreal")
      /\ (StreamlitApp.unity_score query < StreamlitApp.shader_score query ->
          StreamlitApp.unreal_score query < StreamlitApp.shader_score query ->
          StreamlitApp.categorize_query query = "Shader"))
  /\ App.categorize_query "unity unreal" = "Unity"
  /\ StreamlitApp.categorize_query "unity unreal" = "Unity".
Proof.
  split; [|split; [|split; [|split; [|split; vm_compute; reflexivity]]]].
  - intros query Heq Hmax Hpos.
    rewrite app_categorize_query_by_scores. by_scores.
  - intros query Heq Hmax Hpos.
    rewrite streamlit_categorize_query_by_scores. by_scores.
  - intros query.
    pose proof (count_in_nonneg App.unity_keywords (lower query)) as Hu.
    fold (App.unity_score query) in Hu.
    rewrite app_categorize_query_by_scores.
    repeat split; intros; by_scores.
  - intros query.
    pose proof (count_in_nonneg StreamlitApp.unity_keywords (lower query))
      as Hu.
    fold (StreamlitApp.unity_score query) in Hu.
    rewrite streamlit_categorize_query_by_scores.
    repeat split; intros; by_scores.
Qed.

Lemma categorize_query_tie_break_witness :
  App.categorize_query "unity unreal" = "Unity".
Proof.
  apply (proj1 categorize_query_tie_break "unity unreal").
  - vm_compute. reflexivity.
  - vm_compute. discriminate.
  - vm_compute. reflexivity.
Defined.

End Classifier.

(** ** The static knowledge selector *)

Section Selector.
Import Py.

(** The scan returns the first key that occurs in the query. *)
Lemma first_key_in_spec (keys : list string) (q : string) :
  match App.first_key_in keys q with
  | Some k =>
      exists before after : list string,
        keys = (before ++ k :: after)%list
        /\ contains k q = true
        /\ Forall (fun k' => contains k' q = false) before
  | None => Forall (fun k' => contains k' q = false) keys
  end.
Proof.
  induction keys as [|k keys IH]; simpl.
  - constructor.
  - destruct (contains k q) eqn:Hk.
    + exists [], keys. repeat split; [exact Hk | constructor].
    + destruct (App.first_key_in keys q) as [k0|].
      * destruct IH as (before & after & -> & Hin & Hnot).
        exists (k :: before), after.
        repeat split; [exact Hin | constructor; assumption].
      * constructor; assumption.
Qed.

Lemma key_or_nonempty (k default : string) :
  k <> EmptyString -> App.key_or (Some k) default = k.
Proof.
  intros Hk. unfold App.key_or.
  destruct (String.eqb_spec k EmptyString); [contradiction | reflexivity].
Qed.

(** Every response for a dispatched category comes from the entry of
    the selected topic. *)
Lemma selected_entry_is_used (query category : string)
  (knowledge_base : App.KnowledgeBase) (key : string) (e : App.KbEntry) :
  App.select_topic query category = Some (knowledge_base, key) ->
  dict_get knowledge_base key = Some e ->
  App.generate_response_at query category =
  (App.EntryReturn, App.entry_response query category e).
Proof.
  intros Hsel Hget. unfold App.generate_response_at.
  rewrite Hsel.
  destruct knowledge_base; [discriminate Hget | rewrite Hget; reflexivity].
Qed.

Lemma unity_topic_is_teleport (query : string) :
  App.select_topic query "Unity" = Some (App.UNITY_KNOWLEDGE, "teleport").
Proof.
  unfold App.select_topic. simpl String.eqb. cbv iota.
  change (map fst App.UNITY_KNOWLEDGE) with ["teleport"].
  simpl App.first_key_in.
  destruct (contains "teleport" (lower query)); reflexivity.
Qed.

(** C6.  With category Unity the selected topic is the first key of
    the Unity mapping that occurs in the lowercased query, and
    "teleport" when none does; with category Unreal or Shader it is
    "multiplayer" or "occlusion" whatever the query; and the response
    is built from the entry of the selected topic. *)
Theorem static_topic_selection (query : string) :
  (exists key : string,
      App.select_topic query "Unity" = Some (App.UNITY_KNOWLEDGE, key)
      /\ ((exists before after : list string,
              map fst App.UNITY_KNOWLEDGE = (before ++ key :: after)%list
              /\ contains key (lower query) = true
              /\ Forall (fun k => contains k (lower query) = false) before)
          \/ (Forall (fun k => contains k (lower query) = false)
                (map fst App.UNITY_KNOWLEDGE)
              /\ key = "teleport")))
  /\ App.select_topic query "Unreal" = Some (App.UNREAL_KNOWLEDGE, "multiplayer")
  /\ App.select_topic query "Shader" = Some (App.SHADER_KNOWLEDGE, "occlusion")
  /\ (forall (category : string) (knowledge_base : App.KnowledgeBase)
        (key : string),
         App.select_topic query category = Some (knowledge_base, key) ->
         exists e : App.KbEntry,
           dict_get knowledge_base key = Some e
           /\ App.generate_response query category =
              App.entry_response query category e).
Proof.
  split; [|split; [reflexivity|split; [reflexivity|]]].
  - pose proof (first_key_in_spec (map fst App.UNITY_KNOWLEDGE) (lower query))
      as Hscan.
    unfold App.select_topic. simpl String.eqb. cbv iota.
    destruct (App.first_key_in (map fst App.UNITY_KNOWLEDGE) (lower query))
      as [k|] eqn:Hfirst.
    + exists k. destruct Hscan as (before & after & Hkeys & Hin & Hnot).
      assert (Hk : k <> EmptyString).
      { change (map fst App.UNITY_KNOWLEDGE) with ["teleport"] in Hkeys.
        destruct before as [|b before]; simpl in Hkeys.
        - injection Hkeys as <- _. discriminate.
        - injection Hkeys as _ Hrest. destruct before; discriminate Hrest. }
      rewrite (key_or_nonempty _ _ Hk). split; [reflexivity|].
      left. exists before, after. auto.
    + exists "teleport". split; [reflexivity|]. right. auto.
  - intros category knowledge_base key Hsel.
    assert (He : exists e, dict_get knowledge_base key = Some e).
    { destruct (String.eqb_spec category "Unity") as [->|Hunity].
      - rewrite unity_topic_is_teleport in Hsel.
        injection Hsel as <- <-. eexists. reflexivity.
      - revert Hsel. unfold App.select_topic.
        destruct (String.eqb_spec category "Unity"); [contradiction|].
        destruct (String.eqb category "Unreal").
        + intros [= <- <-]. eexists. reflexivity.
        + destruct (String.eqb category "Shader"); [|discriminate].
          intros [= <- <-]. eexists. reflexivity. }
    destruct He as [e He]. exists e. split; [exact He|].
    unfold App.generate_response.
    rewrite (selected_entry_is_used _ _ _ _ _ Hsel He). reflexivity.
Qed.

Lemma static_topic_selection_witness :
  exists e : App.KbEntry,
    dict_get App.UNREAL_KNOWLEDGE "multiplayer" = Some e
    /\ App.generate_response "VR pawn setup in UE5" "Unreal" =
       App.entry_response "VR pawn setup in UE5" "Unreal" e.
Proof.
  apply (proj2 (proj2 (proj2 (static_topic_selection "VR pawn setup in UE5")))
           "Unreal" App.UNREAL_KNOWLEDGE "multiplayer").
  reflexivity.
Defined.

(** C9.  For each of the categories Unity, Unreal and Shader, and for
    every query, [generate_response] leaves through the [return] that
    builds the response from an entry of the static knowledge mapping;
    for no query and no category at all does it reach its last
    [return], so that no response carries the link
    "https://docs.example.com". *)
Theorem fallback_response_unreachable (query : string) :
  (exists (key : string) (e : App.KbEntry),
      dict_get App.UNITY_KNOWLEDGE key = Some e
      /\ App.generate_response_at query "Unity" =
         (App.EntryReturn, App.entry_response query "Unity" e))
  /\ (exists e : App.KbEntry,
      dict_get App.UNREAL_KNOWLEDGE "multiplayer" = Some e
      /\ App.generate_response_at query "Unreal" =
         (App.EntryReturn, App.entry_response query "Unreal" e))
  /\ (exists e : App.KbEntry,
      dict_get App.SHADER_KNOWLEDGE "occlusion" = Some e
      /\ App.generate_response_at query "Shader" =
         (App.EntryReturn, App.entry_response query "Shader" e))
  /\ (forall category : string,
      fst (App.generate_response_at query category) <> App.FallbackReturn)
  /\ (forall category : string,
      ~ In "https://docs.example.com"
          (CodeXRResponse.documentation_links
             (App.generate_response query category))).
Proof.
  assert (Hunity : exists (key : string) (e : App.KbEntry),
             dict_get App.UNITY_KNOWLEDGE key = Some e
             /\ App.generate_response_at query "Unity" =
                (App.EntryReturn, App.entry_response query "Unity" e)).
  { eexists "teleport", _. split; [reflexivity|].
    apply (selected_entry_is_used _ _ _ _ _ (unity_topic_is_teleport query)).
    reflexivity. }
  assert (Hcases : forall category : string,
             App.generate_response_at query category =
               (App.GeneralReturn, App.general_response query)
             \/ exists (knowledge_base : App.KnowledgeBase) (key : string)
                       (e : App.KbEntry),
                  In (knowledge_base, key)
                     [ (App.UNITY_KNOWLEDGE, "teleport");
                       (App.UNREAL_KNOWLEDGE, "multiplayer");
                       (App.SHADER_KNOWLEDGE, "occlusion") ]
                  /\ dict_get knowledge_base key = Some e
                  /\ App.generate_response_at query category =
                     (App.EntryReturn, App.entry_response query category e)).
  { intros category.
    destruct (String.eqb_spec category "Unity") as [->|Hu].
    - right. eexists _, "teleport", _.
      split; [left; reflexivity|]. split; [reflexivity|].
      apply (selected_entry_is_used _ _ _ _ _ (unity_topic_is_teleport query)).
      reflexivity.
    - unfold App.generate_response_at, App.select_topic.
      destruct (String.eqb_spec category "Unity"); [contradiction|].
      destruct (String.eqb category "Unreal").
      + right. eexists _, _, _.
        split; [right; left; reflexivity|]. split; reflexivity.
      + destruct (String.eqb category "Shader").
        * right. eexists _, _, _.
          split; [right; right; left; reflexivity|]. split; reflexivity.
        * left. reflexivity. }
  split; [exact Hunity|].
  split; [eexists; split; reflexivity|].
  split; [eexists; split; reflexivity|].
  split.
  - intros category.
    destruct (Hcases category) as [->|(kb & key & e & _ & _ & ->)];
      discriminate.
  - intros category. unfold App.generate_response.
    destruct (Hcases category) as [->|(kb & key & e & Hin & He & ->)].
    + simpl. intuition discriminate.
    + simpl.
      destruct Hin as [[= <- <-]|[[= <- <-]|[[= <- <-]|[]]]];
        injection He as <-; simpl; intuition discriminate.
Qed.

End Selector.

(** ** The demo queries against the response validator *)

Section DemoQueries.
Import Py.

(** C1.  On the three demo queries the pipeline yields the categories
    Unity, Unreal, Shader, the difficulty ratings 3, 3, 4 and two
    documentation links each, but every one of the three responses
    breaks the schema: one subtask description ("Set up XR Interaction
    Toolkit", "Enable VR Template", "Optimize for Mobile AR") holds
    none of the actionable verbs, and that is the only violation. *)
Theorem demo_responses_break_actionable_validator :
  Forall (fun q => ~ Schemas.passes (App.pipeline q)) Schemas.demo_queries
  /\ map (fun q => Schemas.violations (App.pipeline q)) Schemas.demo_queries =
    [ [Schemas.DescriptionNotActionable 0];
      [Schemas.DescriptionNotActionable 0];
      [Schemas.DescriptionNotActionable 3] ]
  /\ map (fun q => CodeXRResponse.category (App.pipeline q))
       Schemas.demo_queries = ["Unity"; "Unreal"; "Shader"]
  /\ map (fun q => CodeXRResponse.difficulty_rating (App.pipeline q))
       Schemas.demo_queries = [3; 3; 4]
  /\ map (fun q =>
            List.length (CodeXRResponse.documentation_links (App.pipeline q)))
       Schemas.demo_queries = [2%nat; 2%nat; 2%nat]
  /\ map (fun q =>
            map SubTask.description
              (List.filter
                 (fun t => negb (Schemas.description_must_be_actionable
                                   (SubTask.description t)))
                 (CodeXRResponse.subtasks (App.pipeline q))))
       Schemas.demo_queries =
     [ ["Set up XR Interaction Toolkit"];
       ["Enable VR Template"];
       ["Optimize for Mobile AR"] ].
Proof.
  split.
  - repeat constructor; unfold Schemas.passes; vm_compute; discriminate.
  - repeat split; vm_compute; reflexivity.
Qed.

End DemoQueries.

(** ** The error debugger *)

Section Debugger.
Import Py.

(** C8.  A log whose lowercased text contains both
    "nullreferenceexception" and "teleportationprovider" gets the
    TeleportationProvider diagnosis, of error type
    "NullReferenceException"; every other log gets the generic
    diagnosis of error type "Unknown", a log that names
    MissingComponentException included; no log makes [debug_error]
    raise. *)
Theorem debug_error_diagnoses (error_log : string) (context : option string) :
  (contains "nullreferenceexception" (lower error_log) = true ->
   contains "teleportationprovider" (lower error_log) = true ->
   ErrorDebugger.debug_error error_log context =
   Ok {| ErrorDebugger.error_type := "NullReferenceException";
         ErrorDebugger.error_analysis :=
           "TeleportationProvider component is not assigned";
         ErrorDebugger.likely_fix :=
           "Assign TeleportationProvider in the Inspector or via script";
         ErrorDebugger.code_fix :=
           "teleportProvider = FindObjectOfType<TeleportationProvider>();";
         ErrorDebugger.prevention_tips :=
           [ "Always check for null references";
             "Use [RequireComponent] attribute" ] |})
  /\ (contains "nullreferenceexception" (lower error_log) = false
      \/ contains "teleportationprovider" (lower error_log) = false ->
      ErrorDebugger.debug_error error_log context =
      Ok ErrorDebugger.generic_diagnosis)
  /\ ErrorDebugger.error_type ErrorDebugger.generic_diagnosis = "Unknown"
  /\ (exists d : ErrorDebugger.Diagnosis,
         ErrorDebugger.debug_error error_log context = Ok d)
  /\ ErrorDebugger.debug_error
       "MissingComponentException: There is no 'Rigidbody' attached"
       context = Ok ErrorDebugger.generic_diagnosis.
Proof.
  unfold ErrorDebugger.debug_error.
  split; [|split; [|split; [reflexivity|split; [|reflexivity]]]].
  - intros -> ->. reflexivity.
  - intros [->| ->]; [reflexivity|].
    destruct (contains "nullreferenceexception" (lower error_log));
      reflexivity.
  - destruct (contains "nullreferenceexception" (lower error_log));
      [destruct (contains "teleportationprovider" (lower error_log))|];
      eexists; reflexivity.
Qed.

Lemma debug_error_diagnoses_witness :
  ErrorDebugger.error_type
    (match ErrorDebugger.debug_error
             "NullReferenceException: TeleportationProvider not set" None with
     | Ok d => d
     | Raise _ => ErrorDebugger.generic_diagnosis
     end) = "NullReferenceException"
  /\ ErrorDebugger.debug_error "IndexOutOfRangeException" None =
     Ok ErrorDebugger.generic_diagnosis.
Proof.
  split.
  - rewrite (proj1 (debug_error_diagnoses
                      "NullReferenceException: TeleportationProvider not set"
                      None)).
    + reflexivity.
    + vm_compute. reflexivity.
    + vm_compute. reflexivity.
  - apply (proj1 (proj2 (debug_error_diagnoses
                           "IndexOutOfRangeException" None))).
    left. vm_compute. reflexivity.
Defined.

End Debugger.

(** ** The offline document index *)

Section Index.
Import Py.

(** *** The [LIKE] operator *)

Lemma like_percent (p s : string) :
  Rag.like (String "%" p) s =
  Rag.like p s ||
  match s with
  | EmptyString => false
  | String _ s' => Rag.like (String "%" p) s'
  end.
Proof. destruct s; reflexivity. Qed.

Lemma like_literal (c : ascii) (p s : string) :
  Ascii.eqb c "%" = false ->
  Ascii.eqb c "_" = false ->
  Rag.like (String c p) s =
  match s with
  | EmptyString => false
  | String d s' => Ascii.eqb (lower_char c) (lower_char d) && Rag.like p s'
  end.
Proof. intros Hp Hu. simpl. rewrite Hp, Hu. reflexivity. Qed.

Lemma like_percent_weaken (p s : string) :
  Rag.like p s = true -> Rag.like (String "%" p) s = true.
Proof. intros H. rewrite like_percent, H. reflexivity. Qed.

Lemma like_only_percent (s : string) : Rag.like "%" s = true.
Proof.
  induction s as [|c s IH]; [reflexivity|].
  rewrite like_percent, IH. apply orb_true_r.
Qed.

(** The pattern built from the query "%" matches every text. *)
Lemma like_pattern_percent (s : string) :
  Rag.like (Rag.like_pattern "%") s = true.
Proof.
  change (Rag.like_pattern "%") with (String "%" (String "%" "%")).
  do 2 apply like_percent_weaken. apply like_only_percent.
Qed.

(** The pattern built from the query "_" matches every non-empty text. *)
Lemma like_pattern_underscore (s : string) :
  s <> EmptyString -> Rag.like (Rag.like_pattern "_") s = true.
Proof.
  destruct s as [|c s]; [contradiction|]. intros _.
  change (Rag.like_pattern "_") with (String "%" (String "_" "%")).
  apply like_percent_weaken. simpl. apply like_only_percent.
Qed.

Lemma append_cons (c : ascii) (s t : string) :
  (String c s ++ t)%string = String c (s ++ t)%string.
Proof. reflexivity. Qed.

(** A wildcard-free text followed by [%] is an ASCII case-insensitive
    prefix test. *)
Lemma like_prefix (q s : string) :
  Rag.wildcard_free q = true ->
  Rag.like (q ++ "%") s = String.prefix (lower q) (lower s).
Proof.
  revert s. induction q as [|c q IH]; intros s Hq.
  - change (EmptyString ++ "%")%string with "%".
    rewrite like_only_percent. destruct s; reflexivity.
  - simpl in Hq.
    apply andb_prop in Hq as [Hc Hq]. apply andb_prop in Hc as [Hp Hu].
    apply negb_true_iff in Hp, Hu.
    rewrite append_cons, (like_literal _ _ _ Hp Hu).
    destruct s as [|d s]; [reflexivity|].
    rewrite (IH s Hq). simpl.
    destruct (ascii_dec (lower_char c) (lower_char d)) as [->|Hne].
    + rewrite Ascii.eqb_refl. reflexivity.
    + apply Ascii.eqb_neq in Hne. rewrite Hne. reflexivity.
Qed.

(** For a wildcard-free query the [LIKE] test of the retrieval is the
    substring test, up to ASCII case. *)
Lemma like_pattern_contains (q s : string) :
  Rag.wildcard_free q = true ->
  Rag.like (Rag.like_pattern q) s = contains (lower q) (lower s).
Proof.
  intros Hq. unfold Rag.like_pattern.
  change ("%" ++ (q ++ "%"))%string with (String "%" (q ++ "%")).
  induction s as [|c s IH].
  - rewrite like_percent, (like_prefix _ _ Hq). reflexivity.
  - rewrite like_percent, (like_prefix _ _ Hq), IH.
    rewrite (contains_unfold (lower q) (lower (String c s))). reflexivity.
Qed.

(** *** Operands with [NUL], and the length of the pattern *)

Lemma c_string_nul_free (s : string) :
  Rag.nul_free s = true -> Rag.c_string s = s.
Proof.
  induction s as [|c s IH]; simpl; [reflexivity|].
  intros H. apply andb_prop in H as [Hc Hs].
  apply negb_true_iff in Hc. rewrite Hc, (IH Hs). reflexivity.
Qed.

Lemma nul_free_append (a b : string) :
  Rag.nul_free (a ++ b) = Rag.nul_free a && Rag.nul_free b.
Proof.
  induction a as [|c a IH]; [reflexivity|].
  rewrite append_cons. simpl. rewrite IH. apply andb_assoc.
Qed.

Lemma c_string_like_pattern (query : string) :
  Rag.nul_free query = true ->
  Rag.c_string (Rag.like_pattern query) = Rag.like_pattern query.
Proof.
  intros Hq. apply c_string_nul_free. unfold Rag.like_pattern.
  rewrite !nul_free_append, Hq. reflexivity.
Qed.

(** The pattern built from the query "%" matches every text, also as
    SQLite reads the text. *)
Lemma sqlite_like_percent (s : string) :
  Rag.sqlite_like (Rag.like_pattern "%") s = true.
Proof.
  unfold Rag.sqlite_like.
  rewrite c_string_like_pattern by reflexivity.
  apply like_pattern_percent.
Qed.

(** For a query without wildcard and without [NUL], the [LIKE] test of
    the retrieval is the substring test, up to ASCII case, on the text
    up to its first [NUL]. *)
Lemma sqlite_like_contains (q s : string) :
  Rag.wildcard_free q = true ->
  Rag.nul_free q = true ->
  Rag.sqlite_like (Rag.like_pattern q) s
  = contains (lower q) (lower (Rag.c_string s)).
Proof.
  intros Hw Hn. unfold Rag.sqlite_like.
  rewrite (c_string_like_pattern _ Hn). apply like_pattern_contains, Hw.
Qed.

Lemma len_append (a b : string) : len (a ++ b) = len a + len b.
Proof.
  unfold len. induction a as [|c a IH]; [reflexivity|].
  rewrite append_cons. simpl String.length. lia.
Qed.

Lemma len_like_pattern (query : string) :
  len (Rag.like_pattern query) = len query + 2.
Proof.
  unfold Rag.like_pattern. rewrite !len_append.
  change (len "%") with 1. lia.
Qed.

(** A query of at most 49998 characters makes a pattern [LIKE]
    accepts. *)
Lemma pattern_accepted (query : string) :
  len query + 2 <= Rag.MAX_LIKE_PATTERN_LENGTH ->
  Rag.pattern_too_complex (Rag.like_pattern query) = false.
Proof.
  intros Hq. unfold Rag.pattern_too_complex.
  rewrite len_like_pattern. lia.
Qed.

Lemma pattern_rejected (query : string) :
  Rag.MAX_LIKE_PATTERN_LENGTH < len query + 2 ->
  Rag.pattern_too_complex (Rag.like_pattern query) = true.
Proof.
  intros Hq. unfold Rag.pattern_too_complex.
  rewrite len_like_pattern. lia.
Qed.

(** *** Identifiers *)

Lemma next_id_above (rows : list Rag.DocumentRow) :
  Forall (fun row => Rag.id row < Rag.next_id rows) rows.
Proof.
  unfold Rag.next_id. induction rows as [|r rows IH]; constructor; simpl.
  - lia.
  - eapply Forall_impl; [exact IH|]. simpl. intros row Hrow. lia.
Qed.






Lemma empty_database_ids_increasing : Rag.ids_increasing Rag.empty_database.
Proof. constructor. Qed.

(** *** Retrieval *)

Lemma length_limit {A : Type} (top_k : Z) (rows : list A) :
  0 <= top_k -> Z.of_nat (List.length (Rag.limit top_k rows)) <= top_k.
Proof.
  intros Hk. unfold Rag.limit.
  destruct (Z.ltb_spec top_k 0); [lia|].
  pose proof (firstn_le_length (Z.to_nat top_k) rows). lia.
Qed.

Lemma In_limit {A : Type} (top_k : Z) (x : A) (rows : list A) :
  In x (Rag.limit top_k rows) -> In x rows.
Proof.
  unfold Rag.limit. destruct (top_k <? 0); [tauto | apply In_take].
Qed.

Lemma limit_sorted {A : Type} (R : A -> A -> Prop) (top_k : Z)
  (rows : list A) :
  StronglySorted R rows -> StronglySorted R (Rag.limit top_k rows).
Proof.
  unfold Rag.limit. destruct (top_k <? 0); [tauto|].
  apply StronglySorted_take.
Qed.

(** What a [SELECT] of the retrieval returns. *)
Lemma select_documents_spec (where_ : Rag.DocumentRow -> bool) (top_k : Z)
  (db : Rag.Database) :
  let rows := Rag.select_documents where_ top_k db in
  Forall (fun row => In row (Rag.documents db) /\ where_ row = true) rows
  /\ StronglySorted (fun a b => Rag.id b <= Rag.id a) rows
  /\ (0 <= top_k -> Z.of_nat (List.length rows) <= top_k)
  /\ (Rag.documents db = [] -> rows = []).
Proof.
  unfold Rag.select_documents. cbv zeta. repeat split.
  - apply List.Forall_forall. intros row Hrow.
    apply In_limit, In_sort_desc, List.filter_In in Hrow. exact Hrow.
  - apply limit_sorted, sort_desc_sorted.
  - apply length_limit.
  - intros ->. simpl. unfold Rag.limit.
    destruct (top_k <? 0); [reflexivity | apply firstn_nil].
Qed.


Lemma fits_int64_spec (n : Z) :
  Rag.fits_int64 n = true <-> - 2 ^ 63 <= n < 2 ^ 63.
Proof. unfold Rag.fits_int64. lia. Qed.

Lemma retrieve_keeps_database (db : Rag.Database) (query : string)
  (category : option string) (top_k : Z) :
  fst (Rag.retrieve_relevant_docs db query category top_k) = db.
Proof.
  unfold Rag.retrieve_relevant_docs.
  destruct (Rag.fits_int64 top_k); [|reflexivity].
  destruct (Rag.pattern_too_complex (Rag.like_pattern query)
            && Rag.like_is_evaluated category top_k db); reflexivity.
Qed.

(** What [retrieve_relevant_docs] returns for a limit it can bind, when
    no [LIKE] is evaluated on a pattern that is too long. *)
Lemma retrieve_selects (db : Rag.Database) (query : string)
  (category : option string) (top_k : Z) :
  - 2 ^ 63 <= top_k < 2 ^ 63 ->
  Rag.pattern_too_complex (Rag.like_pattern query)
  && Rag.like_is_evaluated category top_k db = false ->
  Rag.retrieve_relevant_docs db query category top_k
  = (db, Ok (map Rag.to_retrieved
               (Rag.select_documents (Rag.row_selected category query)
                  top_k db))).
Proof.
  intros Hk Hlike. apply fits_int64_spec in Hk.
  unfold Rag.retrieve_relevant_docs, Rag.row_selected. rewrite Hk, Hlike.
  destruct (Rag.category_filter category); reflexivity.
Qed.

Lemma retrieve_selects_short (db : Rag.Database) (query : string)
  (category : option string) (top_k : Z) :
  - 2 ^ 63 <= top_k < 2 ^ 63 ->
  len query + 2 <= Rag.MAX_LIKE_PATTERN_LENGTH ->
  Rag.retrieve_relevant_docs db query category top_k
  = (db, Ok (map Rag.to_retrieved
               (Rag.select_documents (Rag.row_selected category query)
                  top_k db))).
Proof.
  intros Hk Hq. apply retrieve_selects; [exact Hk|].
  rewrite (pattern_accepted _ Hq). reflexivity.
Qed.

(** On a pattern that is too long the first [LIKE] evaluated raises. *)
Lemma retrieve_raises (db : Rag.Database) (query : string)
  (category : option string) (top_k : Z) :
  - 2 ^ 63 <= top_k < 2 ^ 63 ->
  Rag.MAX_LIKE_PATTERN_LENGTH < len query + 2 ->
  Rag.like_is_evaluated category top_k db = true ->
  Rag.retrieve_relevant_docs db query category top_k
  = (db, Raise (OperationalError "LIKE or GLOB pattern too complex")).
Proof.
  intros Hk Hq Hev. apply fits_int64_spec in Hk.
  unfold Rag.retrieve_relevant_docs.
  rewrite Hk, (pattern_rejected _ Hq), Hev. reflexivity.
Qed.

(** What the [WHERE] clause asks of a selected row. *)
Lemma row_selected_spec (category : option string) (query : string)
  (row : Rag.DocumentRow) :
  Rag.row_selected category query row = true ->
  (Rag.sqlite_like (Rag.like_pattern query) (Rag.content row)
   || Rag.sqlite_like (Rag.like_pattern query) (Rag.title row) = true)
  /\ (forall c : string,
         category = Some c -> c <> EmptyString -> Rag.category row = c).
Proof.
  unfold Rag.row_selected, Rag.category_filter, Rag.text_matches.
  intros Hwhere. split.
  - destruct category as [c|]; [destruct (String.eqb c EmptyString)|];
      [| apply andb_prop in Hwhere as [_ Hwhere] |];
      exact Hwhere.
  - intros c -> Hc.
    destruct (String.eqb_spec c EmptyString); [contradiction|].
    apply andb_prop in Hwhere as [Hcat _].
    apply String.eqb_eq in Hcat. exact Hcat.
Qed.

(** Without a limit every row of the [SELECT] is returned. *)
Lemma select_documents_unlimited (where_ : Rag.DocumentRow -> bool)
  (top_k : Z) (db : Rag.Database) (row : Rag.DocumentRow) :
  top_k < 0 ->
  In row (Rag.documents db) -> where_ row = true ->
  In row (Rag.select_documents where_ top_k db).
Proof.
  intros Hk Hrow Hwhere. unfold Rag.select_documents, Rag.limit.
  destruct (Z.ltb_spec top_k 0); [|lia].
  apply In_sort_desc, List.filter_In. split; assumption.
Qed.

(** C3, counterexample.  On the index of the sample documents,
    whose cache table is empty, the query "Unity" misses the cache and
    retrieves documents, and afterwards the cache table still has no
    row under any key: the retrieval did not populate it. *)
Lemma retrieval_does_not_populate_cache :
  (forall query_hash : string,
      Rag.retrieval_cache (Rag.sample_database "2024-01-01 00:00:00")
        !! query_hash = None)
  /\ (exists docs : list Rag.RetrievedDoc,
         snd (Rag.retrieve_relevant_docs
                (Rag.sample_database "2024-01-01 00:00:00") "Unity" None 5)
         = Ok docs
         /\ docs <> [])
  /\ (forall query_hash : string,
         Rag.retrieval_cache
           (fst (Rag.retrieve_relevant_docs
                   (Rag.sample_database "2024-01-01 00:00:00")
                   "Unity" None 5))
           !! query_hash = None).
Proof.
  split; [|split].
  - intros query_hash. apply lookup_empty.
  - eexists. split; [vm_compute; reflexivity | discriminate].
  - intros query_hash. rewrite retrieve_keeps_database. apply lookup_empty.
Qed.

(** C3, as amended.  [retrieve_relevant_docs] neither reads nor writes
    the [retrieval_cache] table: the database after a retrieval is the
    database before it, and what the retrieval returns does not depend
    on the rows of the cache table; it is computed from the
    [documents] table at every call. *)
Theorem retrieval_never_touches_cache (db : Rag.Database) (query : string)
  (category : option string) (top_k : Z) :
  fst (Rag.retrieve_relevant_docs db query category top_k) = db
  /\ (forall cache : gmap string (string * string),
         snd (Rag.retrieve_relevant_docs
                {| Rag.documents := Rag.documents db;
                   Rag.retrieval_cache := cache |}
                query category top_k)
         = snd (Rag.retrieve_relevant_docs db query category top_k)).
Proof.
  split; [apply retrieve_keeps_database|].
  intros cache. unfold Rag.retrieve_relevant_docs.
  destruct (Rag.fits_int64 top_k); [|reflexivity].
  change (Rag.like_is_evaluated category top_k
            {| Rag.documents := Rag.documents db;
               Rag.retrieval_cache := cache |})
    with (Rag.like_is_evaluated category top_k db).
  destruct (Rag.pattern_too_complex (Rag.like_pattern query)
            && Rag.like_is_evaluated category top_k db); reflexivity.
Qed.

(** C7, counterexample.  On the index of the sample documents the
    query "%" retrieves documents although no retrieved title and no
    retrieved content contains the character, even up to case. *)
Lemma retrieval_returns_documents_without_the_query :
  exists docs : list Rag.RetrievedDoc,
    snd (Rag.retrieve_relevant_docs
           (Rag.sample_database "2024-01-01 00:00:00") "%" None 5) = Ok docs
    /\ docs <> []
    /\ Forall (fun d =>
                 contains (lower "%") (lower (Rag.r_title d)) = false
                 /\ contains (lower "%") (lower (Rag.r_content d)) = false)
         docs.
Proof.
  eexists. split; [vm_compute; reflexivity|].
  split; [discriminate|].
  repeat constructor.
Qed.

(** C7, as amended.  For every category filter and [top_k] within the
    64-bit range: on an empty table the retrieval returns the empty
    list, whatever the query; and for every query of at most 49998
    characters, whose pattern SQLite's [LIKE] accepts, the retrieval
    returns documents of the table whose title or content matches the
    [LIKE] pattern made of the query between two [%], pattern and text
    being read up to their first [NUL] (and whose category equals the
    filter when a non-empty one is given), by descending identifier, at
    most [top_k] of them when [top_k] is not negative and every
    selected one when [top_k] is negative.  For a query without [%],
    [_] and [NUL] the [LIKE] match is the substring test, up to ASCII
    case, on the text up to its first [NUL].  Identifiers grow with
    insertion, so descending identifier is most recently indexed
    first. *)
Theorem retrieval_returns_like_matches (db : Rag.Database) (query : string)
  (category : option string) (top_k : Z) :
  - 2 ^ 63 <= top_k < 2 ^ 63 ->
  (Rag.documents db = [] ->
   Rag.retrieve_relevant_docs db query category top_k = (db, Ok []))
  /\ (len query + 2 <= Rag.MAX_LIKE_PATTERN_LENGTH ->
      exists docs : list Rag.RetrievedDoc,
        Rag.retrieve_relevant_docs db query category top_k = (db, Ok docs)
        /\ Forall (fun d =>
                     exists row : Rag.DocumentRow,
                       In row (Rag.documents db)
                       /\ d = Rag.to_retrieved row
                       /\ (Rag.sqlite_like (Rag.like_pattern query)
                             (Rag.content row)
                           || Rag.sqlite_like (Rag.like_pattern query)
                                (Rag.title row)
                           = true)
                       /\ (forall c : string,
                              category = Some c -> c <> EmptyString ->
                              Rag.category row = c))
             docs
        /\ StronglySorted (fun d1 d2 => Rag.r_id d2 <= Rag.r_id d1) docs
        /\ (0 <= top_k -> Z.of_nat (List.length docs) <= top_k)
        /\ (top_k < 0 ->
            forall row : Rag.DocumentRow,
              In row (Rag.documents db) ->
              Rag.row_selected category query row = true ->
              In (Rag.to_retrieved row) docs))
  /\ (Rag.wildcard_free query = true -> Rag.nul_free query = true ->
      forall s : string,
        Rag.sqlite_like (Rag.like_pattern query) s
        = contains (lower query) (lower (Rag.c_string s)))
  /\ Forall (fun row => Rag.id row < Rag.next_id (Rag.documents db))
       (Rag.documents db).
Proof.
  intros Hk. split; [|split; [|split]].
  - intros Hdb. rewrite retrieve_selects.
    + destruct (select_documents_spec (Rag.row_selected category query)
                  top_k db) as (_ & _ & _ & Hempty).
      cbv zeta in Hempty. rewrite (Hempty Hdb). reflexivity.
    + exact Hk.
    + unfold Rag.like_is_evaluated. rewrite Hdb. simpl.
      rewrite !andb_false_r. reflexivity.
  - intros Hq. rewrite (retrieve_selects_short _ _ _ _ Hk Hq).
    eexists. split; [reflexivity|].
    destruct (select_documents_spec (Rag.row_selected category query)
                top_k db) as (Hin & Hsorted & Hlen & _).
    cbv zeta in Hin, Hsorted, Hlen.
    split; [|split; [|split]].
    + rewrite List.Forall_forall in Hin |- *.
      intros d Hd. apply List.in_map_iff in Hd as (row & <- & Hrow).
      destruct (Hin row Hrow) as [Hdoc Hwhere].
      exists row. split; [exact Hdoc|]. split; [reflexivity|].
      apply row_selected_spec, Hwhere.
    + eapply StronglySorted_map; [|exact Hsorted]. simpl. auto.
    + rewrite length_map. exact Hlen.
    + intros Hneg row Hrow Hsel. apply in_map.
      apply select_documents_unlimited; assumption.
  - intros Hw Hn s. apply sqlite_like_contains; assumption.
  - apply next_id_above.
Qed.

Lemma retrieval_returns_like_matches_witness :
  exists docs : list Rag.RetrievedDoc,
    snd (Rag.retrieve_relevant_docs
           (Rag.sample_database "2024-01-01 00:00:00")
           "teleport" (Some "Unity") 5) = Ok docs
    /\ Z.of_nat (List.length docs) <= 5.
Proof.
  destruct (retrieval_returns_like_matches
              (Rag.sample_database "2024-01-01 00:00:00")
              "teleport" (Some "Unity") 5 ltac:(lia))
    as (_ & Hshort & _).
  destruct Hshort as (docs & Hdocs & _ & _ & Hlen & _).
  - vm_compute. discriminate.
  - exists docs. rewrite Hdocs. split; [reflexivity | apply Hlen; lia].
Defined.

(** C10.  The query is put into the [LIKE] pattern as it is, so [%]
    and [_] in it are wildcards.  For the query "%" and any [top_k]
    from 0 up to the 64-bit bound, the retrieval returns the first
    [top_k] documents of the whole table by descending identifier,
    whatever they contain: on the index of the sample documents, none
    of which contains the character, it returns all three.  The
    pattern of the query "_" matches every text that is not empty as
    [LIKE] reads it, that is, up to its first [NUL]. *)
Theorem percent_query_retrieves_every_document (db : Rag.Database)
  (top_k : Z) :
  0 <= top_k < 2 ^ 63 ->
  Rag.retrieve_relevant_docs db "%" None top_k =
    (db, Ok (map Rag.to_retrieved
               (take (Z.to_nat top_k) (sort_desc Rag.id (Rag.documents db)))))
  /\ (forall s : string, Rag.like (Rag.like_pattern "%") s = true)
  /\ (forall s : string,
         s <> EmptyString -> Rag.like (Rag.like_pattern "_") s = true)
  /\ Forall (fun row =>
               contains "%" (Rag.title row) = false
               /\ contains "%" (Rag.content row) = false)
       (Rag.documents (Rag.sample_database "2024-01-01 00:00:00"))
  /\ (exists docs : list Rag.RetrievedDoc,
         snd (Rag.retrieve_relevant_docs
                (Rag.sample_database "2024-01-01 00:00:00") "%" None 5)
         = Ok docs
         /\ map Rag.r_id docs = [3; 2; 1]).
Proof.
  intros Hk. split; [|split; [|split; [|split]]].
  - unfold Rag.retrieve_relevant_docs.
    assert (Hfit : Rag.fits_int64 top_k = true)
      by (apply fits_int64_spec; lia).
    rewrite Hfit, pattern_accepted by (vm_compute; discriminate).
    simpl Rag.category_filter. cbv iota. cbn [andb].
    unfold Rag.select_documents, Rag.limit.
    destruct (Z.ltb_spec top_k 0); [lia|].
    rewrite filter_all; [reflexivity|].
    intros row. unfold Rag.text_matches.
    rewrite sqlite_like_percent. reflexivity.
  - apply like_pattern_percent.
  - apply like_pattern_underscore.
  - repeat constructor.
  - eexists. split; vm_compute; reflexivity.
Qed.

Lemma percent_query_retrieves_every_document_witness :
  snd (Rag.retrieve_relevant_docs
         (Rag.sample_database "2024-01-01 00:00:00") "%" None 2)
  = Ok (map Rag.to_retrieved
          (take 2 (sort_desc Rag.id
                     (Rag.documents
                        (Rag.sample_database "2024-01-01 00:00:00"))))).
Proof.
  rewrite (proj1 (percent_query_retrieves_every_document
                    (Rag.sample_database "2024-01-01 00:00:00") 2
                    ltac:(lia))).
  reflexivity.
Defined.

End Index.

(** ** The web search agent *)

Section Aggregator.
Import Py.

Lemma rank_at_most_five (results : list Search.SearchResult)
  (query category : string) :
  (List.length (Search._rank_and_filter_results results query category)
   <= 5)%nat.
Proof. unfold Search._rank_and_filter_results. apply firstn_le_length. Qed.

Lemma length_rank (results : list Search.SearchResult)
  (query category : string) :
  List.length (Search._rank_and_filter_results results query category)
  = Nat.min 5 (List.length results).
Proof.
  unfold Search._rank_and_filter_results.
  rewrite length_firstn, length_sort_desc, length_map. reflexivity.
Qed.

(** A chain on which every invocation fails collects nothing. *)
Lemma run_tools_all_fail (now : string) (tools : list Search.Tool)
  (search_query : string) (st : Search.State) :
  (forall tool, In tool tools -> Search.provider_fails now tool search_query) ->
  Search.all_results (fst (Search.run_tools now tools search_query st))
  = Search.all_results st.
Proof.
  revert st. induction tools as [|tool tools IH]; intros st Hfail; simpl.
  - reflexivity.
  - pose proof (Hfail tool (or_introl eq_refl)) as Htool.
    unfold Search.provider_fails in Htool.
    destruct (Search.func tool search_query) as [results|e]; simpl.
    + rewrite Htool. rewrite IH.
      * simpl. apply app_nil_r.
      * intros tool' Hin. apply Hfail. right. exact Hin.
    + reflexivity.
Qed.

Lemma run_queries_all_fail (now : string) (tools : list Search.Tool)
  (search_queries : list string) (st : Search.State) :
  (forall tool search_query,
      In tool tools -> In search_query search_queries ->
      Search.provider_fails now tool search_query) ->
  Search.all_results (Search.run_queries now tools search_queries st)
  = Search.all_results st.
Proof.
  revert st.
  induction search_queries as [|q qs IH]; intros st Hfail; simpl.
  - reflexivity.
  - rewrite IH.
    + apply run_tools_all_fail. intros tool Hin.
      apply Hfail; [exact Hin | left; reflexivity].
    + intros tool q' Hin Hq'. apply Hfail; [exact Hin | right; exact Hq'].
Qed.

(** C4.  Whatever the providers do, [search_ar_vr_docs] returns a list
    of at most 5 results; when every invocation of every provider of
    the chain fails (raises, or returns nothing that parses) on the
    enhanced queries that are tried, it returns the empty list.  The
    model has no raising outcome for the search itself: the handler
    around the provider loop catches what the providers raise. *)
Theorem search_returns_at_most_five (now : string)
  (search_tools : list Search.Tool) (query category : string) :
  (List.length (Search.search_ar_vr_docs now search_tools query category)
   <= 5)%nat
  /\ ((forall tool search_query,
          In tool search_tools ->
          In search_query
             (take 2 (Search._build_search_queries query category)) ->
          Search.provider_fails now tool search_query) ->
      Search.search_ar_vr_docs now search_tools query category = []).
Proof.
  unfold Search.search_ar_vr_docs, Search.search_ar_vr_docs_traced. simpl fst.
  split; [apply rank_at_most_five|].
  intros Hfail. rewrite (run_queries_all_fail _ _ _ _ Hfail). reflexivity.
Qed.

Lemma search_returns_at_most_five_witness :
  Search.search_ar_vr_docs "2024-01-01T00:00:00" Search.dead_chain
    "teleport" "Unity" = [].
Proof.
  apply (proj2 (search_returns_at_most_five "2024-01-01T00:00:00"
                  Search.dead_chain "teleport" "Unity")).
  intros tool search_query [<-|[<-|[<-|[]]]] _; exact I.
Defined.

Lemma run_queries_cons (now : string) (tools : list Search.Tool)
  (search_query : string) (rest : list string) (st : Search.State) :
  Search.run_queries now tools (search_query :: rest) st =
  Search.run_queries now tools rest
    (fst (Search.run_tools now tools search_query st)).
Proof. reflexivity. Qed.

(** A provider that raises ends the provider loop: the providers
    after it are not consulted on that query. *)
Lemma run_tools_stops_at_exception (now : string) (tool : Search.Tool)
  (rest : list Search.Tool) (search_query : string) (st : Search.State)
  (e : exn) :
  Search.func tool search_query = Raise e ->
  Search.run_tools now (tool :: rest) search_query st =
  ({| Search.all_results := Search.all_results st;
      Search.events :=
        (Search.events st
         ++ [ Search.Invoked (Search.name tool) search_query;
              Search.Failed (Search.name tool) e ])%list |},
   Raise e).
Proof.
  intros Hraise. simpl. rewrite Hraise, <- app_assoc. reflexivity.
Qed.

(** The first two enhanced queries always exist. *)
Lemma two_enhanced_queries (query category : string) :
  exists q1 q2 : string,
    take 2 (Search._build_search_queries query category) = [q1; q2].
Proof.
  unfold Search._build_search_queries.
  destruct (dict_get Search.base_terms category) as [[|t1 [|t2 terms]]|];
    simpl; eexists _, _; reflexivity.
Qed.

(** C2.  With the paid provider down and the free fallback up, the
    search tries the paid provider on both enhanced queries (the
    exception does not end the search), never invokes the fallback,
    and returns nothing; the fallback alone answers both queries. *)
Theorem provider_exception_skips_remaining_providers
  (now query category : string) :
  map Search.name Search.degraded_chain = ["SERP_Search"; "DuckDuckGo_Search"]
  /\ exists q1 q2 : string,
       take 2 (Search._build_search_queries query category) = [q1; q2]
       /\ Search.search_ar_vr_docs_traced now Search.degraded_chain
            query category
          = ([],
             [ Search.Invoked "SERP_Search" q1;
               Search.Failed "SERP_Search" (ProviderError "HTTP 429");
               Search.Invoked "SERP_Search" q2;
               Search.Failed "SERP_Search" (ProviderError "HTTP 429") ])
       /\ snd (Search.search_ar_vr_docs_traced now Search.fallback_chain
                 query category)
          = [ Search.Invoked "DuckDuckGo_Search" q1;
              Search.Invoked "DuckDuckGo_Search" q2 ]
       /\ List.length
            (Search.search_ar_vr_docs now Search.fallback_chain
               query category)
          = 2%nat.
Proof.
  split; [reflexivity|].
  destruct (two_enhanced_queries query category) as (q1 & q2 & Htwo).
  exists q1, q2. split; [exact Htwo|].
  unfold Search.search_ar_vr_docs, Search.search_ar_vr_docs_traced.
  rewrite Htwo. split; [|split].
  - change Search.degraded_chain
      with [Search.mkTool "SERP_Search"
              (Search.serp_run Search.degraded_providers);
            Search.mkTool "DuckDuckGo_Search"
              (Search.ddg_run Search.degraded_providers)].
    rewrite !run_queries_cons.
    rewrite !run_tools_stops_at_exception
      with (e := ProviderError "HTTP 429") by reflexivity.
    reflexivity.
  - reflexivity.
  - simpl fst. rewrite length_rank. reflexivity.
Qed.

End Aggregator.

(** * Further properties of the modelled code *)

(** ** Strings and sorting *)

Section MorePyFacts.
Import Py.

Lemma prefix_empty (s : string) : String.prefix EmptyString s = true.
Proof. destruct s; reflexivity. Qed.

Lemma prefix_append (q rest : string) : String.prefix q (q ++ rest) = true.
Proof.
  induction q as [|c q IH].
  - apply prefix_empty.
  - rewrite append_cons. simpl.
    destruct (ascii_dec c c); [exact IH | contradiction].
Qed.

Lemma contains_append_l (q rest : string) : contains q (q ++ rest) = true.
Proof. rewrite contains_unfold, prefix_append. reflexivity. Qed.

Lemma contains_append_r (q before s : string) :
  contains q s = true -> contains q (before ++ s) = true.
Proof.
  intros Hs. induction before as [|c before IH]; [exact Hs|].
  rewrite append_cons, contains_unfold, IH. apply orb_true_r.
Qed.

Lemma length_slice_to (n : nat) (s : string) :
  (String.length (slice_to n s) <= n)%nat.
Proof.
  unfold slice_to. revert s.
  induction n as [|n IH]; intros [|c s]; simpl; try lia.
  specialize (IH s). lia.
Qed.

Lemma sort_desc_perm {A : Type} (key : A -> Z) (l : list A) :
  Permutation (sort_desc key l) l.
Proof.
  assert (Hins : forall x l', Permutation (insert_desc key x l') (x :: l')).
  { intros x l'. induction l' as [|y l' IH]; simpl; [reflexivity|].
    destruct (key x <? key y); [|reflexivity].
    rewrite IH. apply perm_swap. }
  induction l as [|x l IH]; simpl; [reflexivity|].
  rewrite Hins, IH. reflexivity.
Qed.

(** The sort is stable: the elements of one key keep their order. *)
Lemma sort_desc_stable {A : Type} (key : A -> Z) (k : Z) (l : list A) :
  List.filter (fun x => key x =? k) (sort_desc key l)
  = List.filter (fun x => key x =? k) l.
Proof.
  assert (Hins : forall x l',
             List.filter (fun y => key y =? k) (insert_desc key x l')
             = List.filter (fun y => key y =? k) (x :: l')).
  { intros x l'. induction l' as [|y l' IH]; [reflexivity|].
    simpl insert_desc.
    destruct (Z.ltb_spec (key x) (key y)) as [Hlt|Hge]; [|reflexivity].
    simpl in IH |- *. rewrite IH.
    destruct (Z.eqb_spec (key x) k), (Z.eqb_spec (key y) k);
      try reflexivity; lia. }
  induction l as [|x l IH]; [reflexivity|].
  simpl sort_desc. rewrite Hins. simpl. rewrite IH. reflexivity.
Qed.

End MorePyFacts.

(** ** More on the web search agent *)

Section MoreAggregator.
Import Py.

(** X1.  [_build_search_queries] returns six enhanced queries for a
    category that has base terms and four for any other; every one of
    them contains the original query, and the last one is the general
    one.  The two that [search_ar_vr_docs] keeps are the two
    term-augmented queries of a category with base terms, and the
    queries restricted to the first two documentation sites
    otherwise. *)
Theorem build_search_queries_shape (query category : string) :
  List.length (Search._build_search_queries query category)
  = match dict_get Search.base_terms category with
    | Some _ => 6%nat
    | None => 4%nat
    end
  /\ Forall (fun enhanced => contains query enhanced = true)
       (Search._build_search_queries query category)
  /\ List.last (Search._build_search_queries query category) EmptyString
     = "AR VR development " ++ query ++ " official documentation"
  /\ take 2 (Search._build_search_queries query category)
     = match dict_get Search.base_terms category with
       | Some terms =>
           map (fun term => query ++ " " ++ term ++ " tutorial documentation")
             (take 2 terms)
       | None =>
           [ query ++ " site:docs.unity3d.com";
             query ++ " site:docs.unrealengine.com" ]
       end.
Proof.
  unfold Search._build_search_queries. split; [|split; [|split]].
  - unfold Search.base_terms. cbn [dict_get].
    repeat match goal with
           | |- context [String.eqb ?a category] =>
               destruct (String.eqb a category)
           end; reflexivity.
  - apply List.Forall_app. split; [|apply List.Forall_app; split].
    + destruct (dict_get Search.base_terms category) as [terms|];
        [|constructor].
      apply List.Forall_map, List.Forall_forall. intros term _.
      apply contains_append_l.
    + apply List.Forall_map, List.Forall_forall. intros site _.
      apply contains_append_l.
    + repeat constructor.
      apply contains_append_r, contains_append_l.
  - rewrite app_assoc. apply List.last_last.
  - unfold Search.base_terms. cbn [dict_get].
    repeat match goal with
           | |- context [String.eqb ?a category] =>
               destruct (String.eqb a category)
           end; reflexivity.
Qed.

Lemma parsed_results_shape (now : string) (results : Search.ToolOutput)
  (search_query : string) :
  Forall (fun r =>
            (String.length (Search.content r) <= 500)%nat
            /\ Search.source r = "Web Search"
            /\ Search.timestamp r = now
            /\ Search.relevance_score r = None)
    (Search._parse_search_results now results search_query).
Proof.
  destruct results as [text|items|]; simpl.
  - constructor; [|constructor]. simpl.
    split; [apply length_slice_to | repeat split].
  - induction (take 3 items) as [|[r|] rest IH]; simpl;
      [constructor | | constructor].
    constructor; [|exact IH]. simpl.
    split; [apply length_slice_to | repeat split].
  - constructor.
Qed.

(** X2.  Whatever a provider returns, [_parse_search_results] yields at
    most three results, each with at most 500 characters of content,
    the source label "Web Search" and no score yet.  A string answer,
    the empty string included, yields exactly one result; an answer
    that is neither a string nor a list yields none. *)
Theorem parse_search_results_bounds (now : string)
  (results : Search.ToolOutput) (search_query : string) :
  (List.length (Search._parse_search_results now results search_query)
   <= 3)%nat
  /\ Forall (fun r =>
               (String.length (Search.content r) <= 500)%nat
               /\ Search.source r = "Web Search"
               /\ Search.timestamp r = now
               /\ Search.relevance_score r = None)
       (Search._parse_search_results now results search_query)
  /\ (forall text : string,
         List.length
           (Search._parse_search_results now (Search.OutStr text) search_query)
         = 1%nat)
  /\ Search._parse_search_results now Search.OutOther search_query = [].
Proof.
  split; [|split; [apply parsed_results_shape | split; reflexivity]].
  destruct results as [text|items|]; simpl; try lia.
  assert (Hitems : forall l,
             (List.length (Search.parse_items now l) <= List.length l)%nat).
  { induction l as [|[r|] l IH]; simpl; lia. }
  pose proof (Hitems (take 3 items)).
  pose proof (firstn_le_length 3 items). lia.
Qed.

Lemma score_of_nonneg (query category : string) (r : Search.SearchResult) :
  0 <= Search.score_of query category r.
Proof.
  unfold Search.score_of.
  pose proof (count_in_nonneg (split (lower query))
                (lower (Search.content r))).
  pose proof (count_in_nonneg Search.ar_vr_terms (lower (Search.content r))).
  destruct (dict_get Search.priority_domains category) as [domains|];
    [pose proof (count_in_nonneg domains (lower (Search.url r)))|]; lia.
Qed.

(** X3.  [_rank_and_filter_results] scores every result, orders them by
    descending score and keeps the first five: what it returns,
    followed by what it drops, is a rearrangement of the scored input
    in descending score order in which results of equal score keep
    their input order; every score is at least 0; nothing is dropped
    from an input of at most five results. *)
Theorem rank_keeps_top_scored (results : list Search.SearchResult)
  (query category : string) :
  exists dropped : list Search.SearchResult,
    Permutation
      (Search._rank_and_filter_results results query category ++ dropped)
      (map (Search.set_score query category) results)
    /\ StronglySorted
         (fun a b => Search.score_key b <= Search.score_key a)
         (Search._rank_and_filter_results results query category ++ dropped)
    /\ (forall k : Z,
           List.filter (fun r => Search.score_key r =? k)
             (Search._rank_and_filter_results results query category
              ++ dropped)
           = List.filter (fun r => Search.score_key r =? k)
               (map (Search.set_score query category) results))
    /\ List.length (Search._rank_and_filter_results results query category)
       = Nat.min 5 (List.length results)
    /\ ((List.length results <= 5)%nat -> dropped = [])
    /\ Forall (fun r =>
                 exists score : Z,
                   Search.relevance_score r = Some score /\ 0 <= score)
         (Search._rank_and_filter_results results query category).
Proof.
  unfold Search._rank_and_filter_results.
  set (scored := map (Search.set_score query category) results).
  exists (drop 5 (sort_desc Search.score_key scored)).
  rewrite firstn_skipn.
  split; [apply sort_desc_perm|].
  split; [apply sort_desc_sorted|].
  split; [intros k; apply sort_desc_stable|].
  split; [|split].
  - rewrite length_firstn, length_sort_desc. unfold scored.
    rewrite length_map. reflexivity.
  - intros Hlen. apply skipn_all2.
    rewrite length_sort_desc. unfold scored. rewrite length_map. exact Hlen.
  - apply List.Forall_forall. intros r Hr.
    apply In_take, In_sort_desc in Hr. unfold scored in Hr.
    apply List.in_map_iff in Hr as (r0 & <- & _).
    eexists. split; [reflexivity | apply score_of_nonneg].
Qed.

Lemma rank_keeps_top_scored_witness :
  exists dropped : list Search.SearchResult,
    List.length
      (Search._rank_and_filter_results
         [Search.mkResult "t" "Unity VR" "N/A" "Web Search" "now" None]
         "vr" "Unity") = 1%nat
    /\ dropped = [].
Proof.
  destruct (rank_keeps_top_scored
              [Search.mkResult "t" "Unity VR" "N/A" "Web Search" "now" None]
              "vr" "Unity")
    as (dropped & _ & _ & _ & Hlen & Hdrop & _).
  exists dropped. split; [exact Hlen | apply Hdrop; simpl; lia].
Defined.

Lemma invocations_app (a b : list Search.Event) :
  Search.invocations (a ++ b)
  = (Search.invocations a ++ Search.invocations b)%list.
Proof.
  induction a as [|[tool_name q|tool_name e] a IH]; simpl;
    [reflexivity | rewrite IH; reflexivity | exact IH].
Qed.

(** The provider loop of one query calls the providers in chain order,
    each once, up to the first that raises or returns something that
    parses. *)
Lemma run_tools_invocations (now : string) (tools : list Search.Tool)
  (search_query : string) (st : Search.State) :
  Search.invocations
    (Search.events (fst (Search.run_tools now tools search_query st)))
  = (Search.invocations (Search.events st)
     ++ map (fun tool => (Search.name tool, search_query))
          (Search.until_first (Search.ends_chain now search_query) tools))%list.
Proof.
  revert st. induction tools as [|tool tools IH]; intros st; simpl.
  - rewrite app_nil_r. reflexivity.
  - unfold Search.ends_chain at 1.
    destruct (Search.func tool search_query) as [results|e]; simpl.
    + destruct (Search._parse_search_results now results search_query)
        as [|r parsed]; simpl.
      * rewrite IH. simpl. rewrite invocations_app, <- app_assoc.
        reflexivity.
      * rewrite invocations_app. reflexivity.
    + rewrite !invocations_app. simpl. rewrite app_nil_r. reflexivity.
Qed.

Lemma run_queries_invocations (now : string) (tools : list Search.Tool)
  (search_queries : list string) (st : Search.State) :
  Search.invocations
    (Search.events (Search.run_queries now tools search_queries st))
  = (Search.invocations (Search.events st)
     ++ flat_map
          (fun search_query =>
             map (fun tool => (Search.name tool, search_query))
               (Search.until_first (Search.ends_chain now search_query) tools))
          search_queries)%list.
Proof.
  revert st. induction search_queries as [|q qs IH]; intros st; simpl.
  - rewrite app_nil_r. reflexivity.
  - rewrite IH, run_tools_invocations, <- app_assoc. reflexivity.
Qed.

Lemma length_until_first (stop : Search.Tool -> bool)
  (tools : list Search.Tool) :
  (List.length (Search.until_first stop tools) <= List.length tools)%nat.
Proof.
  induction tools as [|tool tools IH]; simpl; [lia|].
  destruct (stop tool); simpl; lia.
Qed.

(** X4.  One search calls the providers as follows: for each of the
    first two enhanced queries, in that order, the providers of the
    chain in priority order, each once, up to and with the first one
    that raises or returns something that parses to a result.  So a
    search makes at most twice as many provider calls as there are
    providers, and none after a provider has answered a query. *)
Theorem search_invocation_order (now : string)
  (search_tools : list Search.Tool) (query category : string) :
  Search.invocations
    (snd (Search.search_ar_vr_docs_traced now search_tools query category))
  = flat_map
      (fun search_query =>
         map (fun tool => (Search.name tool, search_query))
           (Search.until_first (Search.ends_chain now search_query)
              search_tools))
      (take 2 (Search._build_search_queries query category))
  /\ (List.length
        (Search.invocations
           (snd (Search.search_ar_vr_docs_traced now search_tools
                   query category)))
      <= 2 * List.length search_tools)%nat.
Proof.
  assert (Hinv :
            Search.invocations
              (snd (Search.search_ar_vr_docs_traced now search_tools
                      query category))
            = flat_map
                (fun search_query =>
                   map (fun tool => (Search.name tool, search_query))
                     (Search.until_first (Search.ends_chain now search_query)
                        search_tools))
                (take 2 (Search._build_search_queries query category))).
  { unfold Search.search_ar_vr_docs_traced. simpl snd.
    rewrite run_queries_invocations. reflexivity. }
  split; [exact Hinv|]. rewrite Hinv.
  destruct (two_enhanced_queries query category) as (q1 & q2 & ->).
  simpl. rewrite app_nil_r, length_app, !length_map.
  pose proof (length_until_first (Search.ends_chain now q1) search_tools).
  pose proof (length_until_first (Search.ends_chain now q2) search_tools).
  lia.
Qed.

(** What holds of every parsed result holds of all that a provider
    loop collects. *)
Lemma run_tools_all_results (P : Search.SearchResult -> Prop) (now : string)
  (tools : list Search.Tool) (search_query : string) (st : Search.State) :
  (forall results q, Forall P (Search._parse_search_results now results q)) ->
  Forall P (Search.all_results st) ->
  Forall P
    (Search.all_results (fst (Search.run_tools now tools search_query st))).
Proof.
  intros Hparse. revert st.
  induction tools as [|tool tools IH]; intros st Hst; simpl; [exact Hst|].
  destruct (Search.func tool search_query) as [results|e]; simpl;
    [|exact Hst].
  pose proof (Hparse results search_query) as Hnew.
  destruct (Search._parse_search_results now results search_query)
    as [|r parsed]; simpl.
  - apply IH. simpl. rewrite app_nil_r. exact Hst.
  - apply List.Forall_app. split; assumption.
Qed.

Lemma run_queries_all_results (P : Search.SearchResult -> Prop) (now : string)
  (tools : list Search.Tool) (search_queries : list string)
  (st : Search.State) :
  (forall results q, Forall P (Search._parse_search_results now results q)) ->
  Forall P (Search.all_results st) ->
  Forall P (Search.all_results (Search.run_queries now tools search_queries st)).
Proof.
  intros Hparse. revert st.
  induction search_queries as [|q qs IH]; intros st Hst; simpl; [exact Hst|].
  apply IH, run_tools_all_results; assumption.
Qed.

(** X5.  Every result [search_ar_vr_docs] returns has at most 500
    characters of content, the source label "Web Search", the
    timestamp of the parse and a relevance score of at least 0, and
    the results come in descending order of that score. *)
Theorem search_results_are_scored (now : string)
  (search_tools : list Search.Tool) (query category : string) :
  Forall (fun r =>
            (String.length (Search.content r) <= 500)%nat
            /\ Search.source r = "Web Search"
            /\ Search.timestamp r = now
            /\ exists score : Z,
                 Search.relevance_score r = Some score /\ 0 <= score)
    (Search.search_ar_vr_docs now search_tools query category)
  /\ StronglySorted (fun a b => Search.score_key b <= Search.score_key a)
       (Search.search_ar_vr_docs now search_tools query category).
Proof.
  unfold Search.search_ar_vr_docs, Search.search_ar_vr_docs_traced. simpl fst.
  set (st := Search.run_queries now search_tools
               (take 2 (Search._build_search_queries query category))
               {| Search.all_results := []; Search.events := [] |}).
  assert (Hall : Forall (fun r =>
                           (String.length (Search.content r) <= 500)%nat
                           /\ Search.source r = "Web Search"
                           /\ Search.timestamp r = now
                           /\ Search.relevance_score r = None)
                   (Search.all_results st)).
  { apply run_queries_all_results; [|constructor].
    intros results q. apply parsed_results_shape. }
  unfold Search._rank_and_filter_results. split.
  - apply List.Forall_forall. intros r Hr.
    apply In_take, In_sort_desc, List.in_map_iff in Hr as (r0 & <- & Hr0).
    rewrite List.Forall_forall in Hall.
    destruct (Hall r0 Hr0) as (Hlen & Hsrc & Htime & _). simpl.
    repeat split; try assumption.
    eexists. split; [reflexivity | apply score_of_nonneg].
  - apply StronglySorted_take, sort_desc_sorted.
Qed.

(** The sentence scan only adds stripped sentences that hold a
    keyword. *)
Lemma scan_sentences_from (Q : string -> Prop) (keywords : list string)
  (cap : nat) (sentences found : list string) :
  (forall sentence,
      In sentence sentences ->
      any_in keywords (lower sentence) = true -> Q (strip sentence)) ->
  Forall Q found ->
  Forall Q (Search.scan_sentences keywords cap sentences found).
Proof.
  revert found.
  induction sentences as [|sentence sentences IH]; intros found Hs Hfound;
    simpl; [exact Hfound|].
  assert (Hrest : forall s, In s sentences ->
                    any_in keywords (lower s) = true -> Q (strip s))
    by (intros s Hin; apply Hs; right; exact Hin).
  destruct (any_in keywords (lower sentence)) eqn:Hkw.
  - assert (Hfound' : Forall Q (found ++ [strip sentence])).
    { apply List.Forall_app. split; [exact Hfound|].
      constructor; [|constructor]. apply Hs; [left; reflexivity | exact Hkw]. }
    destruct (cap <=? List.length (found ++ [strip sentence]))%nat;
      [exact Hfound' | apply IH; assumption].
  - apply IH; assumption.
Qed.

Lemma scan_results_from (Q : string -> Prop) (keywords : list string)
  (cap : nat) (results : list Search.SearchResult) (found : list string) :
  (forall result sentence,
      In result results ->
      In sentence (split_on "." (Search.content result) EmptyString) ->
      any_in keywords (lower sentence) = true -> Q (strip sentence)) ->
  Forall Q found ->
  Forall Q (Search.scan_results keywords cap results found).
Proof.
  revert found.
  induction results as [|result results IH]; intros found Hs Hfound; simpl;
    [exact Hfound|].
  assert (Hhere : Forall Q
                    (Search.scan_sentences keywords cap
                       (split_on "." (Search.content result) EmptyString)
                       found)).
  { apply scan_sentences_from; [|exact Hfound].
    intros sentence Hin Hkw.
    apply (Hs result sentence); [left; reflexivity | exact Hin | exact Hkw]. }
  match goal with
  | |- context [(cap <=? ?n)%nat] => destruct (cap <=? n)%nat
  end; [exact Hhere|].
  apply IH; [|exact Hhere].
  intros r sentence Hr. apply (Hs r sentence). right. exact Hr.
Qed.

(** The scan stops at [cap] entries. *)
Lemma length_scan_sentences (keywords : list string) (cap : nat)
  (sentences found : list string) :
  (List.length found < cap)%nat ->
  (List.length (Search.scan_sentences keywords cap sentences found)
   <= cap)%nat.
Proof.
  revert found.
  induction sentences as [|sentence sentences IH]; intros found Hlen; simpl;
    [lia|].
  destruct (any_in keywords (lower sentence)); [|apply IH; exact Hlen].
  destruct (Nat.leb_spec cap (List.length (found ++ [strip sentence])))
    as [Hfull|Hroom].
  - rewrite length_app in Hfull |- *. simpl in Hfull |- *. lia.
  - apply IH. exact Hroom.
Qed.

Lemma length_scan_results (keywords : list string) (cap : nat)
  (results : list Search.SearchResult) (found : list string) :
  (List.length found < cap)%nat ->
  (List.length (Search.scan_results keywords cap results found) <= cap)%nat.
Proof.
  revert found.
  induction results as [|result results IH]; intros found Hlen; simpl; [lia|].
  pose proof (length_scan_sentences keywords cap
                (split_on "." (Search.content result) EmptyString) found Hlen)
    as Hhere.
  match goal with
  | |- context [(cap <=? ?n)%nat] => destruct (Nat.leb_spec cap n)
  end; [exact Hhere | apply IH; assumption].
Qed.

(** X6.  [search_for_best_practices] returns at most 6 and
    [search_for_gotchas] at most 5 entries, the loops themselves
    stopping there; every entry is a sentence, stripped of surrounding
    blanks, cut at the full stops of the content of one of the first
    three results of the underlying search, and that sentence holds one
    of the keywords of the function, whatever the letter case. *)
Theorem extracted_sentences_hold_keywords (now : string)
  (search_tools : list Search.Tool) (category topic : string) :
  (List.length
     (Search.scan_results Search.best_practice_keywords 6
        (take 3
           (Search.search_ar_vr_docs now search_tools
              (category ++ " " ++ topic
               ++ " best practices guidelines recommendations")
              category))
        []) <= 6)%nat
  /\ (List.length
        (Search.search_for_best_practices now search_tools category topic)
      <= 6)%nat
  /\ Forall (fun entry =>
               exists (result : Search.SearchResult) (sentence : string),
                 In result
                    (take 3
                       (Search.search_ar_vr_docs now search_tools
                          (category ++ " " ++ topic
                           ++ " best practices guidelines recommendations")
                          category))
                 /\ In sentence
                       (split_on "." (Search.content result) EmptyString)
                 /\ any_in Search.best_practice_keywords (lower sentence)
                    = true
                 /\ entry = strip sentence)
       (Search.search_for_best_practices now search_tools category topic)
  /\ (List.length
        (Search.scan_results Search.gotcha_keywords 5
           (take 3
              (Search.search_ar_vr_docs now search_tools
                 (category ++ " " ++ topic
                  ++ " common problems issues gotchas pitfalls mistakes")
                 category))
           []) <= 5)%nat
  /\ (List.length (Search.search_for_gotchas now search_tools category topic)
      <= 5)%nat
  /\ Forall (fun entry =>
               exists (result : Search.SearchResult) (sentence : string),
                 In result
                    (take 3
                       (Search.search_ar_vr_docs now search_tools
                          (category ++ " " ++ topic
                           ++ " common problems issues gotchas pitfalls mistakes")
                          category))
                 /\ In sentence
                       (split_on "." (Search.content result) EmptyString)
                 /\ any_in Search.gotcha_keywords (lower sentence) = true
                 /\ entry = strip sentence)
       (Search.search_for_gotchas now search_tools category topic).
Proof.
  unfold Search.search_for_best_practices, Search.search_for_gotchas.
  cbv zeta.
  split; [apply length_scan_results; simpl; lia|].
  split; [apply firstn_le_length|].
  split.
  { apply Forall_take, scan_results_from; [|constructor].
    intros result sentence Hr Hs Hkw. exists result, sentence. auto. }
  split; [apply length_scan_results; simpl; lia|].
  split; [apply firstn_le_length|].
  apply Forall_take, scan_results_from; [|constructor].
  intros result sentence Hr Hs Hkw. exists result, sentence. auto.
Qed.

Lemma official_links_found (query category : string) :
  exists links : list string,
    Search.get_official_documentation_links query category = Ok links
    /\ (2 <= List.length links <= 3)%nat.
Proof.
  unfold Search.get_official_documentation_links, Search.official_docs.
  cbn [dict_get].
  repeat match goal with
         | |- context [String.eqb ?a category] =>
             destruct (String.eqb a category)
         end;
    eexists; (split; [reflexivity | simpl; lia]).
Qed.

(** X7.  [get_official_documentation_links] never raises and, for every
    category, known or not, returns two or three links that all start
    with "https://": a list that meets the bounds and the link check
    the response schema puts on documentation links.  A category
    without links of its own gets those of General. *)
Theorem official_links_meet_schema (query category : string) :
  exists links : list string,
    Search.get_official_documentation_links query category = Ok links
    /\ (2 <= List.length links <= 3)%nat
    /\ Forall (fun link => startswith link "https://" = true) links
    /\ Schemas.items_bounds 2 6 Schemas.DocumentationLinksMinItems
         Schemas.DocumentationLinksMaxItems links = []
    /\ Schemas.each_item Schemas.validate_documentation_links 0 links = []
    /\ (dict_get Search.official_docs category = None ->
        Search.get_official_documentation_links query category
        = Search.get_official_documentation_links query "General").
Proof.
  unfold Search.get_official_documentation_links, Search.official_docs.
  cbn [dict_get].
  repeat match goal with
         | |- context [String.eqb ?a category] =>
             destruct (String.eqb a category)
         end;
    eexists; (split; [reflexivity|]);
    (split; [simpl; lia|]);
    (split; [repeat constructor|]);
    (split; [reflexivity|]);
    (split; [reflexivity|]);
    try discriminate; reflexivity.
Qed.

Lemma official_links_meet_schema_witness :
  Search.get_official_documentation_links "teleport" "WebXR"
  = Search.get_official_documentation_links "teleport" "General".
Proof.
  destruct (official_links_meet_schema "teleport" "WebXR")
    as (links & _ & _ & _ & _ & _ & Hdefault).
  apply Hdefault. reflexivity.
Defined.

(** X8.  Every grounding [search_and_ground_query] returns has as
    confidence the number of its search results over five, between 0
    and 1; it carries at most 5 results, 6 best practices and 5
    gotchas, and the official links of the category.  When every
    provider fails on every query (it raises, or nothing is parsed from
    what it returns), nothing is ranked and the call does return: the
    results, best practices and gotchas are empty and the confidence
    is 0, while the official links are still there. *)
Theorem grounding_is_bounded (now : string) (search_tools : list Search.Tool)
  (query category : string) :
  (forall g : Search.Grounding,
      Search.search_and_ground_query now search_tools query category = Ok g ->
      Search.grounding_confidence g
      = (Z.of_nat (List.length (Search.search_results g)) # 5)%Q
      /\ (0 <= Search.grounding_confidence g)%Q
      /\ (Search.grounding_confidence g <= 1)%Q
      /\ (List.length (Search.search_results g) <= 5)%nat
      /\ (List.length (Search.best_practices g) <= 6)%nat
      /\ (List.length (Search.gotchas g) <= 5)%nat
      /\ Search.get_official_documentation_links query category
         = Ok (Search.documentation_links g))
  /\ ((forall tool search_query,
          In tool search_tools ->
          Search.provider_fails now tool search_query) ->
      exists g : Search.Grounding,
        Search.search_and_ground_query now search_tools query category = Ok g
        /\ Search.search_results g = []
        /\ Search.best_practices g = []
        /\ Search.gotchas g = []
        /\ (Search.grounding_confidence g == 0)%Q
        /\ (2 <= List.length (Search.documentation_links g))%nat).
Proof.
  unfold Search.search_and_ground_query.
  destruct (official_links_found query category) as (links & Hlinks & Hlen).
  rewrite Hlinks. simpl bind.
  pose proof (rank_at_most_five
                (Search.all_results
                   (Search.run_queries now search_tools
                      (take 2 (Search._build_search_queries query category))
                      {| Search.all_results := []; Search.events := [] |}))
                query category) as Hfive.
  fold (Search.search_ar_vr_docs_traced now search_tools query category)
    in Hfive.
  assert (Hsearch : forall q c,
             (forall tool search_query,
                 In tool search_tools ->
                 Search.provider_fails now tool search_query) ->
             Search.search_ar_vr_docs now search_tools q c = []).
  { intros q c Hfail.
    unfold Search.search_ar_vr_docs, Search.search_ar_vr_docs_traced.
    simpl fst. rewrite run_queries_all_fail; [reflexivity|].
    intros tool sq Hin _. apply Hfail, Hin. }
  split.
  - intros g [= <-]. simpl.
    split; [reflexivity|].
    split; [unfold Qle; simpl; lia|].
    split.
    { unfold Qle. simpl.
      unfold Search.search_ar_vr_docs, Search.search_ar_vr_docs_traced.
      simpl fst. simpl in Hfive. lia. }
    split; [apply rank_at_most_five|].
    split; [unfold Search.search_for_best_practices; apply firstn_le_length|].
    split; [unfold Search.search_for_gotchas; apply firstn_le_length|].
    reflexivity.
  - intros Hfail. eexists. split; [reflexivity|]. simpl. repeat split.
    + apply Hsearch, Hfail.
    + unfold Search.search_for_best_practices. cbv zeta.
      rewrite (Hsearch _ _ Hfail). reflexivity.
    + unfold Search.search_for_gotchas. cbv zeta.
      rewrite (Hsearch _ _ Hfail). reflexivity.
    + rewrite (Hsearch _ _ Hfail). reflexivity.
    + lia.
Qed.

Lemma grounding_is_bounded_witness :
  exists g : Search.Grounding,
    Search.search_and_ground_query "2024-01-01T00:00:00" Search.dead_chain
      "teleport" "Unity" = Ok g
    /\ Search.search_results g = []
    /\ (Search.grounding_confidence g == 0)%Q
    /\ (List.length (Search.best_practices g) <= 6)%nat.
Proof.
  destruct (grounding_is_bounded "2024-01-01T00:00:00" Search.dead_chain
              "teleport" "Unity") as (Hbounds & Hdead).
  destruct Hdead as (g & Hg & Hres & _ & _ & Hconf & _).
  - intros tool search_query [<-|[<-|[<-|[]]]]; exact I.
  - exists g. split; [exact Hg|]. split; [exact Hres|]. split; [exact Hconf|].
    apply (Hbounds g Hg).
Defined.

End MoreAggregator.

(** ** More on the offline document index *)

Section MoreIndex.
Import Py.

Lemma max_id_from (rows : list Rag.DocumentRow) (a : Z) :
  0 <= a ->
  fold_right (fun row m => Z.max (Rag.id row) m) a rows
  = Z.max (fold_right (fun row m => Z.max (Rag.id row) m) 0 rows) a.
Proof.
  intros Ha. induction rows as [|r rows IH]; simpl; [lia|].
  rewrite IH. lia.
Qed.

(** The identifier after an insertion is the next one. *)
Lemma next_id_insert (now : string) (rows : list Rag.DocumentRow)
  (doc : Rag.Document) :
  Rag.next_id (Rag.insert_document now rows doc) = Rag.next_id rows + 1.
Proof.
  unfold Rag.insert_document, Rag.next_id.
  rewrite fold_right_app. simpl.
  rewrite max_id_from by lia.
  assert (0 <= fold_right (fun row m => Z.max (Rag.id row) m) 0 rows).
  { induction rows as [|r rows IH]; simpl; lia. }
  lia.
Qed.

(** The row [insert_document] makes of a document. *)
Lemma insert_document_row (now : string) (rows : list Rag.DocumentRow)
  (doc : Rag.Document) :
  exists row : Rag.DocumentRow,
    Rag.insert_document now rows doc = (rows ++ [row])%list
    /\ Rag.id row = Rag.next_id rows
    /\ Rag.title row = Rag.doc_title doc
    /\ Rag.content row = Rag.doc_content doc
    /\ Rag.source row = Rag.doc_source doc
    /\ Rag.category row = Rag.doc_category doc
    /\ Rag.url row = Some (match Rag.doc_url doc with
                           | Some u => u
                           | None => EmptyString
                           end)
    /\ Rag.created_at row = now.
Proof. eexists. split; [reflexivity|]. repeat split. Qed.

Lemma fold_insert_appends (now : string) (docs : list Rag.Document)
  (rows : list Rag.DocumentRow) :
  exists new_rows : list Rag.DocumentRow,
    fold_left (Rag.insert_document now) docs rows = (rows ++ new_rows)%list
    /\ map Rag.id new_rows
       = map (fun i => Rag.next_id rows + Z.of_nat i)
           (seq 0 (List.length docs))
    /\ map Rag.title new_rows = map Rag.doc_title docs
    /\ map Rag.content new_rows = map Rag.doc_content docs
    /\ map Rag.source new_rows = map Rag.doc_source docs
    /\ map Rag.category new_rows = map Rag.doc_category docs
    /\ map Rag.url new_rows
       = map (fun doc => Some (match Rag.doc_url doc with
                               | Some u => u
                               | None => EmptyString
                               end)) docs.
Proof.
  revert rows. induction docs as [|doc docs IH]; intros rows; simpl.
  - exists []. rewrite app_nil_r. repeat split.
  - destruct (IH (Rag.insert_document now rows doc))
      as (new_rows & Hrows & Hid & Htitle & Hcontent & Hsource & Hcat & Hurl).
    destruct (insert_document_row now rows doc)
      as (row & Hins & Hrid & Hrtitle & Hrcontent & Hrsource & Hrcat & Hrurl
          & _).
    exists (row :: new_rows).
    rewrite Hrows, Hins, <- app_assoc. split; [reflexivity|].
    simpl. rewrite Hid, Htitle, Hcontent, Hsource, Hcat, Hurl.
    rewrite Hrid, Hrtitle, Hrcontent, Hrsource, Hrcat, Hrurl.
    repeat split; try reflexivity.
    f_equal; [lia|].
    rewrite <- seq_shift, map_map, next_id_insert.
    apply map_ext. intros i. lia.
Qed.



(** Without a limit the retrieval returns one document per selected
    row. *)
Lemma retrieve_all_length (db : Rag.Database) (query : string)
  (category : option string) :
  len query + 2 <= Rag.MAX_LIKE_PATTERN_LENGTH ->
  exists docs : list Rag.RetrievedDoc,
    snd (Rag.retrieve_relevant_docs db query category (-1)) = Ok docs
    /\ List.length docs
       = List.length
           (List.filter (Rag.row_selected category query) (Rag.documents db)).
Proof.
  intros Hq. rewrite retrieve_selects_short by (lia || exact Hq).
  eexists. split; [reflexivity|].
  unfold Rag.select_documents, Rag.limit. simpl.
  rewrite length_map, length_sort_desc. reflexivity.
Qed.

(** The selection looks at the title, the content and the category of
    a row only. *)
Lemma selected_count_by_fields (category : option string) (query : string)
  (rows1 rows2 : list Rag.DocumentRow) :
  map Rag.title rows1 = map Rag.title rows2 ->
  map Rag.content rows1 = map Rag.content rows2 ->
  map Rag.category rows1 = map Rag.category rows2 ->
  List.length (List.filter (Rag.row_selected category query) rows1)
  = List.length (List.filter (Rag.row_selected category query) rows2).
Proof.
  revert rows2.
  induction rows1 as [|r1 rows1 IH]; intros [|r2 rows2]; simpl;
    try discriminate; [reflexivity|].
  intros [= Ht Hts] [= Hc Hcs] [= Hg Hgs].
  assert (Hsel : Rag.row_selected category query r1
                 = Rag.row_selected category query r2).
  { unfold Rag.row_selected, Rag.text_matches. rewrite Ht, Hc, Hg.
    reflexivity. }
  rewrite Hsel. specialize (IH rows2 Hts Hcs Hgs).
  destruct (Rag.row_selected category query r2); simpl; lia.
Qed.

(** X10.  Indexing does not look for duplicates: for a query of at
    most 49998 characters, whose pattern SQLite's [LIKE] accepts, after
    the same documents have been indexed a second time a retrieval
    without limit returns every document of that set twice, that is,
    as many more documents as the first indexing had added. *)
Theorem indexing_twice_duplicates (now1 now2 : string) (db : Rag.Database)
  (docs : list Rag.Document) (query : string) (category : option string) :
  len query + 2 <= Rag.MAX_LIKE_PATTERN_LENGTH ->
  exists before once twice : list Rag.RetrievedDoc,
    snd (Rag.retrieve_relevant_docs db query category (-1)) = Ok before
    /\ snd (Rag.retrieve_relevant_docs
              (Rag.index_documentation now1 db docs) query category (-1))
       = Ok once
    /\ snd (Rag.retrieve_relevant_docs
              (Rag.index_documentation now2
                 (Rag.index_documentation now1 db docs) docs)
              query category (-1))
       = Ok twice
    /\ (List.length twice + List.length before = 2 * List.length once)%nat.
Proof.
  intros Hq.
  destruct (retrieve_all_length db query category Hq) as (before & Hb & Hlb).
  destruct (retrieve_all_length (Rag.index_documentation now1 db docs)
              query category Hq) as (once & Ho & Hlo).
  destruct (retrieve_all_length
              (Rag.index_documentation now2
                 (Rag.index_documentation now1 db docs) docs)
              query category Hq) as (twice & Ht & Hlt).
  exists before, once, twice. repeat split; try assumption.
  destruct (fold_insert_appends now1 docs (Rag.documents db))
    as (new1 & Hrows1 & _ & Ht1 & Hc1 & _ & Hg1 & _).
  destruct (fold_insert_appends now2 docs
              (Rag.documents (Rag.index_documentation now1 db docs)))
    as (new2 & Hrows2 & _ & Ht2 & Hc2 & _ & Hg2 & _).
  simpl in Hlo, Hlt, Hrows2.
  rewrite Hlb, Hlo, Hlt, Hrows2, Hrows1.
  rewrite !List.filter_app, !length_app.
  rewrite (selected_count_by_fields category query new2 new1)
    by congruence.
  lia.
Qed.

Lemma indexing_twice_duplicates_witness :
  exists before once twice : list Rag.RetrievedDoc,
    snd (Rag.retrieve_relevant_docs Rag.empty_database "setup" None (-1))
    = Ok before
    /\ snd (Rag.retrieve_relevant_docs
              (Rag.index_documentation "2024-01-01 00:00:00"
                 Rag.empty_database Rag.sample_docs) "setup" None (-1))
       = Ok once
    /\ snd (Rag.retrieve_relevant_docs
              (Rag.index_documentation "2024-01-02 00:00:00"
                 (Rag.index_documentation "2024-01-01 00:00:00"
                    Rag.empty_database Rag.sample_docs) Rag.sample_docs)
              "setup" None (-1))
       = Ok twice
    /\ (List.length twice + List.length before = 2 * List.length once)%nat.
Proof.
  apply (indexing_twice_duplicates "2024-01-01 00:00:00"
           "2024-01-02 00:00:00" Rag.empty_database Rag.sample_docs
           "setup" None).
  vm_compute. discriminate.
Defined.



Lemma lower_char_facts (c : ascii) :
  Ascii.eqb (lower_char c) "%" = Ascii.eqb c "%"
  /\ Ascii.eqb (lower_char c) "_" = Ascii.eqb c "_"
  /\ lower_char (lower_char c) = lower_char c.
Proof.
  destruct c as [[] [] [] [] [] [] [] []]; vm_compute; repeat split.
Qed.

(** [LIKE] does not see the letter case of its pattern. *)
Lemma like_lower_pattern (p s : string) :
  Rag.like (lower p) s = Rag.like p s.
Proof.
  revert s. induction p as [|c p IH]; intros s; [reflexivity|].
  change (lower (String c p)) with (String (lower_char c) (lower p)).
  destruct (lower_char_facts c) as (Hp & Hu & Hidem).
  destruct (Ascii.eqb c "%") eqn:Hcp.
  - apply Ascii.eqb_eq in Hcp, Hp. rewrite Hp, Hcp.
    induction s as [|d s IHs].
    + rewrite !like_percent, IH. reflexivity.
    + rewrite (like_percent (lower p)), (like_percent p), IH, IHs.
      reflexivity.
  - destruct (Ascii.eqb c "_") eqn:Hcu.
    + apply Ascii.eqb_eq in Hcu, Hu. rewrite Hu, Hcu.
      destruct s as [|d s]; [reflexivity|]. simpl. apply IH.
    + rewrite (like_literal _ _ _ Hp Hu), (like_literal _ _ _ Hcp Hcu).
      destruct s as [|d s]; [reflexivity|].
      rewrite Hidem, IH. reflexivity.
Qed.

Lemma lower_append (a b : string) : lower (a ++ b) = lower a ++ lower b.
Proof.
  induction a as [|c a IH]; [reflexivity|].
  rewrite append_cons. simpl. rewrite IH. reflexivity.
Qed.

Lemma like_pattern_lower (query : string) :
  Rag.like_pattern (lower query) = lower (Rag.like_pattern query).
Proof.
  unfold Rag.like_pattern. rewrite !lower_append. reflexivity.
Qed.

Lemma lower_char_nul (c : ascii) :
  Ascii.eqb (lower_char c) Rag.NUL = Ascii.eqb c Rag.NUL.
Proof. destruct c as [[] [] [] [] [] [] [] []]; vm_compute; reflexivity. Qed.

Lemma c_string_lower (s : string) :
  Rag.c_string (lower s) = lower (Rag.c_string s).
Proof.
  induction s as [|c s IH]; [reflexivity|].
  change (lower (String c s)) with (String (lower_char c) (lower s)).
  simpl Rag.c_string. rewrite lower_char_nul.
  destruct (Ascii.eqb c Rag.NUL); [reflexivity|].
  simpl. rewrite IH. reflexivity.
Qed.

(** [LIKE] does not see the letter case of its pattern, also as SQLite
    reads its operands. *)
Lemma sqlite_like_lower_pattern (p s : string) :
  Rag.sqlite_like (lower p) s = Rag.sqlite_like p s.
Proof.
  unfold Rag.sqlite_like. rewrite c_string_lower. apply like_lower_pattern.
Qed.

Lemma len_lower (s : string) : len (lower s) = len s.
Proof.
  unfold len. f_equal.
  induction s as [|c s IH]; simpl; [reflexivity|]. rewrite IH. reflexivity.
Qed.

(** X12.  The retrieval does not see the ASCII letter case of the
    query: two queries that are equal once lowercased retrieve the
    same documents from any table, with any category and any limit. *)
Theorem retrieval_ignores_query_case (db : Rag.Database)
  (query1 query2 : string) (category : option string) (top_k : Z) :
  lower query1 = lower query2 ->
  Rag.retrieve_relevant_docs db query1 category top_k
  = Rag.retrieve_relevant_docs db query2 category top_k.
Proof.
  intros Hcase.
  assert (Htext : forall row,
             Rag.text_matches query1 row = Rag.text_matches query2 row).
  { intros row. unfold Rag.text_matches.
    rewrite <- !(sqlite_like_lower_pattern (Rag.like_pattern query1)).
    rewrite <- !(sqlite_like_lower_pattern (Rag.like_pattern query2)).
    rewrite <- !like_pattern_lower, Hcase. reflexivity. }
  assert (Hlen : Rag.pattern_too_complex (Rag.like_pattern query1)
                 = Rag.pattern_too_complex (Rag.like_pattern query2)).
  { unfold Rag.pattern_too_complex.
    rewrite !len_like_pattern, <- (len_lower query1), <- (len_lower query2),
      Hcase.
    reflexivity. }
  unfold Rag.retrieve_relevant_docs, Rag.select_documents.
  destruct (Rag.fits_int64 top_k); [|reflexivity].
  rewrite Hlen.
  destruct (Rag.pattern_too_complex (Rag.like_pattern query2)
            && Rag.like_is_evaluated category top_k db); [reflexivity|].
  destruct (Rag.category_filter category) as [c|].
  - rewrite (List.filter_ext
               (fun row => String.eqb (Rag.category row) c
                           && Rag.text_matches query1 row)
               (fun row => String.eqb (Rag.category row) c
                           && Rag.text_matches query2 row));
      [reflexivity|].
    intros row. rewrite Htext. reflexivity.
  - rewrite (List.filter_ext _ _ Htext). reflexivity.
Qed.

Lemma retrieval_ignores_query_case_witness :
  Rag.retrieve_relevant_docs (Rag.sample_database "2024-01-01 00:00:00")
    "TELEPORT" None 5
  = Rag.retrieve_relevant_docs (Rag.sample_database "2024-01-01 00:00:00")
      "Teleport" None 5.
Proof.
  apply retrieval_ignores_query_case. vm_compute. reflexivity.
Defined.

(** X13.  The limit of a retrieval at its edges: with [top_k] 0 the
    retrieval returns nothing, whatever the query; with a negative
    [top_k] that fits 64 bits and a query of at most 49998 characters
    it returns every selected document, SQLite taking a negative
    [LIMIT] as none; with a [top_k] that does not fit 64 bits it raises
    [OverflowError]; and with a longer query, a [top_k] other than 0
    that fits 64 bits and a row that passes the category test, it
    raises [sqlite3.OperationalError], the pattern being too long for
    [LIKE].  In no case is the database changed. *)
Theorem retrieval_limit_edges (db : Rag.Database) (query : string)
  (category : option string) (top_k : Z) :
  Rag.retrieve_relevant_docs db query category 0 = (db, Ok [])
  /\ (- 2 ^ 63 <= top_k < 0 ->
      len query + 2 <= Rag.MAX_LIKE_PATTERN_LENGTH ->
      exists docs : list Rag.RetrievedDoc,
        Rag.retrieve_relevant_docs db query category top_k = (db, Ok docs)
        /\ List.length docs
           = List.length
               (List.filter (Rag.row_selected category query)
                  (Rag.documents db)))
  /\ (top_k < - 2 ^ 63 \/ 2 ^ 63 <= top_k ->
      Rag.retrieve_relevant_docs db query category top_k
      = (db, Raise OverflowError))
  /\ (- 2 ^ 63 <= top_k < 2 ^ 63 -> top_k <> 0 ->
      Rag.MAX_LIKE_PATTERN_LENGTH < len query + 2 ->
      (exists row : Rag.DocumentRow,
          In row (Rag.documents db)
          /\ Rag.category_passes category row = true) ->
      Rag.retrieve_relevant_docs db query category top_k
      = (db, Raise (OperationalError "LIKE or GLOB pattern too complex"))).
Proof.
  split; [|split; [|split]].
  - rewrite retrieve_selects; [reflexivity | lia |].
    unfold Rag.like_is_evaluated. simpl. apply andb_false_r.
  - intros Hk Hq. rewrite retrieve_selects_short by (lia || exact Hq).
    eexists. split; [reflexivity|].
    unfold Rag.select_documents, Rag.limit.
    destruct (Z.ltb_spec top_k 0); [|lia].
    rewrite length_map, length_sort_desc. reflexivity.
  - intros Hk. unfold Rag.retrieve_relevant_docs.
    destruct (Rag.fits_int64 top_k) eqn:Hfit; [|reflexivity].
    apply fits_int64_spec in Hfit. lia.
  - intros Hk H0 Hq (row & Hrow & Hpass).
    apply retrieve_raises; [exact Hk | exact Hq |].
    unfold Rag.like_is_evaluated.
    apply andb_true_intro. split.
    + apply negb_true_iff, Z.eqb_neq, H0.
    + apply existsb_exists. exists row. split; assumption.
Qed.

Lemma retrieval_limit_edges_witness :
  (exists docs : list Rag.RetrievedDoc,
      Rag.retrieve_relevant_docs (Rag.sample_database "2024-01-01 00:00:00")
        "setup" None (-1)
      = (Rag.sample_database "2024-01-01 00:00:00", Ok docs)
      /\ List.length docs = 2%nat)
  /\ Rag.retrieve_relevant_docs (Rag.sample_database "2024-01-01 00:00:00")
       "setup" None (2 ^ 63)
     = (Rag.sample_database "2024-01-01 00:00:00", Raise OverflowError).
Proof.
  destruct (retrieval_limit_edges (Rag.sample_database "2024-01-01 00:00:00")
              "setup" None (-1)) as (_ & Hneg & _).
  destruct (retrieval_limit_edges (Rag.sample_database "2024-01-01 00:00:00")
              "setup" None (2 ^ 63)) as (_ & _ & Hbig & _).
  split.
  - destruct Hneg as (docs & Hdocs & Hlen);
      [lia | vm_compute; discriminate |].
    exists docs. split; [exact Hdocs|]. rewrite Hlen. vm_compute. reflexivity.
  - apply Hbig. right. lia.
Defined.

End MoreIndex.

(** ** More on the classifier, the selector and the validator *)

Section MorePipeline.
Import Py.

Lemma classify_general_iff (u r s : Z) :
  0 <= u -> 0 <= r -> 0 <= s ->
  In (if (r <=? u) && (s <=? u) then (if 0 <? u then "Unity" else "General")
      else if (s <=? r) then (if 0 <? r then "Unreal" else "General")
      else (if 0 <? s then "Shader" else "General"))
     Schemas.CategoryEnum
  /\ ((if (r <=? u) && (s <=? u) then (if 0 <? u then "Unity" else "General")
       else if (s <=? r) then (if 0 <? r then "Unreal" else "General")
       else (if 0 <? s then "Shader" else "General")) = "General"
      <-> u = 0 /\ r = 0 /\ s = 0).
Proof.
  intros Hu Hr Hs.
  destruct (Z.leb_spec r u), (Z.leb_spec s u), (Z.leb_spec s r),
    (Z.ltb_spec 0 u), (Z.ltb_spec 0 r), (Z.ltb_spec 0 s); simpl;
    (split; [tauto|]); split; intros; try discriminate; try lia;
    try reflexivity.
Qed.

Lemma app_categorize_query_in_enum (query : string) :
  In (App.categorize_query query) Schemas.CategoryEnum.
Proof.
  rewrite app_categorize_query_by_scores. cbv zeta.
  apply classify_general_iff; apply count_in_nonneg.
Qed.

(** X14.  Both classifiers return one of the four categories, and
    General exactly when the query hits no keyword of any category. *)
Theorem categorize_query_general_iff_no_hit (query : string) :
  In (App.categorize_query query) Schemas.CategoryEnum
  /\ (App.categorize_query query = "General"
      <-> App.unity_score query = 0
          /\ App.unreal_score query = 0
          /\ App.shader_score query = 0)
  /\ In (StreamlitApp.categorize_query query) Schemas.CategoryEnum
  /\ (StreamlitApp.categorize_query query = "General"
      <-> StreamlitApp.unity_score query = 0
          /\ StreamlitApp.unreal_score query = 0
          /\ StreamlitApp.shader_score query = 0).
Proof.
  rewrite app_categorize_query_by_scores, streamlit_categorize_query_by_scores.
  cbv zeta.
  destruct (classify_general_iff (App.unity_score query)
              (App.unreal_score query) (App.shader_score query))
    as [Hin Hiff]; try apply count_in_nonneg.
  destruct (classify_general_iff (StreamlitApp.unity_score query)
              (StreamlitApp.unreal_score query)
              (StreamlitApp.shader_score query))
    as [Hin' Hiff']; try apply count_in_nonneg.
  auto.
Qed.

Lemma categorize_query_general_iff_no_hit_witness :
  App.categorize_query "hello world" = "General"
  /\ StreamlitApp.categorize_query "hello world" = "General".
Proof.
  destruct (categorize_query_general_iff_no_hit "hello world")
    as (_ & Happ & _ & Hstreamlit).
  split; [apply Happ | apply Hstreamlit]; vm_compute; repeat split.
Defined.

Lemma count_in_app (ws ws' : list string) (s : string) :
  count_in (ws ++ ws') s = count_in ws s + count_in ws' s.
Proof.
  unfold count_in. rewrite List.filter_app, length_app. lia.
Qed.

(** X15.  The classifier of the Streamlit front end knows every
    keyword of the classifier of [app.py] and two more per category,
    so its scores are at least those of [app.py]: a query it sends to
    General goes to General in [app.py] too.  The two classifiers do
    not always agree on the category. *)
Theorem streamlit_classifier_extends_app (query : string) :
  App.unity_score query <= StreamlitApp.unity_score query
  /\ App.unreal_score query <= StreamlitApp.unreal_score query
  /\ App.shader_score query <= StreamlitApp.shader_score query
  /\ (StreamlitApp.categorize_query query = "General" ->
      App.categorize_query query = "General")
  /\ App.categorize_query "gameobject unreal" = "Unreal"
  /\ StreamlitApp.categorize_query "gameobject unreal" = "Unity".
Proof.
  assert (Hu : App.unity_score query <= StreamlitApp.unity_score query).
  { unfold App.unity_score, StreamlitApp.unity_score.
    change StreamlitApp.unity_keywords
      with (App.unity_keywords ++ ["gameobject"])%list.
    rewrite count_in_app.
    pose proof (count_in_nonneg ["gameobject"] (lower query)). lia. }
  assert (Hr : App.unreal_score query <= StreamlitApp.unreal_score query).
  { unfold App.unreal_score, StreamlitApp.unreal_score.
    change StreamlitApp.unreal_keywords
      with (App.unreal_keywords ++ ["uclass"; "generated_body"])%list.
    rewrite count_in_app.
    pose proof (count_in_nonneg ["uclass"; "generated_body"] (lower query)).
    lia. }
  assert (Hs : App.shader_score query <= StreamlitApp.shader_score query).
  { unfold App.shader_score, StreamlitApp.shader_score.
    change StreamlitApp.shader_keywords
      with (App.shader_keywords ++ ["vertex"; "fragment"])%list.
    rewrite count_in_app.
    pose proof (count_in_nonneg ["vertex"; "fragment"] (lower query)). lia. }
  split; [exact Hu|]. split; [exact Hr|]. split; [exact Hs|].
  split; [|split; vm_compute; reflexivity].
  pose proof (count_in_nonneg App.unity_keywords (lower query)) as Hu0.
  pose proof (count_in_nonneg App.unreal_keywords (lower query)) as Hr0.
  pose proof (count_in_nonneg App.shader_keywords (lower query)) as Hs0.
  fold (App.unity_score query) in Hu0. fold (App.unreal_score query) in Hr0.
  fold (App.shader_score query) in Hs0.
  rewrite app_categorize_query_by_scores, streamlit_categorize_query_by_scores.
  cbv zeta.
  repeat match goal with
         | |- context [?a <? ?b] => destruct (Z.ltb_spec a b)
         | |- context [?a <=? ?b] => destruct (Z.leb_spec a b)
         end;
    simpl; intros; solve [reflexivity | discriminate | lia].
Qed.

Lemma streamlit_classifier_extends_app_witness :
  App.categorize_query "hello world" = "General".
Proof.
  apply (proj1 (proj2 (proj2 (proj2
           (streamlit_classifier_extends_app "hello world"))))).
  vm_compute. reflexivity.
Defined.

(** The category a response of [generate_response] reports, and the
    [return] it comes from. *)
Lemma generate_response_by_category (query category : string) :
  (category = "Unity"
   /\ forall e, dict_get App.UNITY_KNOWLEDGE "teleport" = Some e ->
                App.generate_response query category
                = App.entry_response query "Unity" e)
  \/ (category = "Unreal"
      /\ forall e, dict_get App.UNREAL_KNOWLEDGE "multiplayer" = Some e ->
                   App.generate_response query category
                   = App.entry_response query "Unreal" e)
  \/ (category = "Shader"
      /\ forall e, dict_get App.SHADER_KNOWLEDGE "occlusion" = Some e ->
                   App.generate_response query category
                   = App.entry_response query "Shader" e)
  \/ (category <> "Unity" /\ category <> "Unreal" /\ category <> "Shader"
      /\ App.generate_response query category = App.general_response query).
Proof.
  unfold App.generate_response.
  destruct (String.eqb_spec category "Unity") as [->|Hu].
  { left. split; [reflexivity|]. intros e He.
    rewrite (selected_entry_is_used _ _ _ _ _
               (unity_topic_is_teleport query) He). reflexivity. }
  destruct (String.eqb_spec category "Unreal") as [->|Hr].
  { right. left. split; [reflexivity|]. intros e [= <-]. reflexivity. }
  destruct (String.eqb_spec category "Shader") as [->|Hs].
  { right. right. left. split; [reflexivity|]. intros e [= <-]. reflexivity. }
  right. right. right. repeat split; try assumption.
  unfold App.generate_response_at, App.select_topic.
  destruct (String.eqb_spec category "Unity"); [contradiction|].
  destruct (String.eqb_spec category "Unreal"); [contradiction|].
  destruct (String.eqb_spec category "Shader"); [contradiction|].
  reflexivity.
Qed.

(** X16.  Whatever the query and the category handed to it,
    [generate_response] returns a response that the response schema
    refuses, and only because of subtask descriptions without an
    actionable verb: every other constraint of the schema (category in
    the closed set, sizes of the lists, lengths of the texts,
    difficulty, links, time unit) is met by every response. *)
Theorem generate_response_breaks_schema_only_by_verbs
  (query category : string) :
  ~ Schemas.passes (App.generate_response query category)
  /\ Forall (fun v => exists i : nat, v = Schemas.DescriptionNotActionable i)
       (Schemas.violations (App.generate_response query category)).
Proof.
  unfold Schemas.passes.
  destruct (generate_response_by_category query category)
    as [[_ H]|[[_ H]|[[_ H]|(_ & _ & _ & H)]]];
    try rewrite (H _ eq_refl); try rewrite H;
    (split; [vm_compute; discriminate|]);
    vm_compute; repeat constructor; eexists; reflexivity.
Qed.

(** The response category [generate_response] reports. *)
Lemma generate_response_category (query category : string) :
  CodeXRResponse.category (App.generate_response query category)
  = if existsb (String.eqb category) ["Unity"; "Unreal"; "Shader"]
    then category else "General".
Proof.
  destruct (generate_response_by_category query category)
    as [[-> H]|[[-> H]|[[-> H]|(Hu & Hr & Hs & H)]]];
    try (rewrite (H _ eq_refl); reflexivity).
  rewrite H. simpl.
  destruct (String.eqb_spec category "Unity"); [contradiction|].
  destruct (String.eqb_spec category "Unreal"); [contradiction|].
  destruct (String.eqb_spec category "Shader"); [contradiction|].
  reflexivity.
Qed.

(** X17.  The response of [process_query] repeats the query of the
    request and reports one of the four categories: without a category
    in the request (none, or the empty text) the one the classifier
    gives the query, with Unity, Unreal or Shader in the request that
    one whatever the query says, and General for any other text in the
    request. *)
Theorem process_query_category (request : App.QueryRequest) :
  CodeXRResponse.query (App.process_query request)
  = App.request_query request
  /\ In (CodeXRResponse.category (App.process_query request))
       Schemas.CategoryEnum
  /\ (App.request_category request = None
      \/ App.request_category request = Some EmptyString ->
      App.process_query request = App.pipeline (App.request_query request)
      /\ CodeXRResponse.category (App.process_query request)
         = App.categorize_query (App.request_query request))
  /\ (forall hint : string,
         App.request_category request = Some hint ->
         hint <> EmptyString ->
         CodeXRResponse.category (App.process_query request)
         = if existsb (String.eqb hint) ["Unity"; "Unreal"; "Shader"]
           then hint else "General").
Proof.
  unfold App.process_query. cbv zeta.
  split; [|split; [|split]].
  - destruct (generate_response_by_category (App.request_query request)
                (App.key_or (App.request_category request)
                   (App.categorize_query (App.request_query request))))
      as [[_ H]|[[_ H]|[[_ H]|(_ & _ & _ & H)]]];
      try rewrite (H _ eq_refl); try rewrite H; reflexivity.
  - rewrite generate_response_category.
    match goal with
    | |- context [existsb (String.eqb ?c) _] => generalize c
    end.
    intros c. simpl.
    destruct (String.eqb_spec c "Unity") as [->|]; [simpl; tauto|].
    destruct (String.eqb_spec c "Unreal") as [->|]; [simpl; tauto|].
    destruct (String.eqb_spec c "Shader") as [->|]; simpl; tauto.
  - intros Hnone.
    assert (Hkey : App.key_or (App.request_category request)
                     (App.categorize_query (App.request_query request))
                   = App.categorize_query (App.request_query request))
      by (destruct Hnone as [-> | ->]; reflexivity).
    rewrite Hkey. split; [reflexivity|].
    rewrite generate_response_category.
    pose proof (app_categorize_query_in_enum (App.request_query request))
      as Hin.
    simpl in Hin.
    destruct Hin as [<-|[<-|[<-|[<-|[]]]]]; reflexivity.
  - intros hint Hhint Hne. rewrite Hhint.
    rewrite (key_or_nonempty _ _ Hne). apply generate_response_category.
Qed.

Lemma process_query_category_witness :
  CodeXRResponse.category
    (App.process_query
       (App.mkQueryRequest "How do I add teleport locomotion in Unity VR?"
          (Some "Unreal"))) = "Unreal"
  /\ CodeXRResponse.category
       (App.process_query (App.mkQueryRequest "hello world" None))
     = App.categorize_query "hello world".
Proof.
  split.
  - apply (proj2 (proj2 (proj2 (process_query_category
             (App.mkQueryRequest
                "How do I add teleport locomotion in Unity VR?"
                (Some "Unreal"))))) "Unreal");
      [reflexivity | discriminate].
  - apply (proj1 (proj2 (proj2 (process_query_category
             (App.mkQueryRequest "hello world" None))))).
    left. reflexivity.
Defined.

(** X18.  A response that the response schema accepts meets the four
    success criteria of [validate_success_criteria].  The criteria are
    weaker than the schema: the responses of the pipeline to the demo
    queries meet all four and are refused by the schema. *)
Theorem schema_valid_meets_success_criteria (response : CodeXRResponse.t) :
  (Schemas.passes response ->
   Forall (fun criterion => snd criterion = true)
     (Schemas.validate_success_criteria response))
  /\ Forall (fun q =>
               Schemas.validate_demo_scenario q = true
               /\ Forall (fun criterion => snd criterion = true)
                    (Schemas.validate_success_criteria (App.pipeline q))
               /\ ~ Schemas.passes (App.pipeline q))
       Schemas.demo_queries.
Proof.
  split.
  - unfold Schemas.passes, Schemas.violations. intros Hpass.
    repeat match type of Hpass with
           | (_ ++ _)%list = [] =>
               let H := fresh "Hv" in
               apply app_eq_nil in Hpass as [H Hpass]
           end.
    unfold Schemas.items_bounds in *.
    unfold Schemas.validate_success_criteria.
    repeat match goal with
           | H : (if ?a <? ?b then _ else _) = [] |- _ =>
               destruct (Z.ltb_spec a b); [discriminate H | clear H]
           end.
    destruct (existsb (String.eqb (CodeXRResponse.category response))
                Schemas.CategoryEnum); [|discriminate].
    repeat constructor; simpl;
      rewrite ?andb_true_r, ?andb_true_iff; repeat split; lia.
  - repeat constructor; try (vm_compute; reflexivity);
      unfold Schemas.passes; vm_compute; discriminate.
Qed.

Lemma schema_valid_meets_success_criteria_witness :
  Forall (fun criterion => snd criterion = true)
    (Schemas.validate_success_criteria
       {| CodeXRResponse.query := "How do I add teleport locomotion?";
          CodeXRResponse.category := "Unity";
          CodeXRResponse.subtasks :=
            [ SubTask.mk "Create XR Origin (Camera Rig)" None None;
              SubTask.mk "Add Teleportation Provider" None None;
              SubTask.mk "Configure Teleport Areas" None None ];
          CodeXRResponse.code_snippet := App.UNITY_TELEPORT_MAIN_CODE;
          CodeXRResponse.best_practices :=
            [ "Use NavMesh for teleportation boundaries";
              "Provide visual feedback for valid teleport areas";
              "Consider comfort settings to reduce motion sickness" ];
          CodeXRResponse.gotchas :=
            [ "NavMesh must be baked for teleportation to work";
              "Performance impact on mobile VR platforms" ];
          CodeXRResponse.difficulty_rating := 3;
          CodeXRResponse.documentation_links :=
            [ "https://docs.unity3d.com/Manual/XR.html";
              "https://docs.unity3d.com/Manual/nav-BuildingNavMesh.html" ];
          CodeXRResponse.estimated_time := "1-3 hours" |}).
Proof.
  apply (proj1 (schema_valid_meets_success_criteria _)).
  vm_compute. reflexivity.
Defined.

End MorePipeline.

(** ** The Streamlit front end *)

Section StreamlitDemo.
Import Py.

(** The topic scan finds a topic exactly when one of the keys occurs
    in the query. *)
Lemma first_demo_topic_found (topics : list (string * StreamlitApp.DemoEntry))
  (query_lower : string) :
  (exists data, StreamlitApp.first_demo_topic topics query_lower = Some data)
  <-> existsb (fun key => contains key query_lower) (map fst topics) = true.
Proof.
  induction topics as [|[key data] topics IH]; simpl.
  - split; [intros [data H]; discriminate | discriminate].
  - destruct (contains key query_lower); simpl; [|exact IH].
    split; [reflexivity | intros _; eexists; reflexivity].
Qed.

(** The categories of [DEMO_KNOWLEDGE] and the topic keys of each. *)
Lemma demo_knowledge_topics :
  map (fun entry => (fst entry, map fst (snd entry)))
    StreamlitApp.DEMO_KNOWLEDGE
  = [ ("Unity", ["teleport"]);
      ("Unreal", ["multiplayer"]);
      ("Shader", ["occlusion"]) ].
Proof. reflexivity. Qed.

Lemma demo_topics_of_category (category : string)
  (topics : list (string * StreamlitApp.DemoEntry)) :
  dict_get StreamlitApp.DEMO_KNOWLEDGE category = Some topics ->
  (category = "Unity" /\ map fst topics = ["teleport"])
  \/ (category = "Unreal" /\ map fst topics = ["multiplayer"])
  \/ (category = "Shader" /\ map fst topics = ["occlusion"]).
Proof.
  unfold StreamlitApp.DEMO_KNOWLEDGE. cbn [dict_get].
  destruct (String.eqb_spec "Unity" category) as [<-|_].
  { intros [= <-]. left. split; reflexivity. }
  destruct (String.eqb_spec "Unreal" category) as [<-|_].
  { intros [= <-]. right. left. split; reflexivity. }
  destruct (String.eqb_spec "Shader" category) as [<-|_]; [|discriminate].
  intros [= <-]. right. right. split; reflexivity.
Qed.

(** X19.  [get_demo_response] answers exactly when the category is
    Unity, Unreal or Shader and the lowercased query names the topic
    of that category (teleport, multiplayer, occlusion); for General,
    for any other category and for a query that does not name the
    topic it returns nothing.  An answer repeats the query and the
    category, rates Shader 4 and the others 3, and its [raw_json] says
    what its typed fields say. *)
Theorem demo_response_needs_topic (query category : string) :
  ((exists response,
       StreamlitApp.get_demo_response query category = Some response)
   <-> (category = "Unity" /\ contains "teleport" (lower query) = true)
       \/ (category = "Unreal"
           /\ contains "multiplayer" (lower query) = true)
       \/ (category = "Shader" /\ contains "occlusion" (lower query) = true))
  /\ (forall response,
         StreamlitApp.get_demo_response query category = Some response ->
         CodeXRResponse.query (StreamlitApp.body response) = query
         /\ CodeXRResponse.category (StreamlitApp.body response) = category
         /\ CodeXRResponse.difficulty_rating (StreamlitApp.body response)
            = (if String.eqb category "Shader" then 4 else 3)
         /\ StreamlitApp.raw_json response = StreamlitApp.body response).
Proof.
  unfold StreamlitApp.get_demo_response. cbv zeta. split.
  - destruct (dict_get StreamlitApp.DEMO_KNOWLEDGE category) as [topics|]
      eqn:Hcat.
    + pose proof (first_demo_topic_found topics (lower query)) as Hfound.
      destruct (demo_topics_of_category _ _ Hcat)
        as [[-> Hkeys]|[[-> Hkeys]|[-> Hkeys]]];
        rewrite Hkeys in Hfound; simpl in Hfound;
        rewrite orb_false_r in Hfound;
        (split;
         [ intros [response Hsome];
           destruct (StreamlitApp.first_demo_topic topics (lower query))
             as [data|]; [|discriminate];
           assert (Hin : contains _ (lower query) = true)
             by (apply Hfound; eexists; reflexivity);
           rewrite Hin; tauto
         | intros [[Hc Hin]|[[Hc Hin]|[Hc Hin]]]; try discriminate Hc;
           apply Hfound in Hin as [data ->]; eexists; reflexivity ]).
    + split; [intros [response H]; discriminate|].
      unfold StreamlitApp.DEMO_KNOWLEDGE in Hcat. cbn [dict_get] in Hcat.
      intros [[-> _]|[[-> _]|[-> _]]]; discriminate Hcat.
  - intros response.
    destruct (dict_get StreamlitApp.DEMO_KNOWLEDGE category) as [topics|];
      [|discriminate].
    destruct (StreamlitApp.first_demo_topic topics (lower query)) as [data|];
      [|discriminate].
    intros [= <-]. repeat split.
Qed.

Lemma demo_response_needs_topic_witness :
  exists response,
    StreamlitApp.get_demo_response
      "How do I set up multiplayer in Unreal VR?" "Unreal" = Some response
    /\ CodeXRResponse.category (StreamlitApp.body response) = "Unreal".
Proof.
  destruct (demo_response_needs_topic
              "How do I set up multiplayer in Unreal VR?" "Unreal")
    as [Hiff Hfields].
  destruct (proj2 Hiff) as [response Hsome].
  - right. left. split; [reflexivity | vm_compute; reflexivity].
  - exists response. split; [exact Hsome | apply (Hfields _ Hsome)].
Defined.

(** X20.  What the static answers of the front end are worth to the
    response schema: a demo answer for Unity is accepted; a demo
    answer for Unreal or Shader is refused for one subtask description
    without an actionable verb; the fallback answer, for a category of
    the closed set, is refused for having one subtask where three are
    required, and for nothing else. *)
Theorem streamlit_static_answers_against_schema (query : string) :
  (forall response,
      StreamlitApp.get_demo_response query "Unity" = Some response ->
      Schemas.passes (StreamlitApp.body response))
  /\ (forall response,
         StreamlitApp.get_demo_response query "Unreal" = Some response ->
         Schemas.violations (StreamlitApp.body response)
         = [Schemas.DescriptionNotActionable 0])
  /\ (forall response,
         StreamlitApp.get_demo_response query "Shader" = Some response ->
         Schemas.violations (StreamlitApp.body response)
         = [Schemas.DescriptionNotActionable 3])
  /\ (forall category,
         In category Schemas.CategoryEnum ->
         Schemas.violations
           (StreamlitApp.body
              (StreamlitApp.generate_fallback_response query category))
         = [Schemas.SubtasksMinItems]).
Proof.
  assert (Hdemo : forall category response,
             StreamlitApp.get_demo_response query category = Some response ->
             exists topics key data,
               dict_get StreamlitApp.DEMO_KNOWLEDGE category = Some topics
               /\ In (key, data) topics
               /\ response
                  = StreamlitApp.create_demo_response query category data).
  { intros category response. unfold StreamlitApp.get_demo_response.
    cbv zeta.
    destruct (dict_get StreamlitApp.DEMO_KNOWLEDGE category) as [topics|];
      [|discriminate].
    generalize (lower query) as ql. intros ql.
    assert (Hscan : forall data,
               StreamlitApp.first_demo_topic topics ql = Some data ->
               exists key, In (key, data) topics).
    { induction topics as [|[key data0] topics IH]; simpl; [discriminate|].
      intros data. destruct (contains key ql).
      - intros [= <-]. exists key. left. reflexivity.
      - intros H. destruct (IH data H) as [key' Hin].
        exists key'. right. exact Hin. }
    destruct (StreamlitApp.first_demo_topic topics ql) as [data|];
      [|discriminate].
    intros [= <-]. destruct (Hscan data eq_refl) as [key Hin].
    exists topics, key, data. auto. }
  unfold Schemas.passes.
  split; [|split; [|split]].
  - intros response Hsome.
    destruct (Hdemo _ _ Hsome) as (topics & key & data & Hcat & Hin & ->).
    vm_compute in Hcat. injection Hcat as <-.
    destruct Hin as [[= <- <-]|[]]. vm_compute. reflexivity.
  - intros response Hsome.
    destruct (Hdemo _ _ Hsome) as (topics & key & data & Hcat & Hin & ->).
    vm_compute in Hcat. injection Hcat as <-.
    destruct Hin as [[= <- <-]|[]]. vm_compute. reflexivity.
  - intros response Hsome.
    destruct (Hdemo _ _ Hsome) as (topics & key & data & Hcat & Hin & ->).
    vm_compute in Hcat. injection Hcat as <-.
    destruct Hin as [[= <- <-]|[]]. vm_compute. reflexivity.
  - intros category Hin. simpl in Hin.
    destruct Hin as [<-|[<-|[<-|[<-|[]]]]]; vm_compute; reflexivity.
Qed.

Lemma streamlit_static_answers_against_schema_witness :
  Schemas.violations
    (StreamlitApp.body
       (StreamlitApp.generate_fallback_response "hello world" "General"))
  = [Schemas.SubtasksMinItems].
Proof.
  apply (proj2 (proj2 (proj2
           (streamlit_static_answers_against_schema "hello world")))).
  right. right. right. left. reflexivity.
Defined.

End StreamlitDemo.

Section StreamlitSearch.
Import Py.

(** X21.  [search_documentation] returns at most one entry and never
    raises.  With a SERP engine configured the Bing engine is not
    consulted at all, not even when the SERP engine raises: the only
    entry is then the notice that web search is unavailable.  Without
    any engine the list is empty. *)
Theorem search_documentation_uses_one_engine (query : string)
  (search_engines : StreamlitApp.SearchEngines) :
  (List.length (StreamlitApp.search_documentation query search_engines)
   <= 1)%nat
  /\ (forall run : string -> result string,
         StreamlitApp.serp search_engines = Some run ->
         forall other : option (string -> result string),
           StreamlitApp.search_documentation query search_engines
           = StreamlitApp.search_documentation query
               {| StreamlitApp.serp := Some run;
                  StreamlitApp.bing := other |})
  /\ (forall (run : string -> result string) (e : exn),
         StreamlitApp.serp search_engines = Some run ->
         run ("AR VR development " ++ query
              ++ " official documentation tutorial") = Raise e ->
         StreamlitApp.search_documentation query search_engines
         = [ "Web search temporarily unavailable - using cached knowledge" ])
  /\ (StreamlitApp.serp search_engines = None ->
      StreamlitApp.bing search_engines = None ->
      StreamlitApp.search_documentation query search_engines = []).
Proof.
  unfold StreamlitApp.search_documentation. cbv zeta.
  split; [|split; [|split]].
  - destruct (StreamlitApp.serp search_engines) as [run|];
      [destruct (run _); simpl; lia|].
    destruct (StreamlitApp.bing search_engines) as [run|];
      [destruct (run _); simpl; lia | simpl; lia].
  - intros run -> other. reflexivity.
  - intros run e -> ->. reflexivity.
  - intros -> ->. reflexivity.
Qed.

Lemma search_documentation_uses_one_engine_witness :
  StreamlitApp.search_documentation "teleport"
    {| StreamlitApp.serp := Some (fun _ => Raise (ProviderError "HTTP 429"));
       StreamlitApp.bing := Some (fun _ => Ok "Unity teleportation docs") |}
  = [ "Web search temporarily unavailable - using cached knowledge" ].
Proof.
  apply (proj1 (proj2 (proj2 (search_documentation_uses_one_engine "teleport"
           {| StreamlitApp.serp :=
                Some (fun _ => Raise (ProviderError "HTTP 429"));
              StreamlitApp.bing :=
                Some (fun _ => Ok "Unity teleportation docs") |})))
           (fun _ => Raise (ProviderError "HTTP 429"))
           (ProviderError "HTTP 429"));
    reflexivity.
Defined.

End StreamlitSearch.

Section StreamlitBackends.
Import Py.
Context {GeminiAnswer OpenAIAnswer : Type}.
Context (GEMINI_API_KEY OPENAI_API_KEY : string).
Context (generate_content : string -> result GeminiAnswer).
Context (chat_completion_create : string -> result OpenAIAnswer).
Context (decode_gemini : GeminiAnswer -> result StreamlitApp.Response).
Context (decode_openai : OpenAIAnswer -> result StreamlitApp.Response).

(** X22.  [process_with_llm] always returns a response.  A query that
    has a demo answer gets it, whatever the backend chosen and
    whatever the services do.  Otherwise the response is what the
    chosen service answered, decoded, and this only when the choice is
    "Gemini 2.5" or "GPT-4o-mini" and the key of that very service is
    set; in every other case (another choice, the key of the chosen
    service missing, the service raising, its answer not decodable) it
    is the fallback answer.  The service that was not chosen is never
    a substitute. *)
Theorem process_with_llm_outcomes (query category : string)
  (search_results : list string) (llm_choice : string) :
  (forall demo,
      StreamlitApp.get_demo_response query category = Some demo ->
      StreamlitApp.process_with_llm GEMINI_API_KEY OPENAI_API_KEY
        generate_content chat_completion_create decode_gemini decode_openai
        query category search_results llm_choice = demo)
  /\ (StreamlitApp.get_demo_response query category = None ->
      StreamlitApp.process_with_llm GEMINI_API_KEY OPENAI_API_KEY
        generate_content chat_completion_create decode_gemini decode_openai
        query category search_results llm_choice
      = StreamlitApp.generate_fallback_response query category
      \/ (llm_choice = "Gemini 2.5" /\ GEMINI_API_KEY <> EmptyString
          /\ exists answer,
               generate_content
                 (StreamlitApp.gemini_prompt
                    (StreamlitApp.llm_context query category search_results)
                    query category) = Ok answer
               /\ decode_gemini answer
                  = Ok (StreamlitApp.process_with_llm GEMINI_API_KEY
                          OPENAI_API_KEY generate_content
                          chat_completion_create decode_gemini decode_openai
                          query category search_results llm_choice))
      \/ (llm_choice = "GPT-4o-mini" /\ OPENAI_API_KEY <> EmptyString
          /\ exists answer,
               chat_completion_create
                 (StreamlitApp.llm_context query category search_results)
               = Ok answer
               /\ decode_openai answer
                  = Ok (StreamlitApp.process_with_llm GEMINI_API_KEY
                          OPENAI_API_KEY generate_content
                          chat_completion_create decode_gemini decode_openai
                          query category search_results llm_choice)))
  /\ (StreamlitApp.get_demo_response query category = None ->
      (llm_choice = "Gemini 2.5" ->
       GEMINI_API_KEY = EmptyString
       \/ (exists e,
              generate_content
                (StreamlitApp.gemini_prompt
                   (StreamlitApp.llm_context query category search_results)
                   query category) = Raise e)
       \/ (exists answer e,
              generate_content
                (StreamlitApp.gemini_prompt
                   (StreamlitApp.llm_context query category search_results)
                   query category) = Ok answer
              /\ decode_gemini answer = Raise e)) ->
      (llm_choice = "GPT-4o-mini" ->
       OPENAI_API_KEY = EmptyString
       \/ (exists e,
              chat_completion_create
                (StreamlitApp.llm_context query category search_results)
              = Raise e)
       \/ (exists answer e,
              chat_completion_create
                (StreamlitApp.llm_context query category search_results)
              = Ok answer
              /\ decode_openai answer = Raise e)) ->
      StreamlitApp.process_with_llm GEMINI_API_KEY OPENAI_API_KEY
        generate_content chat_completion_create decode_gemini decode_openai
        query category search_results llm_choice
      = StreamlitApp.generate_fallback_response query category).
Proof.
  unfold StreamlitApp.process_with_llm, StreamlitApp.process_with_gemini,
    StreamlitApp.process_with_openai.
  cbv zeta.
  split; [intros demo ->; reflexivity|].
  split.
  - intros ->.
    destruct (String.eqb_spec llm_choice "Gemini 2.5") as [Hg|Hg];
      destruct (String.eqb_spec GEMINI_API_KEY EmptyString) as [Hgk|Hgk];
      destruct (String.eqb_spec llm_choice "GPT-4o-mini") as [Ho|Ho];
      destruct (String.eqb_spec OPENAI_API_KEY EmptyString) as [Hok|Hok];
      simpl; try (left; reflexivity);
      try (destruct (generate_content _) as [answer|e];
           [destruct (decode_gemini answer) as [decoded|e] eqn:Hdec|];
           [right; left; repeat split; try assumption;
            exists answer; split; [reflexivity | exact Hdec]
           | left; reflexivity | left; reflexivity]);
      try (destruct (chat_completion_create _) as [answer|e];
           [destruct (decode_openai answer) as [decoded|e] eqn:Hdec|];
           [right; right; repeat split; try assumption;
            exists answer; split; [reflexivity | exact Hdec]
           | left; reflexivity | left; reflexivity]).
  - intros -> Hgem Hopen.
    destruct (String.eqb_spec llm_choice "Gemini 2.5") as [Hg|Hg].
    + destruct (Hgem Hg) as [->|[[e He]|(answer & e & Ha & Hd)]]; simpl.
      * destruct (String.eqb_spec llm_choice "GPT-4o-mini") as [Ho|Ho];
          [rewrite Hg in Ho; discriminate Ho | reflexivity].
      * destruct (String.eqb GEMINI_API_KEY EmptyString); simpl.
        -- destruct (String.eqb_spec llm_choice "GPT-4o-mini") as [Ho|Ho];
             [rewrite Hg in Ho; discriminate Ho | reflexivity].
        -- rewrite He. reflexivity.
      * destruct (String.eqb GEMINI_API_KEY EmptyString); simpl.
        -- destruct (String.eqb_spec llm_choice "GPT-4o-mini") as [Ho|Ho];
             [rewrite Hg in Ho; discriminate Ho | reflexivity].
        -- rewrite Ha, Hd. reflexivity.
    + simpl.
      destruct (String.eqb_spec llm_choice "GPT-4o-mini") as [Ho|Ho];
        [|reflexivity].
      destruct (Hopen Ho) as [->|[[e He]|(answer & e & Ha & Hd)]]; simpl.
      * reflexivity.
      * destruct (String.eqb OPENAI_API_KEY EmptyString); simpl;
          [reflexivity | rewrite He; reflexivity].
      * destruct (String.eqb OPENAI_API_KEY EmptyString); simpl;
          [reflexivity | rewrite Ha, Hd; reflexivity].
Qed.

End StreamlitBackends.

Lemma process_with_llm_outcomes_witness :
  StreamlitApp.process_with_llm "gemini-key" EmptyString
    (fun _ : string => Py.Raise (Py.ProviderError "quota") : Py.result string)
    (fun _ : string => Py.Ok "{}" : Py.result string)
    (fun _ : string =>
       Py.Raise (Py.ProviderError "not JSON") : Py.result StreamlitApp.Response)
    (fun _ : string =>
       Py.Raise (Py.ProviderError "not JSON") : Py.result StreamlitApp.Response)
    "How do I track hands?" "General" [] "Gemini 2.5"
  = StreamlitApp.generate_fallback_response "How do I track hands?" "General".
Proof.
  apply (proj2 (proj2 (process_with_llm_outcomes "gemini-key" EmptyString
           (fun _ : string =>
              Py.Raise (Py.ProviderError "quota") : Py.result string)
           (fun _ : string => Py.Ok "{}" : Py.result string)
           (fun _ : string =>
              Py.Raise (Py.ProviderError "not JSON")
              : Py.result StreamlitApp.Response)
           (fun _ : string =>
              Py.Raise (Py.ProviderError "not JSON")
              : Py.result StreamlitApp.Response)
           "How do I track hands?" "General" [] "Gemini 2.5"))).
  - reflexivity.
  - intros _. right. left. eexists. reflexivity.
  - intros Hchoice. discriminate Hchoice.
Defined.

Section AgentChain.
Import Py.

Lemma until_first_nonempty (stop : Search.Tool -> bool) (tool : Search.Tool)
  (tools : list Search.Tool) :
  (1 <= List.length (Search.until_first stop (tool :: tools)))%nat.
Proof. simpl. destruct (stop tool); simpl; lia. Qed.

Lemma invocation_count_bounds (now : string) (tool : Search.Tool)
  (tools : list Search.Tool) (query category : string) :
  (2 <= List.length
          (Search.invocations
             (snd (Search.search_ar_vr_docs_traced now (tool :: tools)
                     query category)))
   <= 2 * S (List.length tools))%nat.
Proof.
  unfold Search.search_ar_vr_docs_traced. cbv zeta.
  change (snd (?a, ?b)) with b.
  rewrite run_queries_invocations.
  destruct (two_enhanced_queries query category) as (q1 & q2 & ->).
  cbn [flat_map Search.invocations Search.events app].
  rewrite app_nil_r, length_app, !length_map.
  pose proof (length_until_first (Search.ends_chain now q1) (tool :: tools)).
  pose proof (length_until_first (Search.ends_chain now q2) (tool :: tools)).
  pose proof (until_first_nonempty (Search.ends_chain now q1) tool tools).
  pose proof (until_first_nonempty (Search.ends_chain now q2) tool tools).
  cbn [List.length] in *. lia.
Qed.

(** X23.  The chain [_initialize_search_tools] builds holds the SERP
    provider when its key is set, then the Bing provider when its key
    is set, then always the DuckDuckGo provider, so it is never empty
    and has at most three providers.  A search of an agent built that
    way therefore makes at least two and at most six provider calls,
    the first call of each enhanced query going to the head of the
    chain. *)
Theorem initialized_chain_call_volume (serp_api_key bing_api_key : option string)
  (p : Search.Providers) (now query category : string) :
  In (map Search.name
        (Search._initialize_search_tools serp_api_key bing_api_key p))
     [ ["SERP_Search"; "Bing_Search"; "DuckDuckGo_Search"];
       ["SERP_Search"; "DuckDuckGo_Search"];
       ["Bing_Search"; "DuckDuckGo_Search"];
       ["DuckDuckGo_Search"] ]
  /\ (In "SERP_Search"
        (map Search.name
           (Search._initialize_search_tools serp_api_key bing_api_key p))
      <-> exists key, serp_api_key = Some key /\ key <> EmptyString)
  /\ (2 <= List.length
             (Search.invocations
                (snd (Search.search_ar_vr_docs_traced now
                        (Search._initialize_search_tools serp_api_key
                           bing_api_key p)
                        query category)))
      <= 6)%nat.
Proof.
  assert (Hkey : forall k : option string,
             match k with
             | Some s => negb (String.eqb s EmptyString)
             | None => false
             end = true
             <-> exists key, k = Some key /\ key <> EmptyString).
  { intros [s|]; split.
    - intros H. exists s. split; [reflexivity|].
      destruct (String.eqb_spec s EmptyString); [discriminate H | assumption].
    - intros (key & [= <-] & Hne).
      destruct (String.eqb_spec s EmptyString); [contradiction | reflexivity].
    - discriminate.
    - intros (key & H & _). discriminate H. }
  unfold Search._initialize_search_tools. cbv zeta.
  pose proof (Hkey serp_api_key) as Hserp.
  destruct (match serp_api_key with
            | Some s => negb (String.eqb s EmptyString)
            | None => false
            end);
    destruct (match bing_api_key with
              | Some s => negb (String.eqb s EmptyString)
              | None => false
              end);
    (split; [simpl; tauto|]);
    (split;
     [ simpl; split;
       [ intros H; apply Hserp; try reflexivity;
         repeat (destruct H as [H|H]; try discriminate H); contradiction
       | intros H; apply Hserp in H; try discriminate H; tauto ]
     | ]);
    match goal with
    | |- context [Search.search_ar_vr_docs_traced now ?chain query category] =>
        let chain' := eval cbn [app] in chain in
        change chain with chain'
    end;
    match goal with
    | |- context [Search.search_ar_vr_docs_traced now (?t :: ?ts)
                    query category] =>
        pose proof (invocation_count_bounds now t ts query category) as Hcalls;
        cbn [List.length] in Hcalls; lia
    end.
Qed.

Lemma initialized_chain_call_volume_witness :
  In "SERP_Search"
     (map Search.name
        (Search._initialize_search_tools (Some "serp-key") None
           Search.degraded_providers)).
Proof.
  apply (proj1 (proj2 (initialized_chain_call_volume (Some "serp-key") None
           Search.degraded_providers "2024-01-01T00:00:00" "teleport"
           "Unity"))).
  exists "serp-key". split; [reflexivity | discriminate].
Defined.

End AgentChain.
